(** * Asynchronous task orchestration of the ML backend: a shallow embedding

    The development follows the Python sources of the two iterations that
    carry the task layer:

    - [App10]: [app10/database/models.py] (table [tarefas]),
      [app10/worker.py] (Celery tasks and the status updater) and
      [app10/api/endpoints.py] (submission and status query);
    - [App9]: [app09/database/models.py] ([TarefaAssincrona] and its derived
      properties), [app9/worker.py] and [app9/api/endpoints.py].

    Conventions of the embedding.
    - Instants ([datetime]) and [time.time()] readings are integers, counted
      in microseconds; a [timedelta] is the integer difference, so
      [total_seconds()] is that number of microseconds (divided by 10^6 in
      the source, which only rescales it).
    - Every read of the wall clock and every generated identifier comes from
      an oracle stored in the world, so nothing is assumed about their values.
    - A relational table is the list of its committed rows; an open session
      holds an uncommitted view which [commit] publishes and [rollback] or
      [close] discards.
    - Python exceptions are a result ([Levanta]) next to the world reached so
      far: effects done before a [raise] persist, as in Python.
    - Calls to the logger are not effects of interest and are left out; the
      Prometheus error counter, the database session calls, the broker and the
      executor adapter are recorded in a trace of events. *)

From Stdlib Require Import ZArith List String Bool Lia DecimalString Sorted.
Import ListNotations.

Local Open Scope string_scope.
Local Open Scope Z_scope.
Set Warnings "-register-all".

(** ** Python values shared by both iterations *)

(** JSON-compatible payloads.  Numbers are the source's floats and integers,
    kept as integers (fixed point); [JData t] is the ISO-8601 text of the
    instant [t]; [JTexto j] is the text [str(j)]. *)
Inductive Json : Type :=
| JNull
| JBool (b : bool)
| JNum (z : Z)
| JStr (s : string)
| JData (t : Z)
| JTexto (j : Json)
| JLista (l : list Json)
| JDic (d : list (string * Json)).

Definition Dic : Type := list (string * Json).

(** [d[k] = v] on a dict literal: replace the entry when the key is there,
    append it otherwise (insertion order, as in CPython). *)
Fixpoint dic_set (k : string) (v : Json) (d : Dic) : Dic :=
  match d with
  | [] => [(k, v)]
  | (k', v') :: r => if String.eqb k' k then (k', v) :: r else (k', v') :: dic_set k v r
  end.

(** [d.get(k)]: the value under the first entry of key [k]. *)
Fixpoint dic_get (k : string) (d : Dic) : option Json :=
  match d with
  | [] => None
  | (k', v) :: r => if String.eqb k' k then Some v else dic_get k r
  end.

(** Truth value of an optional dict: [None] and [{}] are false. *)
Definition verdade_dic (o : option Dic) : bool :=
  match o with
  | Some (_ :: _) => true
  | _ => false
  end.

(** Truth value of an optional string: [None] and [''] are false. *)
Definition verdade_str (o : option string) : bool :=
  match o with
  | Some s => negb (String.eqb s "")
  | None => false
  end.

(** [str(n)] for a length. *)
Definition str_nat (n : nat) : string := NilZero.string_of_uint (Nat.to_uint n).

(** [x in lista] on strings. *)
Definition pertence (x : string) (l : list string) : bool :=
  existsb (String.eqb x) l.

(** An exception object: its class, the text [str(e)], and the
    [status_code] attribute when it is an [HTTPException]. *)
Record Excecao : Type := {
  exc_classe : string;
  exc_str : string;
  exc_status_code : option Z
}.

(** [HTTPException(status_code=codigo, detail=detail)] *)
Definition HTTPException (codigo : Z) (detail : string) : Excecao :=
  {| exc_classe := "HTTPException"; exc_str := detail;
     exc_status_code := Some codigo |}.

(** The error pydantic raises when a model is built from invalid fields. *)
Definition ValidationError (campo : string) : Excecao :=
  {| exc_classe := "ValidationError"; exc_str := campo;
     exc_status_code := None |}.

Definition AttributeError (classe nome : string) : Excecao :=
  {| exc_classe := "AttributeError";
     exc_str := "type object '" ++ classe ++ "' has no attribute '" ++ nome ++ "'";
     exc_status_code := None |}.

(** The error of [json.dumps] on an object it has no encoding for. *)
Definition TypeError (tipo : string) : Excecao :=
  {| exc_classe := "TypeError";
     exc_str := "Object of type " ++ tipo ++ " is not JSON serializable";
     exc_status_code := None |}.

Definition IntegrityError (coluna : string) : Excecao :=
  {| exc_classe := "IntegrityError";
     exc_str := "UNIQUE constraint failed: " ++ coluna;
     exc_status_code := None |}.

(** Result of a call: a value, or a raised exception. *)
Inductive Saida (A : Type) : Type :=
| Retorna (a : A)
| Levanta (e : Excecao).
Arguments Retorna {A} a.
Arguments Levanta {A} e.

Definition levantou {A} (s : Saida A) : bool :=
  match s with Levanta _ => true | Retorna _ => false end.

(** *** Names bound by the two forms of import of [datetime] *)

(** [import datetime] binds the module, [from datetime import datetime] binds
    the class. *)
Inductive Ligacao : Type := ModuloDatetime | ClasseDatetime.

(** Public attributes of the module [datetime] and of the class
    [datetime.datetime] (CPython 3). *)
Definition atributos (o : Ligacao) : list string :=
  match o with
  | ModuloDatetime =>
      ["MAXYEAR"; "MINYEAR"; "UTC"; "date"; "datetime"; "datetime_CAPI";
       "sys"; "time"; "timedelta"; "timezone"; "tzinfo"]
  | ClasseDatetime =>
      ["astimezone"; "combine"; "ctime"; "date"; "day"; "dst"; "fold";
       "fromisocalendar"; "fromisoformat"; "fromordinal"; "fromtimestamp";
       "hour"; "isocalendar"; "isoformat"; "isoweekday"; "max";
       "microsecond"; "min"; "minute"; "month"; "now"; "replace";
       "resolution"; "second"; "strftime"; "strptime"; "time"; "timestamp";
       "timetuple"; "timetz"; "today"; "toordinal"; "tzinfo"; "tzname";
       "utcfromtimestamp"; "utcnow"; "utcoffset"; "utctimetuple"; "weekday";
       "year"]
  end.

Definition tem_atributo (o : Ligacao) (nome : string) : bool :=
  pertence nome (atributos o).

(** Microseconds in [timedelta(days=dias)]. *)
Definition micros_por_dia : Z := 86400000000.

(** *** [ORDER BY chave DESC]

    The order among rows of equal key is left open by SQL; the rows are
    taken here in the order of an insertion sort that keeps the table order
    among equal keys. *)
Fixpoint inserir_desc {A} (chave : A -> Z) (x : A) (l : list A) : list A :=
  match l with
  | [] => [x]
  | y :: r =>
      if chave y <=? chave x then x :: y :: r
      else y :: inserir_desc chave x r
  end.

Definition ordenar_desc {A} (chave : A -> Z) (l : list A) : list A :=
  fold_right (inserir_desc chave) [] l.

(** A list whose keys never increase from one element to a later one. *)
Definition decrescente {A} (chave : A -> Z) (l : list A) : Prop :=
  StronglySorted (fun a b => chave b <= chave a) l.

(** ** The world: database table, broker, clock, trace *)

(** A queue message of the broker: Celery task name, task id, arguments. *)
Record Mensagem : Type := {
  msg_nome : string;
  msg_task_id : string;
  msg_args : list Json
}.

Inductive Evento : Type :=
| EvCommit
| EvRollback
| EvFechar
| EvEnfileirar (m : Mensagem)
| EvAdaptador (operacao : string)
| EvErro (tipo_erro : string) (local_erro : string).

(** [Linha] is the type of the rows of the task table, [Extra] what else an
    iteration keeps in process memory. *)
Record Mundo (Linha Extra : Type) : Type := {
  tarefas : list Linha;            (* committed rows of the task table *)
  transacao : option (list Linha); (* uncommitted view of the open session *)
  fila : list Mensagem;            (* broker queue, oldest first *)
  relogio : nat -> Z;              (* the n-th reading of the clock *)
  lidas : nat;
  uuids : nat -> string;           (* the n-th [uuid.uuid4()] *)
  gerados : nat;
  eventos : list Evento;           (* trace, oldest first *)
  extra : Extra
}.
Arguments tarefas {Linha Extra} m.
Arguments transacao {Linha Extra} m.
Arguments fila {Linha Extra} m.
Arguments relogio {Linha Extra} m _.
Arguments lidas {Linha Extra} m.
Arguments uuids {Linha Extra} m _.
Arguments gerados {Linha Extra} m.
Arguments eventos {Linha Extra} m.
Arguments extra {Linha Extra} m.

(** Computations: a result and the world reached, also when an exception
    is raised. *)
Definition Comp (Linha Extra A : Type) : Type :=
  Mundo Linha Extra -> Saida A * Mundo Linha Extra.

Section Computacoes.
Context {Linha Extra : Type}.
Local Abbreviation W := (Mundo Linha Extra).
Local Abbreviation C := (Comp Linha Extra).

Definition com_tarefas (ts : list Linha) (w : W) : W :=
  {| tarefas := ts; transacao := transacao w; fila := fila w;
     relogio := relogio w; lidas := lidas w; uuids := uuids w;
     gerados := gerados w; eventos := eventos w; extra := extra w |}.

Definition com_transacao (v : option (list Linha)) (w : W) : W :=
  {| tarefas := tarefas w; transacao := v; fila := fila w;
     relogio := relogio w; lidas := lidas w; uuids := uuids w;
     gerados := gerados w; eventos := eventos w; extra := extra w |}.

Definition com_fila (f : list Mensagem) (w : W) : W :=
  {| tarefas := tarefas w; transacao := transacao w; fila := f;
     relogio := relogio w; lidas := lidas w; uuids := uuids w;
     gerados := gerados w; eventos := eventos w; extra := extra w |}.

Definition com_lidas (n : nat) (w : W) : W :=
  {| tarefas := tarefas w; transacao := transacao w; fila := fila w;
     relogio := relogio w; lidas := n; uuids := uuids w;
     gerados := gerados w; eventos := eventos w; extra := extra w |}.

Definition com_gerados (n : nat) (w : W) : W :=
  {| tarefas := tarefas w; transacao := transacao w; fila := fila w;
     relogio := relogio w; lidas := lidas w; uuids := uuids w;
     gerados := n; eventos := eventos w; extra := extra w |}.

Definition com_extra (x : Extra) (w : W) : W :=
  {| tarefas := tarefas w; transacao := transacao w; fila := fila w;
     relogio := relogio w; lidas := lidas w; uuids := uuids w;
     gerados := gerados w; eventos := eventos w; extra := x |}.

Definition registrar (e : Evento) (w : W) : W :=
  {| tarefas := tarefas w; transacao := transacao w; fila := fila w;
     relogio := relogio w; lidas := lidas w; uuids := uuids w;
     gerados := gerados w; eventos := (eventos w ++ [e])%list;
     extra := extra w |}.

Definition ret {A} (a : A) : C A := fun w => (Retorna a, w).

Definition bind {A B} (c : C A) (k : A -> C B) : C B :=
  fun w =>
    match c w with
    | (Retorna a, w') => k a w'
    | (Levanta e, w') => (Levanta e, w')
    end.

Definition levantar {A} (e : Excecao) : C A := fun w => (Levanta e, w).

(** A value or an exception computed without touching the world. *)
Definition da_saida {A} (s : Saida A) : C A := fun w => (s, w).

(** [try: c  except Exception as e: h e] *)
Definition tentar {A} (c : C A) (h : Excecao -> C A) : C A :=
  fun w =>
    match c w with
    | (Retorna a, w') => (Retorna a, w')
    | (Levanta e, w') => h e w'
    end.

(** [try: c  finally: f] *)
Definition finalmente {A} (c : C A) (f : C unit) : C A :=
  fun w =>
    match c w with
    | (r, w') =>
        match f w' with
        | (Retorna _, w'') => (r, w'')
        | (Levanta e, w'') => (Levanta e, w'')
        end
    end.

(** [datetime.utcnow()], [datetime.now()] and [time.time()]: the next
    reading of the clock. *)
Definition utcnow : C Z :=
  fun w => (Retorna (relogio w (lidas w)), com_lidas (S (lidas w)) w).

Definition time_time : C Z := utcnow.

(** [str(uuid.uuid4())] *)
Definition uuid4 : C string :=
  fun w => (Retorna (uuids w (gerados w)), com_gerados (S (gerados w)) w).

(** [ERROR_COUNTER.labels(type=.., location=..).inc()] *)
Definition erro_counter (tipo_erro local_erro : string) : C unit :=
  fun w => (Retorna tt, registrar (EvErro tipo_erro local_erro) w).

(** *** The session ([SessionLocal()], [autocommit=False]) *)

(** A new session starts from the committed rows. *)
Definition SessionLocal : C unit :=
  fun w => (Retorna tt, com_transacao None w).

Definition visao (w : W) : list Linha :=
  match transacao w with
  | Some v => v
  | None => tarefas w
  end.

Definition db_linhas : C (list Linha) :=
  fun w => (Retorna (visao w), w).

Definition db_pendente (v : list Linha) : C unit :=
  fun w => (Retorna tt, com_transacao (Some v) w).

(** [db.commit()] *)
Definition db_commit : C unit :=
  fun w => (Retorna tt,
            registrar EvCommit (com_transacao None (com_tarefas (visao w) w))).

(** [db.rollback()] *)
Definition db_rollback : C unit :=
  fun w => (Retorna tt, registrar EvRollback (com_transacao None w)).

(** [db.close()] *)
Definition db_close : C unit :=
  fun w => (Retorna tt, registrar EvFechar (com_transacao None w)).

(** [tarefa.apply_async(args=args, task_id=task_id)]: the message goes to
    the end of the queue. *)
Definition apply_async (nome : string) (args : list Json) (task_id : string)
  : C unit :=
  fun w =>
    let m := {| msg_nome := nome; msg_task_id := task_id; msg_args := args |} in
    (Retorna tt, registrar (EvEnfileirar m) (com_fila (fila w ++ [m])%list w)).

(** [tarefa.delay(args...)]: Celery draws the task id itself, enqueues, and
    returns the [AsyncResult], of which only [.id] is used. *)
Definition delay (nome : string) (args : list Json) : C string :=
  bind uuid4 (fun task_id =>
  bind (apply_async nome args task_id) (fun _ => ret task_id)).

End Computacoes.

Arguments com_tarefas {Linha Extra} ts w /.
Arguments com_transacao {Linha Extra} v w /.
Arguments com_fila {Linha Extra} f w /.
Arguments com_lidas {Linha Extra} n w /.
Arguments com_gerados {Linha Extra} n w /.
Arguments com_extra {Linha Extra} x w /.
Arguments registrar {Linha Extra} e w /.

(** *** Request handlers as sequences of atomic steps

    A handler is a sequence of effects (a commit, an enqueue, a clock
    reading); between two of them other processes may observe the database
    and the queue.  [rodar] runs a handler to its end, [avancar n] gives the
    world after its first [n] steps. *)
Inductive Prog (Linha Extra A : Type) : Type :=
| Pronto (a : A)
| Passo (B : Type) (m : Comp Linha Extra B) (k : B -> Prog Linha Extra A).
Arguments Pronto {Linha Extra A} a.
Arguments Passo {Linha Extra A B} m k.

Fixpoint rodar {Linha Extra A} (p : Prog Linha Extra A) : Comp Linha Extra A :=
  match p with
  | Pronto a => ret a
  | Passo m k =>
      fun w =>
        match m w with
        | (Retorna b, w') => rodar (k b) w'
        | (Levanta e, w') => (Levanta e, w')
        end
  end.

Fixpoint avancar {Linha Extra A} (n : nat) (p : Prog Linha Extra A)
    (w : Mundo Linha Extra) : Mundo Linha Extra :=
  match n, p with
  | O, _ => w
  | S _, Pronto _ => w
  | S n', Passo m k =>
      match m w with
      | (Retorna b, w') => avancar n' (k b) w'
      | (Levanta _, w') => w'
      end
  end.

(** [raise e] as the last step of a handler. *)
Definition abortar {Linha Extra A} (e : Excecao) : Prog Linha Extra A :=
  Passo (levantar (A := Empty_set) e) (fun v => match v with end).

(** A handler that receives its session from [Depends(get_db)]: the session
    is opened before the body ([sessao]) and closed after it, also on an
    exception ([com_get_db]). *)
Definition sessao {Linha Extra A} (p : Prog Linha Extra A)
  : Prog Linha Extra A :=
  Passo SessionLocal (fun _ => p).

Definition com_get_db {Linha Extra A} (p : Prog Linha Extra A)
  : Comp Linha Extra A :=
  finalmente (rodar (sessao p)) db_close.

Declare Scope py_scope.
Delimit Scope py_scope with py.
Notation "x <- c ;; k" := (bind c (fun x => k))
  (at level 61, c at next level, right associativity) : py_scope.
Notation "c ;;; k" := (bind c (fun _ => k))
  (at level 61, right associativity) : py_scope.
Notation "x <~ c ;; k" := (Passo c (fun x => k))
  (at level 61, c at next level, right associativity) : py_scope.
Local Open Scope py_scope.

(** ** Iteration 10 *)
Module App10.

(** *** [database/models.py]: table [tarefas] *)

Record Tarefa : Type := {
  id : nat;
  task_id : string;
  tipo : string;
  status : string;
  dados_entrada : option Json;
  resultado : option Dic;
  erro : option string;
  timestamp_inicio : option Z;
  timestamp_atualizacao : option Z;
  duracao : option Z
}.

Definition com_status (s : string) (t : Tarefa) : Tarefa :=
  {| id := id t; task_id := task_id t; tipo := tipo t; status := s;
     dados_entrada := dados_entrada t; resultado := resultado t;
     erro := erro t; timestamp_inicio := timestamp_inicio t;
     timestamp_atualizacao := timestamp_atualizacao t; duracao := duracao t |}.

Definition com_resultado (r : option Dic) (t : Tarefa) : Tarefa :=
  {| id := id t; task_id := task_id t; tipo := tipo t; status := status t;
     dados_entrada := dados_entrada t; resultado := r;
     erro := erro t; timestamp_inicio := timestamp_inicio t;
     timestamp_atualizacao := timestamp_atualizacao t; duracao := duracao t |}.

Definition com_erro (e : option string) (t : Tarefa) : Tarefa :=
  {| id := id t; task_id := task_id t; tipo := tipo t; status := status t;
     dados_entrada := dados_entrada t; resultado := resultado t;
     erro := e; timestamp_inicio := timestamp_inicio t;
     timestamp_atualizacao := timestamp_atualizacao t; duracao := duracao t |}.

Definition com_duracao (d : option Z) (t : Tarefa) : Tarefa :=
  {| id := id t; task_id := task_id t; tipo := tipo t; status := status t;
     dados_entrada := dados_entrada t; resultado := resultado t;
     erro := erro t; timestamp_inicio := timestamp_inicio t;
     timestamp_atualizacao := timestamp_atualizacao t; duracao := d |}.

Definition com_timestamp_atualizacao (a : option Z) (t : Tarefa) : Tarefa :=
  {| id := id t; task_id := task_id t; tipo := tipo t; status := status t;
     dados_entrada := dados_entrada t; resultado := resultado t;
     erro := erro t; timestamp_inicio := timestamp_inicio t;
     timestamp_atualizacao := a; duracao := duracao t |}.

Definition com_timestamp_inicio (a : option Z) (t : Tarefa) : Tarefa :=
  {| id := id t; task_id := task_id t; tipo := tipo t; status := status t;
     dados_entrada := dados_entrada t; resultado := resultado t;
     erro := erro t; timestamp_inicio := a;
     timestamp_atualizacao := timestamp_atualizacao t; duracao := duracao t |}.

Definition com_id (n : nat) (t : Tarefa) : Tarefa :=
  {| id := n; task_id := task_id t; tipo := tipo t; status := status t;
     dados_entrada := dados_entrada t; resultado := resultado t;
     erro := erro t; timestamp_inicio := timestamp_inicio t;
     timestamp_atualizacao := timestamp_atualizacao t; duracao := duracao t |}.

(** *** The executor adapter ([ml/models.py]), an external collaborator *)

(** State of the module-level [ModeloPrecoImovel] object: its [algoritmo]
    attribute, and a number standing for the rest of it. *)
Record Modelo : Type := { algoritmo : string; interno : nat }.

(** What [modelo.treinar] and [modelo.prever] return or raise, and the model
    object they leave. *)
Record Adaptador : Type := {
  ad_treinar : Modelo -> list Json -> option string -> Saida Dic * Modelo;
  ad_prever : Modelo -> Dic -> Saida (Json * Json) * Modelo
}.

Definition M (A : Type) : Type := Comp Tarefa Modelo A.
Definition Estado : Type := Mundo Tarefa Modelo.

(** *** Queries and writes on [tarefas] *)

(** [.filter(Tarefa.task_id == task_id).first()] on a list of rows. *)
Definition buscar (tid : string) (ts : list Tarefa) : option Tarefa :=
  find (fun t => String.eqb (task_id t) tid) ts.

(** [db.query(Tarefa).filter(Tarefa.task_id == task_id).first()] *)
Definition db_first (tid : string) : M (option Tarefa) :=
  linhas <- db_linhas ;; ret (buscar tid linhas).

(** The row of primary key [id t] takes the attributes of the object [t]
    (the UPDATE that the unit of work issues for a modified object). *)
Definition gravar (t : Tarefa) (ts : list Tarefa) : list Tarefa :=
  map (fun r => if Nat.eqb (id r) (id t) then t else r) ts.

Definition db_gravar (t : Tarefa) : M unit :=
  linhas <- db_linhas ;; db_pendente (gravar t linhas).

(** Next value of the autoincremented primary key. *)
Definition proximo_id (ts : list Tarefa) : nat :=
  S (fold_right Nat.max 0%nat (map id ts)).

(** [db.add(t); db.commit()]: the column defaults are filled
    ([timestamp_inicio] and [timestamp_atualizacao] default to
    [datetime.utcnow]), the key is assigned, and the unique index on
    [task_id] rejects a duplicate.  Returns the row as stored. *)
Definition db_add_commit (t : Tarefa) : M Tarefa :=
  ini <- match timestamp_inicio t with
         | Some i => ret (Some i)
         | None => a <- utcnow ;; ret (Some a)
         end ;;
  atu <- match timestamp_atualizacao t with
         | Some i => ret (Some i)
         | None => a <- utcnow ;; ret (Some a)
         end ;;
  linhas <- db_linhas ;;
  match buscar (task_id t) linhas with
  | Some _ =>
      (fun w => (Retorna tt, com_transacao None w)) ;;;
      levantar (IntegrityError "tarefas.task_id")
  | None =>
      let linha :=
        com_id (proximo_id linhas)
          (com_timestamp_inicio ini (com_timestamp_atualizacao atu t)) in
      db_pendente (linhas ++ [linha])%list ;;;
      db_commit ;;;
      ret linha
  end.

(** *** [worker.py]: the status updater *)

Definition atualizar_status_tarefa (task_id : string) (status : string)
    (resultado : option Dic) (erro : option string) : M bool :=
  tentar
    (SessionLocal ;;;
     finalmente
       (tentar
          (tarefa <- db_first task_id ;;
           match tarefa with
           | None => ret false
           | Some tarefa =>
               let tarefa := com_status status tarefa in
               let tarefa :=
                 if verdade_dic resultado then com_resultado resultado tarefa
                 else tarefa in
               let tarefa :=
                 if verdade_str erro then com_erro erro tarefa else tarefa in
               tarefa <-
                 match pertence status ["concluida"; "falha"],
                       timestamp_inicio tarefa with
                 | true, Some inicio =>
                     agora <- utcnow ;;
                     ret (com_duracao (Some (agora - inicio)) tarefa)
                 | _, _ => ret tarefa
                 end ;;
               agora <- utcnow ;;
               let tarefa := com_timestamp_atualizacao (Some agora) tarefa in
               db_gravar tarefa ;;;
               db_commit ;;;
               ret true
           end)
          (fun e =>
             db_rollback ;;;
             erro_counter "database" "atualizar_status_tarefa" ;;;
             ret false))
       db_close)
    (fun e =>
       erro_counter "database_connection" "atualizar_status_tarefa" ;;;
       ret false).

(** *** [worker.py]: the Celery tasks *)

(** [modelo.treinar(dados, algoritmo)] *)
Definition modelo_treinar (ad : Adaptador) (dados : list Json)
    (alg : option string) : M Dic :=
  fun w =>
    match ad_treinar ad (extra w) dados alg with
    | (r, m') => (r, com_extra m' (registrar (EvAdaptador "treinar") w))
    end.

(** [modelo.prever(dados)] *)
Definition modelo_prever (ad : Adaptador) (dados : Dic) : M (Json * Json) :=
  fun w =>
    match ad_prever ad (extra w) dados with
    | (r, m') => (r, com_extra m' (registrar (EvAdaptador "prever") w))
    end.

(** [modelo.algoritmo] *)
Definition modelo_algoritmo : M string :=
  fun w => (Retorna (algoritmo (extra w)), w).

(** [a or b] on an optional string. *)
Definition ou_str (a : option string) (b : string) : string :=
  match a with
  | Some s => if String.eqb s "" then b else s
  | None => b
  end.

(** Task [treinar_modelo]; [task_id] is [self.request.id]. *)
Definition treinar_modelo (ad : Adaptador) (task_id : string)
    (dados : list Json) (alg : option string) : M Dic :=
  atualizar_status_tarefa task_id "em_progresso" None None ;;;
  tentar
    (inicio <- time_time ;;
     metricas <- modelo_treinar ad dados alg ;;
     fim <- time_time ;;
     let duracao := fim - inicio in
     alg_modelo <- modelo_algoritmo ;;
     agora <- utcnow ;;
     let resultado :=
       dic_set "timestamp" (JData agora)
         (dic_set "tempo_treinamento" (JNum duracao)
            (dic_set "algoritmo" (JStr (ou_str alg alg_modelo)) metricas)) in
     atualizar_status_tarefa task_id "concluida" (Some resultado) None ;;;
     ret resultado)
    (fun e =>
       let erro := exc_str e in
       atualizar_status_tarefa task_id "falha" None (Some erro) ;;;
       erro_counter "task_error" "treinar_modelo" ;;;
       levantar e).

(** Task [realizar_previsao]. *)
Definition realizar_previsao (ad : Adaptador) (task_id : string)
    (dados : Dic) : M Dic :=
  atualizar_status_tarefa task_id "em_progresso" None None ;;;
  tentar
    (inicio <- time_time ;;
     par <- modelo_prever ad dados ;;
     fim <- time_time ;;
     let duracao := fim - inicio in
     alg_modelo <- modelo_algoritmo ;;
     agora <- utcnow ;;
     let resultado :=
       [("preco_previsto", fst par); ("confianca", snd par);
        ("modelo_usado", JStr alg_modelo); ("tempo_predicao", JNum duracao);
        ("timestamp", JData agora)] in
     atualizar_status_tarefa task_id "concluida" (Some resultado) None ;;;
     ret resultado)
    (fun e =>
       let erro := exc_str e in
       atualizar_status_tarefa task_id "falha" None (Some erro) ;;;
       erro_counter "task_error" "realizar_previsao" ;;;
       levantar e).

(** The two tasks again, as the sequence of their two statements (the call
    that writes "em_progresso", then the [try] statement), for the state in
    between. *)
Definition treinar_modelo_passos (ad : Adaptador) (task_id : string)
    (dados : list Json) (alg : option string) : Prog Tarefa Modelo Dic :=
  _ <~ atualizar_status_tarefa task_id "em_progresso" None None ;;
  resultado <~
    tentar
      (inicio <- time_time ;;
       metricas <- modelo_treinar ad dados alg ;;
       fim <- time_time ;;
       let duracao := fim - inicio in
       alg_modelo <- modelo_algoritmo ;;
       agora <- utcnow ;;
       let resultado :=
         dic_set "timestamp" (JData agora)
           (dic_set "tempo_treinamento" (JNum duracao)
              (dic_set "algoritmo" (JStr (ou_str alg alg_modelo)) metricas)) in
       atualizar_status_tarefa task_id "concluida" (Some resultado) None ;;;
       ret resultado)
      (fun e =>
         let erro := exc_str e in
         atualizar_status_tarefa task_id "falha" None (Some erro) ;;;
         erro_counter "task_error" "treinar_modelo" ;;;
         levantar e) ;;
  Pronto resultado.

Definition realizar_previsao_passos (ad : Adaptador) (task_id : string)
    (dados : Dic) : Prog Tarefa Modelo Dic :=
  _ <~ atualizar_status_tarefa task_id "em_progresso" None None ;;
  resultado <~
    tentar
      (inicio <- time_time ;;
       par <- modelo_prever ad dados ;;
       fim <- time_time ;;
       let duracao := fim - inicio in
       alg_modelo <- modelo_algoritmo ;;
       agora <- utcnow ;;
       let resultado :=
         [("preco_previsto", fst par); ("confianca", snd par);
          ("modelo_usado", JStr alg_modelo); ("tempo_predicao", JNum duracao);
          ("timestamp", JData agora)] in
       atualizar_status_tarefa task_id "concluida" (Some resultado) None ;;;
       ret resultado)
      (fun e =>
         let erro := exc_str e in
         atualizar_status_tarefa task_id "falha" None (Some erro) ;;;
         erro_counter "task_error" "realizar_previsao" ;;;
         levantar e) ;;
  Pronto resultado.

(** The name [datetime] in [worker.py] comes from
    [from datetime import datetime]. *)
Definition datetime_do_worker : Ligacao := ClasseDatetime.

(** [datetime.timedelta(days=dias)], resolved on what the name [datetime]
    is bound to. *)
Definition datetime_timedelta (d : Ligacao) (dias : Z) : M Z :=
  if tem_atributo d "timedelta" then ret (dias * micros_por_dia)
  else levantar (AttributeError "datetime.datetime" "timedelta").

(** [Tarefa.timestamp_atualizacao < limite]; a NULL column never compares
    below the bound. *)
Definition antiga (limite : Z) (t : Tarefa) : bool :=
  match timestamp_atualizacao t with
  | Some a => a <? limite
  | None => false
  end.

(** [db.query(Tarefa).filter(...).delete()]: removes the matching rows in
    the session and returns how many there were. *)
Definition db_delete_antigas (limite : Z) : M Z :=
  linhas <- db_linhas ;;
  db_pendente (filter (fun t => negb (antiga limite t)) linhas) ;;;
  ret (Z.of_nat (List.length (filter (antiga limite) linhas))).

(** Periodic task [limpar_tarefas_antigas]. *)
Definition limpar_tarefas_antigas (dias : Z) : M Dic :=
  tentar
    (SessionLocal ;;;
     finalmente
       (tentar
          (agora <- utcnow ;;
           delta <- datetime_timedelta datetime_do_worker dias ;;
           let data_limite := agora - delta in
           removidas <- db_delete_antigas data_limite ;;
           db_commit ;;;
           ret [("tarefas_removidas", JNum removidas)])
          (fun e =>
             db_rollback ;;;
             erro_counter "task_error" "limpar_tarefas_antigas" ;;;
             levantar e))
       db_close)
    (fun e =>
       erro_counter "database_connection" "limpar_tarefas_antigas" ;;;
       levantar e).

(** *** [api/schemas.py]: the status response *)

Inductive StatusTarefaEnum : Type := PENDENTE | EM_PROGRESSO | CONCLUIDA | FALHA.

(** Validation of a field of type [StatusTarefaEnum] from a string. *)
Definition StatusTarefaEnum_de (s : string) : option StatusTarefaEnum :=
  if String.eqb s "pendente" then Some PENDENTE
  else if String.eqb s "em_progresso" then Some EM_PROGRESSO
  else if String.eqb s "concluida" then Some CONCLUIDA
  else if String.eqb s "falha" then Some FALHA
  else None.

Record StatusTarefa : Type := {
  st_task_id : string;
  st_status : StatusTarefaEnum;
  st_resultado : option Dic;
  st_erro : option string;
  st_timestamp_inicio : Z;
  st_timestamp_atualizacao : Z
}.

(** [StatusTarefa(task_id=.., status=.., ...)]: the status must be a member
    of the enum and both timestamps are required. *)
Definition novo_StatusTarefa (task_id status : string)
    (resultado : option Dic) (erro : option string)
    (timestamp_inicio timestamp_atualizacao : option Z) : Saida StatusTarefa :=
  match StatusTarefaEnum_de status, timestamp_inicio, timestamp_atualizacao with
  | Some s, Some i, Some a =>
      Retorna {| st_task_id := task_id; st_status := s;
                 st_resultado := resultado; st_erro := erro;
                 st_timestamp_inicio := i; st_timestamp_atualizacao := a |}
  | None, _, _ => Levanta (ValidationError "status")
  | _, None, _ => Levanta (ValidationError "timestamp_inicio")
  | _, _, None => Levanta (ValidationError "timestamp_atualizacao")
  end.

(** *** [api/endpoints.py]

    The handlers below are the bodies; each runs under [com_get_db], which
    supplies [db]. *)

(** [prever] with [async_task=True] (the branch that submits a task). *)
Definition prever_assincrono (dados : Dic) : Prog Tarefa Modelo StatusTarefa :=
  task_id <~ uuid4 ;;
  agora <~ utcnow ;;
  tarefa_db <~ db_add_commit
    {| id := 0%nat; task_id := task_id; tipo := "predicao";
       status := "pendente"; dados_entrada := Some (JDic dados);
       resultado := None; erro := None; timestamp_inicio := Some agora;
       timestamp_atualizacao := None; duracao := None |} ;;
  _ <~ apply_async "realizar_previsao" [JDic dados] task_id ;;
  resposta <~ da_saida
    (novo_StatusTarefa task_id "pendente" None None
       (timestamp_inicio tarefa_db) (timestamp_atualizacao tarefa_db)) ;;
  Pronto resposta.

(** [treinar] with [dados.async_task] set: the guard on the number of
    records, then the submission. *)
Definition treinar_assincrono (dados : list Json) (alg : string)
  : Prog Tarefa Modelo StatusTarefa :=
  _ <~ (if (List.length dados <? 10)%nat
        then levantar (HTTPException 400
               "Quantidade insuficiente de dados para treinamento. Mínimo: 10 registros.")
        else ret tt) ;;
  task_id <~ uuid4 ;;
  agora <~ utcnow ;;
  tarefa_db <~ db_add_commit
    {| id := 0%nat; task_id := task_id; tipo := "treinamento";
       status := "pendente";
       dados_entrada :=
         Some (JDic [("algoritmo", JStr alg);
                     ("registros", JNum (Z.of_nat (List.length dados)))]);
       resultado := None; erro := None; timestamp_inicio := Some agora;
       timestamp_atualizacao := None; duracao := None |} ;;
  _ <~ apply_async "treinar_modelo" [JLista dados; JStr alg] task_id ;;
  resposta <~ da_saida
    (novo_StatusTarefa task_id "pendente" None None
       (timestamp_inicio tarefa_db) (timestamp_atualizacao tarefa_db)) ;;
  Pronto resposta.

(** [verificar_status_tarefa], the status query. *)
Definition verificar_status_tarefa (task_id_consultado : string)
  : Prog Tarefa Modelo StatusTarefa :=
  tarefa <~ db_first task_id_consultado ;;
  match tarefa with
  | None =>
      abortar
        (HTTPException 404 ("Tarefa não encontrada: " ++ task_id_consultado))
  | Some tarefa =>
      resposta <~ da_saida
        (novo_StatusTarefa (task_id tarefa) (status tarefa)
           (resultado tarefa) (erro tarefa) (timestamp_inicio tarefa)
           (timestamp_atualizacao tarefa)) ;;
      Pronto resposta
  end.

(** *** [config.py] and [api/middleware.py] *)

(** The two settings that [verify_api_key] is written to read, as the
    instance [config = Config()] holds them. *)
Record Configuracao : Type := {
  API_KEY_ENABLED : bool;
  API_KEY : option string
}.

(** The annotated fields of the settings class [Config(BaseSettings)].  A
    pydantic model class keeps its fields in [__fields__] and out of the
    class namespace: they are attributes of an instance, not of the
    class. *)
Definition campos_de_Config : list string :=
  ["API_TITLE"; "API_DESCRIPTION"; "API_VERSION"; "DEBUG"; "HOST"; "PORT";
   "API_KEY_ENABLED"; "API_KEY"; "CORS_ORIGINS"; "DB_HOST"; "DB_PORT";
   "DB_NAME"; "DB_USER"; "DB_PASSWORD"; "LOGS_DIR"; "MODELS_DIR";
   "DEFAULT_ALGORITHM"; "MODEL_FILE"; "CELERY_BROKER_URL";
   "CELERY_RESULT_BACKEND"; "LOG_LEVEL"; "SENTRY_DSN"; "SENTRY_ENVIRONMENT";
   "PROMETHEUS_ENABLED"].

(** [Config.nome] in [api/middleware.py], where [Config] comes from
    [from ..config import Config]: the class.  [valor] is what the instance
    holds under that name. *)
Definition Config_attr {A} (nome : string) (valor : A) : M A :=
  if pertence nome campos_de_Config
  then levantar (AttributeError "Config" nome)
  else ret valor.

(** [a != b] on optional strings ([None] is the absent header or the unset
    key). *)
Definition diferente (a b : option string) : bool :=
  match a, b with
  | None, None => false
  | Some x, Some y => negb (String.eqb x y)
  | _, _ => true
  end.

(** [verify_api_key(api_key)]; [api_key] is the header [X-API-Key], [None]
    when the request has none. *)
Definition verify_api_key (cfg : Configuracao) (api_key : option string)
  : M unit :=
  habilitada <- Config_attr "API_KEY_ENABLED" (API_KEY_ENABLED cfg) ;;
  if negb habilitada then ret tt
  else
    chave <- Config_attr "API_KEY" (API_KEY cfg) ;;
    if diferente api_key chave
    then levantar (HTTPException 403 "API Key inválida ou não fornecida")
    else ret tt.

(** A route declared with [dependencies=[Depends(verify_api_key)]]: the key
    is checked before the handler and its session. *)
Definition protegido {A} (cfg : Configuracao) (api_key : option string)
    (p : Prog Tarefa Modelo A) : M A :=
  verify_api_key cfg api_key ;;; com_get_db p.

(** *** Vocabulary of the statements about the updater *)

(** [Atualizada w st r e t t']: [t'] is the row [t] after the updater was
    called in world [w] with status [st], result [r] and error [e]. *)
Record Atualizada (w : Estado) (st : string) (r : option Dic)
    (e : option string) (t t' : Tarefa) : Prop := {
  at_id : id t' = id t;
  at_task_id : task_id t' = task_id t;
  at_tipo : tipo t' = tipo t;
  at_dados : dados_entrada t' = dados_entrada t;
  at_inicio : timestamp_inicio t' = timestamp_inicio t;
  at_status : status t' = st;
  at_resultado : resultado t' = if verdade_dic r then r else resultado t;
  at_erro : erro t' = if verdade_str e then e else erro t;
  at_tempo :
    match pertence st ["concluida"; "falha"], timestamp_inicio t with
    | true, Some i =>
        duracao t' = Some (relogio w (lidas w) - i) /\
        timestamp_atualizacao t' = Some (relogio w (S (lidas w)))
    | _, _ =>
        duracao t' = duracao t /\
        timestamp_atualizacao t' = Some (relogio w (lidas w))
    end
}.

(** What a call of the updater leaves untouched in the world. *)
Record Moldura (w w' : Estado) : Prop := {
  mo_transacao : transacao w' = None;
  mo_fila : fila w' = fila w;
  mo_extra : extra w' = extra w;
  mo_relogio : relogio w' = relogio w;
  mo_uuids : uuids w' = uuids w;
  mo_gerados : gerados w' = gerados w;
  mo_lidas : (lidas w <= lidas w')%nat
}.

End App10.

(** ** Iteration 9 *)
Module App9.

(** *** [database/models.py] *)

Inductive StatusTarefa : Type :=
| PENDENTE | EM_PROGRESSO | CONCLUIDO | FALHA | CANCELADO.

Inductive TipoTarefa : Type :=
| TREINAMENTO | PREVISAO | PREVISAO_LOTE | OUTRO.

(** Conversion of a string to a member, as done for an [Enum] column and
    for an enum field of a response model. *)
Definition StatusTarefa_de (s : string) : option StatusTarefa :=
  if String.eqb s "PENDENTE" then Some PENDENTE
  else if String.eqb s "EM_PROGRESSO" then Some EM_PROGRESSO
  else if String.eqb s "CONCLUIDO" then Some CONCLUIDO
  else if String.eqb s "FALHA" then Some FALHA
  else if String.eqb s "CANCELADO" then Some CANCELADO
  else None.

Definition TipoTarefa_de (s : string) : option TipoTarefa :=
  if String.eqb s "TREINAMENTO" then Some TREINAMENTO
  else if String.eqb s "PREVISAO" then Some PREVISAO
  else if String.eqb s "PREVISAO_LOTE" then Some PREVISAO_LOTE
  else if String.eqb s "OUTRO" then Some OUTRO
  else None.

Definition StatusTarefa_valor (s : StatusTarefa) : string :=
  match s with
  | PENDENTE => "PENDENTE" | EM_PROGRESSO => "EM_PROGRESSO"
  | CONCLUIDO => "CONCLUIDO" | FALHA => "FALHA" | CANCELADO => "CANCELADO"
  end.

Definition TipoTarefa_valor (t : TipoTarefa) : string :=
  match t with
  | TREINAMENTO => "TREINAMENTO" | PREVISAO => "PREVISAO"
  | PREVISAO_LOTE => "PREVISAO_LOTE" | OUTRO => "OUTRO"
  end.

(** Table [tarefas_assincronas]. *)
Record TarefaAssincrona : Type := {
  id : nat;
  task_id : string;
  tipo : TipoTarefa;
  status : StatusTarefa;
  timestamp_criacao : Z;
  timestamp_inicio : option Z;
  timestamp_fim : option Z;
  descricao : option string;
  parametros : option Json;
  resultado : option Json;
  erro : option string
}.

(** Property [TarefaAssincrona.duracao]. *)
Definition duracao (self : TarefaAssincrona) : option Z :=
  match timestamp_inicio self with
  | Some inicio =>
      match timestamp_fim self with
      | Some fim => Some (fim - inicio)
      | None => None
      end
  | None => None
  end.

Definition com_task_id (s : string) (t : TarefaAssincrona) : TarefaAssincrona :=
  {| id := id t; task_id := s; tipo := tipo t; status := status t;
     timestamp_criacao := timestamp_criacao t;
     timestamp_inicio := timestamp_inicio t; timestamp_fim := timestamp_fim t;
     descricao := descricao t; parametros := parametros t;
     resultado := resultado t; erro := erro t |}.

Definition com_status (s : StatusTarefa) (t : TarefaAssincrona) : TarefaAssincrona :=
  {| id := id t; task_id := task_id t; tipo := tipo t; status := s;
     timestamp_criacao := timestamp_criacao t;
     timestamp_inicio := timestamp_inicio t; timestamp_fim := timestamp_fim t;
     descricao := descricao t; parametros := parametros t;
     resultado := resultado t; erro := erro t |}.

Definition com_resultado (r : option Json) (t : TarefaAssincrona) : TarefaAssincrona :=
  {| id := id t; task_id := task_id t; tipo := tipo t; status := status t;
     timestamp_criacao := timestamp_criacao t;
     timestamp_inicio := timestamp_inicio t; timestamp_fim := timestamp_fim t;
     descricao := descricao t; parametros := parametros t;
     resultado := r; erro := erro t |}.

Definition com_erro (e : option string) (t : TarefaAssincrona) : TarefaAssincrona :=
  {| id := id t; task_id := task_id t; tipo := tipo t; status := status t;
     timestamp_criacao := timestamp_criacao t;
     timestamp_inicio := timestamp_inicio t; timestamp_fim := timestamp_fim t;
     descricao := descricao t; parametros := parametros t;
     resultado := resultado t; erro := e |}.

Definition com_id (n : nat) (t : TarefaAssincrona) : TarefaAssincrona :=
  {| id := n; task_id := task_id t; tipo := tipo t; status := status t;
     timestamp_criacao := timestamp_criacao t;
     timestamp_inicio := timestamp_inicio t; timestamp_fim := timestamp_fim t;
     descricao := descricao t; parametros := parametros t;
     resultado := resultado t; erro := erro t |}.

(** *** Process memory of the API and the Celery result backend *)

(** The module-level dict [contador_requisicoes]; its keys are fixed. *)
Record Contador : Type := {
  total : Z;
  previsoes_sincronas : Z;
  previsoes_assincronas : Z;
  treinamentos_sincronos : Z;
  treinamentos_assincronos : Z;
  consultas : Z;
  erros : Z
}.

(** What [AsyncResult(task_id)] shows: [state], [result], and the text
    [str(result)]. *)
Record ResultadoCelery : Type := {
  state : string;
  result : Json;
  result_str : string
}.

(** [backend task_id] is what the result backend answers for [task_id], or
    the exception of an unreachable backend; [modelo_treinado] tells whether
    [modelo_ml.modelo] is set. *)
Record Processo : Type := {
  contador_requisicoes : Contador;
  backend : string -> Saida ResultadoCelery;
  modelo_treinado : bool
}.

Definition M (A : Type) : Type := Comp TarefaAssincrona Processo A.
Definition Estado : Type := Mundo TarefaAssincrona Processo.

(** [contador_requisicoes[chave] += 1] *)
Definition incrementar (chave : string) (c : Contador) : Contador :=
  {| total := if String.eqb chave "total" then total c + 1 else total c;
     previsoes_sincronas :=
       if String.eqb chave "previsoes_sincronas"
       then previsoes_sincronas c + 1 else previsoes_sincronas c;
     previsoes_assincronas :=
       if String.eqb chave "previsoes_assincronas"
       then previsoes_assincronas c + 1 else previsoes_assincronas c;
     treinamentos_sincronos :=
       if String.eqb chave "treinamentos_sincronos"
       then treinamentos_sincronos c + 1 else treinamentos_sincronos c;
     treinamentos_assincronos :=
       if String.eqb chave "treinamentos_assincronos"
       then treinamentos_assincronos c + 1 else treinamentos_assincronos c;
     consultas := if String.eqb chave "consultas" then consultas c + 1 else consultas c;
     erros := if String.eqb chave "erros" then erros c + 1 else erros c |}.

Definition chaves_contador : list string :=
  ["total"; "previsoes_sincronas"; "previsoes_assincronas";
   "treinamentos_sincronos"; "treinamentos_assincronos"; "consultas"; "erros"].

(** [registrar_requisicao(tipo)] *)
Definition registrar_requisicao (tipo_req : string) : M unit :=
  fun w =>
    let c := incrementar "total" (contador_requisicoes (extra w)) in
    let c := if pertence tipo_req chaves_contador then incrementar tipo_req c else c in
    (Retorna tt,
     com_extra {| contador_requisicoes := c; backend := backend (extra w);
                  modelo_treinado := modelo_treinado (extra w) |} w).

(** [celery_app.AsyncResult(task_id)], read for [.state] and [.result]. *)
Definition AsyncResult (tid : string) : M ResultadoCelery :=
  fun w => (backend (extra w) tid, w).

(** *** Queries and writes on [tarefas_assincronas] *)

(** What a name passed to [db.query] denotes: the mapped class
    [TarefaAssincrona], or the enum [StatusTarefa]. *)
Inductive Classe : Type := ClasseTarefaAssincrona | EnumStatusTarefa.

Definition mapeada (c : Classe) : bool :=
  match c with
  | ClasseTarefaAssincrona => true
  | EnumStatusTarefa => false
  end.

Definition ArgumentError : Excecao :=
  {| exc_classe := "ArgumentError";
     exc_str := "Column expression or FROM clause expected, got <enum 'StatusTarefa'>";
     exc_status_code := None |}.

Definition buscar (tid : string) (ts : list TarefaAssincrona)
  : option TarefaAssincrona :=
  find (fun t => String.eqb (task_id t) tid) ts.

(** [db.query(c).filter(c.task_id == task_id).first()]: only a mapped class
    can be queried. *)
Definition db_query_first (c : Classe) (tid : string)
  : M (option TarefaAssincrona) :=
  if mapeada c then linhas <- db_linhas ;; ret (buscar tid linhas)
  else levantar ArgumentError.

Definition gravar (t : TarefaAssincrona) (ts : list TarefaAssincrona)
  : list TarefaAssincrona :=
  map (fun r => if Nat.eqb (id r) (id t) then t else r) ts.

Definition proximo_id (ts : list TarefaAssincrona) : nat :=
  S (fold_right Nat.max 0%nat (map id ts)).

(** [db.add(t); db.commit(); db.refresh(t)]: the key is assigned and the
    unique index on [task_id] rejects a duplicate. *)
Definition db_add_commit (t : TarefaAssincrona) : M TarefaAssincrona :=
  linhas <- db_linhas ;;
  match buscar (task_id t) linhas with
  | Some _ =>
      (fun w => (Retorna tt, com_transacao None w)) ;;;
      levantar (IntegrityError "tarefas_assincronas.task_id")
  | None =>
      let linha := com_id (proximo_id linhas) t in
      db_pendente (linhas ++ [linha])%list ;;;
      db_commit ;;;
      ret linha
  end.

(** [tarefa.task_id = novo; db.commit()] *)
Definition db_set_task_id (t : TarefaAssincrona) (novo : string) : M unit :=
  linhas <- db_linhas ;;
  match buscar novo linhas with
  | Some r =>
      if Nat.eqb (id r) (id t)
      then db_pendente (gravar (com_task_id novo t) linhas) ;;; db_commit
      else (fun w => (Retorna tt, com_transacao None w)) ;;;
           levantar (IntegrityError "tarefas_assincronas.task_id")
  | None => db_pendente (gravar (com_task_id novo t) linhas) ;;; db_commit
  end.

(** *** [worker.py]: the status updater *)

(** The name [StatusTarefa] in [worker.py] comes from
    [from database.models import StatusTarefa]: the enum. *)
Definition StatusTarefa_do_worker : Classe := EnumStatusTarefa.

Definition LookupError (valor : string) : Excecao :=
  {| exc_classe := "LookupError";
     exc_str := valor ++ " is not among the defined enum values";
     exc_status_code := None |}.

(** [atualizar_status_tarefa(task_id, status, resultado=None, erro=None)];
    the function has no return value.  The string given as status is
    converted to a member of the enum when the row is flushed. *)
Definition atualizar_status_tarefa (task_id status : string)
    (resultado : option Json) (erro : option string) : M unit :=
  finalmente
    (tentar
       (SessionLocal ;;;
        tarefa <- db_query_first StatusTarefa_do_worker task_id ;;
        match tarefa with
        | Some tarefa =>
            let tarefa :=
              match resultado with
              | Some r => com_resultado (Some (JTexto r)) tarefa
              | None => tarefa
              end in
            let tarefa :=
              match erro with
              | Some e => com_erro (Some e) tarefa
              | None => tarefa
              end in
            match StatusTarefa_de status with
            | Some s =>
                linhas <- db_linhas ;;
                db_pendente (gravar (com_status s tarefa) linhas) ;;;
                db_commit
            | None => levantar (LookupError status)
            end
        | None => ret tt
        end)
       (fun e => ret tt))
    db_close.

(** The calls of the updater that workers make, one after the other; each
    call is a task id, a status, a result and an error. *)
Definition atualizacoes
    (chamadas : list (string * string * option Json * option string))
    (w : Estado) : Estado :=
  fold_left
    (fun v c =>
       match c with
       | (tid, st, r, e) => snd (atualizar_status_tarefa tid st r e v)
       end)
    chamadas w.

(** *** [api/schemas.py] *)

Record StatusTarefaResponse : Type := {
  r_task_id : string;
  r_tipo : TipoTarefa;
  r_status : StatusTarefa;
  r_timestamp_criacao : Z;
  r_timestamp_inicio : option Z;
  r_timestamp_fim : option Z;
  r_resultado : option Dic;
  r_erro : option string;
  r_duracao : option Z
}.

(** [str(j) == ""] for a JSON value that is a string. *)
Fixpoint texto_vazio (j : Json) : bool :=
  match j with
  | JStr s => String.eqb s ""
  | JTexto j' => texto_vazio j'
  | _ => false
  end.

(** One element of a sequence given to [dict()], as a pair: a list of two
    whose first element, the key, is a string. *)
Definition par_de (x : Json) : option (string * Json) :=
  match x with
  | JLista [JStr k; v] => Some (k, v)
  | _ => None
  end.

Fixpoint pares_de (l : list Json) (d : Dic) : option Dic :=
  match l with
  | [] => Some d
  | x :: resto =>
      match par_de x with
      | Some (k, v) => pares_de resto (dic_set k v d)
      | None => None
      end
  end.

(** The validator of a field [Dict[str, Any]] (pydantic 1): a dict is taken
    as it is, anything else goes through [dict(v)], and a [TypeError] or
    [ValueError] of that call is the validation error.  So the empty string
    and the empty list give the empty dict, a list of pairs with string keys
    gives the dict of its pairs (a later pair replaces the value of an
    earlier one with its key), and a number, a boolean or a string that is
    not empty is refused.  What is accepted here is accepted by Python with
    this result.  Python takes a few more shapes as pairs (a string of two
    characters, a dict of two keys, a key that is a number or a boolean,
    which becomes its text); the embedding keeps neither the characters of
    a text nor the text of a number, and does not tell a list with such an
    element from an unusable one. *)
Definition dict_validator (v : Json) : option Dic :=
  match v with
  | JDic d => Some d
  | JLista l => pares_de l []
  | JStr _ | JTexto _ => if texto_vazio v then Some [] else None
  | _ => None
  end.

(** [StatusTarefaResponse(task_id=.., status=.., tipo=.., ...)]: [tipo] and
    [status] must be members of their enums; [resultado], when it is not
    [None] (a JSON null is read back as [None]), goes through the dict
    validator; [duracao] is not passed by any caller and keeps its
    default. *)
Definition novo_StatusTarefaResponse (task_id status tipo : string)
    (timestamp_criacao : Z) (timestamp_inicio timestamp_fim : option Z)
    (resultado : option Json) (erro : option string)
  : Saida StatusTarefaResponse :=
  match TipoTarefa_de tipo, StatusTarefa_de status with
  | Some t, Some s =>
      let resposta (d : option Dic) :=
        {| r_task_id := task_id; r_tipo := t; r_status := s;
           r_timestamp_criacao := timestamp_criacao;
           r_timestamp_inicio := timestamp_inicio;
           r_timestamp_fim := timestamp_fim;
           r_resultado := d; r_erro := erro; r_duracao := None |} in
      match resultado with
      | None | Some JNull => Retorna (resposta None)
      | Some v =>
          match dict_validator v with
          | Some d => Retorna (resposta (Some d))
          | None => Levanta (ValidationError "resultado")
          end
      end
  | None, _ => Levanta (ValidationError "tipo")
  | _, None => Levanta (ValidationError "status")
  end.

Record TarefaResponse : Type := {
  tr_task_id : string;
  tr_tipo : TipoTarefa;
  tr_status : StatusTarefa;
  tr_timestamp_criacao : Z;
  tr_url_status : string
}.

(** Python values as [.dict()] of a response model holds them: a string (a
    member of a [str] enum is one) or a [datetime] object. *)
Inductive ValorPy : Type :=
| PyStr (s : string)
| PyDatetime (t : Z).

(** [TarefaResponse(...).dict()]: the fields in their order, the instant
    still a [datetime]. *)
Definition TarefaResponse_dict (r : TarefaResponse) : list (string * ValorPy) :=
  [("task_id", PyStr (tr_task_id r));
   ("tipo", PyStr (TipoTarefa_valor (tr_tipo r)));
   ("status", PyStr (StatusTarefa_valor (tr_status r)));
   ("timestamp_criacao", PyDatetime (tr_timestamp_criacao r));
   ("url_status", PyStr (tr_url_status r))].

(** [json.dumps(content)] with the standard encoder, which [JSONResponse]
    calls when it is built: the body, or [TypeError] at the first value
    that has no encoding. *)
Fixpoint json_dumps (content : list (string * ValorPy)) : Saida Dic :=
  match content with
  | [] => Retorna []
  | (k, PyStr v) :: resto =>
      match json_dumps resto with
      | Retorna d => Retorna ((k, JStr v) :: d)
      | Levanta e => Levanta e
      end
  | (_, PyDatetime _) :: _ => Levanta (TypeError "datetime")
  end.

(** [JSONResponse(status_code=202, content=content)] *)
Definition JSONResponse (content : list (string * ValorPy)) : Saida Dic :=
  json_dumps content.

(** *** [api/endpoints.py] *)

(** [status_tarefa], the status query.  When the table has no row, the
    bare [except] turns whatever the fallback raises into a 404. *)
Definition status_tarefa (task_id_consultado : string)
  : Prog TarefaAssincrona Processo StatusTarefaResponse :=
  _ <~ registrar_requisicao "consultas" ;;
  tarefa <~ db_query_first ClasseTarefaAssincrona task_id_consultado ;;
  match tarefa with
  | None =>
      resposta <~
        tentar
          (task_result <- AsyncResult task_id_consultado ;;
           if String.eqb (state task_result) "PENDING" then
             criacao <- utcnow ;;
             da_saida (novo_StatusTarefaResponse task_id_consultado
                         "PENDENTE" "desconhecido" criacao None None None None)
           else if String.eqb (state task_result) "STARTED" then
             criacao <- utcnow ;;
             inicio <- utcnow ;;
             da_saida (novo_StatusTarefaResponse task_id_consultado
                         "EM_PROCESSAMENTO" "desconhecido" criacao
                         (Some inicio) None None None)
           else if String.eqb (state task_result) "SUCCESS" then
             criacao <- utcnow ;;
             inicio <- utcnow ;;
             fim <- utcnow ;;
             da_saida (novo_StatusTarefaResponse task_id_consultado
                         "CONCLUIDA" "desconhecido" criacao (Some inicio)
                         (Some fim) (Some (result task_result)) None)
           else
             criacao <- utcnow ;;
             da_saida (novo_StatusTarefaResponse task_id_consultado
                         "FALHA" "desconhecido" criacao None None None
                         (Some (result_str task_result))))
          (fun _ =>
             levantar
               (HTTPException 404
                  ("Tarefa com ID " ++ task_id_consultado ++ " não encontrada"))) ;;
      Pronto resposta
  | Some tarefa =>
      resposta <~ da_saida
        (novo_StatusTarefaResponse (task_id tarefa)
           (StatusTarefa_valor (status tarefa)) (TipoTarefa_valor (tipo tarefa))
           (timestamp_criacao tarefa) (timestamp_inicio tarefa)
           (timestamp_fim tarefa) (resultado tarefa) (erro tarefa)) ;;
      Pronto resposta
  end.

(** [treinar] (the handler that stores the task before starting it; it is
    the second function registered for [POST /treinar] in the module) with
    [dados.assincrono] set. *)
Definition treinar_assincrono (imoveis : list Json) (alg : string)
    (hiperparametros : Json) : Prog TarefaAssincrona Processo Dic :=
  _ <~ (if (List.length imoveis <? 10)%nat
        then levantar (HTTPException 400
               "Dados insuficientes para treinamento. Forneça pelo menos 10 imóveis.")
        else ret tt) ;;
  request_id <~ uuid4 ;;
  agora <~ utcnow ;;
  tarefa <~ db_add_commit
    {| id := 0%nat; task_id := "pending"; tipo := TREINAMENTO;
       status := PENDENTE; timestamp_criacao := agora;
       timestamp_inicio := None; timestamp_fim := None;
       descricao := Some ("Treinamento com algoritmo " ++ alg);
       parametros :=
         Some (JDic [("algoritmo", JStr alg);
                     ("hiperparametros", hiperparametros);
                     ("num_amostras", JNum (Z.of_nat (List.length imoveis)))]);
       resultado := None; erro := None |} ;;
  task <~ delay "treinar_modelo" [JLista imoveis; JStr alg] ;;
  _ <~ db_set_task_id tarefa task ;;
  resposta <~ da_saida
    (JSONResponse
       (TarefaResponse_dict
          {| tr_task_id := task; tr_tipo := TREINAMENTO;
             tr_status := PENDENTE;
             tr_timestamp_criacao := timestamp_criacao tarefa;
             tr_url_status := "/tarefa/" ++ task |})) ;;
  Pronto resposta.

(** [prever_lote]: always asynchronous. *)
Definition prever_lote (imoveis : list Json)
  : Prog TarefaAssincrona Processo Dic :=
  _ <~ (fun w =>
          if modelo_treinado (extra w) then (Retorna tt, w)
          else (Levanta (HTTPException 400
                  "Modelo não treinado. Treine o modelo primeiro."), w)) ;;
  request_id <~ uuid4 ;;
  agora <~ utcnow ;;
  tarefa <~ db_add_commit
    {| id := 0%nat; task_id := "pending"; tipo := PREVISAO_LOTE;
       status := PENDENTE; timestamp_criacao := agora;
       timestamp_inicio := None; timestamp_fim := None;
       descricao :=
         Some ("Previsão de preço para " ++ str_nat (List.length imoveis)
               ++ " imóveis");
       parametros :=
         Some (JDic [("num_imoveis", JNum (Z.of_nat (List.length imoveis)))]);
       resultado := None; erro := None |} ;;
  task <~ delay "fazer_previsao" [JLista imoveis] ;;
  _ <~ db_set_task_id tarefa task ;;
  resposta <~ da_saida
    (JSONResponse
       (TarefaResponse_dict
          {| tr_task_id := task; tr_tipo := PREVISAO_LOTE;
             tr_status := PENDENTE;
             tr_timestamp_criacao := timestamp_criacao tarefa;
             tr_url_status := "/tarefa/" ++ task |})) ;;
  Pronto resposta.

(** [contador_requisicoes.get(chave)] *)
Definition contador_get (chave : string) (c : Contador) : option Z :=
  if String.eqb chave "total" then Some (total c)
  else if String.eqb chave "previsoes_sincronas" then Some (previsoes_sincronas c)
  else if String.eqb chave "previsoes_assincronas" then Some (previsoes_assincronas c)
  else if String.eqb chave "treinamentos_sincronos" then Some (treinamentos_sincronos c)
  else if String.eqb chave "treinamentos_assincronos" then Some (treinamentos_assincronos c)
  else if String.eqb chave "consultas" then Some (consultas c)
  else if String.eqb chave "erros" then Some (erros c)
  else None.

(** [TarefaAssincrona.status == status] and [TarefaAssincrona.tipo == tipo] *)
Definition status_igual (a b : StatusTarefa) : bool :=
  String.eqb (StatusTarefa_valor a) (StatusTarefa_valor b).

Definition tipo_igual (a b : TipoTarefa) : bool :=
  String.eqb (TipoTarefa_valor a) (TipoTarefa_valor b).

(** The filters of [listar_tarefas], each applied only when given. *)
Definition filtrar (status_f : option StatusTarefa) (tipo_f : option TipoTarefa)
    (linhas : list TarefaAssincrona) : list TarefaAssincrona :=
  let query :=
    match status_f with
    | Some s => filter (fun t => status_igual (status t) s) linhas
    | None => linhas
    end in
  match tipo_f with
  | Some tp => filter (fun t => tipo_igual (tipo t) tp) query
  | None => query
  end.

(** The response built from a row. *)
Definition resposta_de (tarefa : TarefaAssincrona) : Saida StatusTarefaResponse :=
  novo_StatusTarefaResponse (task_id tarefa)
    (StatusTarefa_valor (status tarefa)) (TipoTarefa_valor (tipo tarefa))
    (timestamp_criacao tarefa) (timestamp_inicio tarefa)
    (timestamp_fim tarefa) (resultado tarefa) (erro tarefa).

(** The loop that appends one response per row; the first row that cannot
    be converted ends it with its exception. *)
Fixpoint converter (tarefas : list TarefaAssincrona)
  : Saida (list StatusTarefaResponse) :=
  match tarefas with
  | [] => Retorna []
  | tarefa :: resto =>
      match resposta_de tarefa with
      | Levanta e => Levanta e
      | Retorna r =>
          match converter resto with
          | Levanta e => Levanta e
          | Retorna rs => Retorna (r :: rs)
          end
      end
  end.

(** [.filter(TarefaAssincrona.status == s).count()] *)
Definition contar (s : StatusTarefa) (linhas : list TarefaAssincrona) : Z :=
  Z.of_nat (List.length (filter (fun t => status_igual (status t) s) linhas)).

Record ListaTarefas : Type := {
  lt_tarefas : list StatusTarefaResponse;
  lt_total : Z;
  lt_pendentes : Z;
  lt_em_progresso : Z;
  lt_concluidas : Z;
  lt_falhas : Z
}.

Definition RequestValidationError (campo : string) : Excecao :=
  {| exc_classe := "RequestValidationError"; exc_str := campo;
     exc_status_code := Some 422 |}.

(** [listar_tarefas]; [limit] is declared with [ge=1, le=100] and [offset]
    with [ge=0], which the framework checks before the body runs. *)
Definition listar_tarefas (status_f : option StatusTarefa)
    (tipo_f : option TipoTarefa) (limit offset : Z)
  : Prog TarefaAssincrona Processo ListaTarefas :=
  _ <~ (if (limit <? 1) || (100 <? limit)
        then levantar (RequestValidationError "limit")
        else if offset <? 0
             then levantar (RequestValidationError "offset")
             else ret tt) ;;
  _ <~ registrar_requisicao "consultas" ;;
  linhas <~ db_linhas ;;
  let query := filtrar status_f tipo_f linhas in
  let tarefas :=
    firstn (Z.to_nat limit)
      (skipn (Z.to_nat offset) (ordenar_desc timestamp_criacao query)) in
  tarefas_response <~ da_saida (converter tarefas) ;;
  Pronto {| lt_tarefas := tarefas_response;
            lt_total := Z.of_nat (List.length query);
            lt_pendentes := contar PENDENTE linhas;
            lt_em_progresso := contar EM_PROGRESSO linhas;
            lt_concluidas := contar CONCLUIDO linhas;
            lt_falhas := contar FALHA linhas |}.

End App9.

(** ** Concrete worlds *)
Module Exemplos.

Definition relogio_ex (n : nat) : Z := 1000 + Z.of_nat n.

Definition uuids_ex (n : nat) : string :=
  match n with
  | O => "c-0"
  | S O => "c-1"
  | S (S O) => "c-2"
  | _ => "c-n"
  end.

Definition modelo_ex : App10.Modelo :=
  {| App10.algoritmo := "linear_regression"; App10.interno := 0%nat |}.

(** An executor that succeeds. *)
Definition adaptador_ok : App10.Adaptador :=
  {| App10.ad_treinar := fun m _ _ => (Retorna [("mae", JNum 12)], m);
     App10.ad_prever := fun m _ => (Retorna (JNum 250000, JNum 1), m) |}.

Definition nao_treinado : Excecao :=
  {| exc_classe := "ValueError"; exc_str := "model not trained";
     exc_status_code := None |}.

(** An executor that raises. *)
Definition adaptador_falha : App10.Adaptador :=
  {| App10.ad_treinar := fun m _ _ => (Levanta nao_treinado, m);
     App10.ad_prever := fun m _ => (Levanta nao_treinado, m) |}.

Definition tarefa_pendente : App10.Tarefa :=
  {| App10.id := 1%nat; App10.task_id := "t1"; App10.tipo := "treinamento";
     App10.status := "pendente"; App10.dados_entrada := None;
     App10.resultado := None; App10.erro := None;
     App10.timestamp_inicio := Some 900;
     App10.timestamp_atualizacao := Some 900; App10.duracao := None |}.

Definition tarefa_concluida : App10.Tarefa :=
  {| App10.id := 1%nat; App10.task_id := "t1"; App10.tipo := "treinamento";
     App10.status := "concluida"; App10.dados_entrada := None;
     App10.resultado := Some [("mae", JNum 12)]; App10.erro := None;
     App10.timestamp_inicio := Some 900;
     App10.timestamp_atualizacao := Some 950; App10.duracao := Some 50 |}.

Definition mundo_com (ts : list App10.Tarefa) : App10.Estado :=
  {| tarefas := ts; transacao := None; fila := []; relogio := relogio_ex;
     lidas := 0%nat; uuids := uuids_ex; gerados := 0%nat; eventos := [];
     extra := modelo_ex |}.

Definition mundo_vazio : App10.Estado := mundo_com [].
Definition mundo_pendente : App10.Estado := mundo_com [tarefa_pendente].
Definition mundo_concluida : App10.Estado := mundo_com [tarefa_concluida].

Definition tarefa9 : App9.TarefaAssincrona :=
  {| App9.id := 1%nat; App9.task_id := "t1"; App9.tipo := App9.TREINAMENTO;
     App9.status := App9.CONCLUIDO; App9.timestamp_criacao := 100;
     App9.timestamp_inicio := Some 130; App9.timestamp_fim := Some 190;
     App9.descricao := None; App9.parametros := None;
     App9.resultado := None; App9.erro := None |}.

Definition contador_zero : App9.Contador :=
  {| App9.total := 0; App9.previsoes_sincronas := 0;
     App9.previsoes_assincronas := 0; App9.treinamentos_sincronos := 0;
     App9.treinamentos_assincronos := 0; App9.consultas := 0;
     App9.erros := 0 |}.

(** A result backend that reports an unknown id as PENDING, as Celery
    does. *)
Definition backend_ex (tid : string) : Saida App9.ResultadoCelery :=
  Retorna {| App9.state := "PENDING"; App9.result := JNull;
             App9.result_str := "None" |}.

Definition mundo9_com (ts : list App9.TarefaAssincrona) : App9.Estado :=
  {| tarefas := ts; transacao := None; fila := []; relogio := relogio_ex;
     lidas := 0%nat; uuids := uuids_ex; gerados := 0%nat; eventos := [];
     extra := {| App9.contador_requisicoes := contador_zero;
                 App9.backend := backend_ex;
                 App9.modelo_treinado := true |} |}.

Definition mundo9_vazio : App9.Estado := mundo9_com [].

Definition tarefa9_pendente : App9.TarefaAssincrona :=
  {| App9.id := 2%nat; App9.task_id := "t3"; App9.tipo := App9.TREINAMENTO;
     App9.status := App9.PENDENTE; App9.timestamp_criacao := 150;
     App9.timestamp_inicio := None; App9.timestamp_fim := None;
     App9.descricao := None; App9.parametros := None;
     App9.resultado := None; App9.erro := None |}.

Definition tarefa9_cancelada : App9.TarefaAssincrona :=
  {| App9.id := 3%nat; App9.task_id := "t4"; App9.tipo := App9.PREVISAO;
     App9.status := App9.CANCELADO; App9.timestamp_criacao := 120;
     App9.timestamp_inicio := None; App9.timestamp_fim := None;
     App9.descricao := None; App9.parametros := None;
     App9.resultado := None; App9.erro := None |}.

Definition mundo9_tres : App9.Estado :=
  mundo9_com [tarefa9; tarefa9_pendente; tarefa9_cancelada].

Definition sem_mensagem : Excecao :=
  {| exc_classe := "AssertionError"; exc_str := "";
     exc_status_code := None |}.

(** An executor that raises an exception without a message. *)
Definition adaptador_mudo : App10.Adaptador :=
  {| App10.ad_treinar := fun m _ _ => (Levanta sem_mensagem, m);
     App10.ad_prever := fun m _ => (Levanta sem_mensagem, m) |}.

Definition outra_tarefa : App10.Tarefa :=
  {| App10.id := 2%nat; App10.task_id := "t2"; App10.tipo := "predicao";
     App10.status := "pendente"; App10.dados_entrada := None;
     App10.resultado := None; App10.erro := None;
     App10.timestamp_inicio := Some 910;
     App10.timestamp_atualizacao := Some 910; App10.duracao := None |}.

(** A row stored under the identifier that [uuids_ex] gives first. *)
Definition tarefa_c0 : App10.Tarefa :=
  {| App10.id := 1%nat; App10.task_id := "c-0"; App10.tipo := "predicao";
     App10.status := "pendente"; App10.dados_entrada := None;
     App10.resultado := None; App10.erro := None;
     App10.timestamp_inicio := Some 900;
     App10.timestamp_atualizacao := Some 900; App10.duracao := None |}.

Definition mundo_dois : App10.Estado := mundo_com [tarefa_pendente; outra_tarefa].

(** A row whose stored result is a JSON text, not an object. *)
Definition tarefa9_texto : App9.TarefaAssincrona :=
  {| App9.id := 1%nat; App9.task_id := "t5"; App9.tipo := App9.TREINAMENTO;
     App9.status := App9.CONCLUIDO; App9.timestamp_criacao := 100;
     App9.timestamp_inicio := Some 130; App9.timestamp_fim := Some 190;
     App9.descricao := None; App9.parametros := None;
     App9.resultado := Some (JStr "ok"); App9.erro := None |}.

(** A row whose stored result is the empty string. *)
Definition tarefa9_vazio : App9.TarefaAssincrona :=
  {| App9.id := 1%nat; App9.task_id := "t6"; App9.tipo := App9.TREINAMENTO;
     App9.status := App9.CONCLUIDO; App9.timestamp_criacao := 100;
     App9.timestamp_inicio := Some 130; App9.timestamp_fim := Some 190;
     App9.descricao := None; App9.parametros := None;
     App9.resultado := Some (JStr ""); App9.erro := None |}.

(** What a worker reports for task "c-1". *)
Definition chamadas_ex : list (string * string * option Json * option string) :=
  [("c-1", "EM_PROGRESSO", None, None);
   ("c-1", "CONCLUIDO", Some (JDic [("mae", JNum 12)]), None)].

(** A process without a trained model. *)
Definition mundo9_sem_modelo : App9.Estado :=
  {| tarefas := []; transacao := None; fila := []; relogio := relogio_ex;
     lidas := 0%nat; uuids := uuids_ex; gerados := 0%nat; eventos := [];
     extra := {| App9.contador_requisicoes := contador_zero;
                 App9.backend := backend_ex;
                 App9.modelo_treinado := false |} |}.

(** Ten training records. *)
Definition imoveis_ex : list Json := repeat (JDic [("area", JNum 80)]) 10.

End Exemplos.

(** ** Properties *)

Import App10.

(** *** The task table under lookups and writes *)

Lemma buscar_task_id tid t ts : buscar tid ts = Some t -> task_id t = tid.
Proof.
  unfold buscar. intros H. apply find_some in H. destruct H as [_ H].
  now apply String.eqb_eq.
Qed.

(** Writing back a row that keeps its key and its task id leaves it the
    first one found under that task id. *)
Lemma buscar_gravar tid t t' ts :
  buscar tid ts = Some t -> id t' = id t -> task_id t' = tid ->
  buscar tid (gravar t' ts) = Some t'.
Proof.
  intros Hb Hid Htid. unfold buscar, gravar in *.
  induction ts as [|r ts IH]; simpl in *; [discriminate|].
  destruct (String.eqb (task_id r) tid) eqn:Er.
  - inversion Hb; subst r. rewrite Hid, Nat.eqb_refl.
    rewrite Htid, String.eqb_refl. reflexivity.
  - destruct (Nat.eqb (id r) (id t')) eqn:Ei.
    + rewrite Htid, String.eqb_refl. reflexivity.
    + rewrite Er. auto.
Qed.

Lemma buscar_atualizada w st r e tid t t' ts :
  buscar tid ts = Some t -> Atualizada w st r e t t' ->
  buscar tid (gravar t' ts) = Some t'.
Proof.
  intros H A. apply (buscar_gravar tid t); auto.
  - apply (at_id _ _ _ _ _ _ A).
  - rewrite (at_task_id _ _ _ _ _ _ A). now apply buscar_task_id with ts.
Qed.

Lemma buscar_no_fim tid t ts :
  buscar tid ts = None -> task_id t = tid ->
  buscar tid (ts ++ [t]) = Some t.
Proof.
  unfold buscar. intros Hn Ht. induction ts as [|r ts IH]; simpl in *.
  - now rewrite Ht, String.eqb_refl.
  - destruct (String.eqb (task_id r) tid); [discriminate|auto].
Qed.

Lemma dic_set_nao_vazio k v d : dic_set k v d <> [].
Proof.
  destruct d as [|[k' v'] d]; simpl; [discriminate|].
  destruct (String.eqb k' k); discriminate.
Qed.

Lemma bind_retorna {A B} (c : M A) (k : A -> M B) w a w' :
  c w = (Retorna a, w') -> bind c k w = k a w'.
Proof. intros H. unfold bind. now rewrite H. Qed.

(** *** The status updater of iteration 10 *)

(** No row under the task id: [False], and only the session is closed. *)
Lemma atualizar_ausente (w : Estado) tid st r e :
  buscar tid (tarefas w) = None ->
  atualizar_status_tarefa tid st r e w
  = (Retorna false, registrar EvFechar (com_transacao None w)).
Proof.
  intros H.
  unfold atualizar_status_tarefa, tentar, finalmente, bind, SessionLocal,
    db_first, db_linhas, visao, ret, db_close.
  cbn -[buscar]. rewrite H. reflexivity.
Qed.

(** A row under the task id: [True], and the row is rewritten whatever its
    status was. *)
Lemma atualizar_presente (w : Estado) tid st r e t :
  buscar tid (tarefas w) = Some t ->
  exists t' w',
    atualizar_status_tarefa tid st r e w = (Retorna true, w') /\
    tarefas w' = gravar t' (tarefas w) /\
    eventos w' = (eventos w ++ [EvCommit; EvFechar])%list /\
    Atualizada w st r e t t' /\ Moldura w w'.
Proof.
  intros H. unfold atualizar_status_tarefa.
  remember (pertence st ["concluida"; "falha"]) as p eqn:Ep.
  unfold tentar, finalmente, bind, SessionLocal, db_first, db_gravar,
    db_pendente, db_commit, db_linhas, visao, ret, db_close.
  cbn -[pertence buscar gravar]. rewrite H.
  destruct (verdade_dic r) eqn:Er, (verdade_str e) eqn:Ee;
    cbn [timestamp_inicio com_erro com_resultado com_status];
    destruct p, (timestamp_inicio t) eqn:Et; cbn -[pertence gravar].
  all: lazymatch goal with |- context [gravar ?x _] => exists x end.
  all: eexists; split; [reflexivity|]; split; [reflexivity|];
    split; [cbn; rewrite <- app_assoc; reflexivity|].
  all: split;
    [ constructor; cbn -[pertence]; rewrite ?Er, ?Ee, <- ?Ep, ?Et; auto
    | constructor; cbn; auto ].
Qed.

Lemma atualizar_presente_buscar (w : Estado) tid st r e t :
  buscar tid (tarefas w) = Some t ->
  exists t' w',
    atualizar_status_tarefa tid st r e w = (Retorna true, w') /\
    buscar tid (tarefas w') = Some t' /\
    Atualizada w st r e t t' /\ Moldura w w'.
Proof.
  intros H.
  destruct (atualizar_presente w tid st r e t H) as (t' & w' & E & T & _ & A & F).
  exists t', w'. split; [exact E|]. split; [|split; assumption].
  rewrite T. eapply buscar_atualizada; eauto.
Qed.

(** The updater never raises and only ever adds to the trace. *)
Lemma atualizar_eventos (w : Estado) tid st r e :
  exists b w' l,
    atualizar_status_tarefa tid st r e w = (Retorna b, w') /\
    eventos w' = (eventos w ++ l)%list /\ extra w' = extra w.
Proof.
  destruct (buscar tid (tarefas w)) as [t|] eqn:H.
  - destruct (atualizar_presente w tid st r e t H) as (t' & w' & E & _ & V & _ & F).
    exists true, w', [EvCommit; EvFechar]. repeat split; auto. apply F.
  - exists false, (registrar EvFechar (com_transacao None w)), [EvFechar].
    split; [now apply atualizar_ausente|]. split; reflexivity.
Qed.

(** *** The Celery tasks of iteration 10 *)

Ltac na_lista := cbn; rewrite ?in_app_iff; cbn; tauto.

Lemma treinar_modelo_presente ad (w : Estado) tid dados alg t :
  buscar tid (tarefas w) = Some t ->
  exists t1 w1,
    atualizar_status_tarefa tid "em_progresso" None None w = (Retorna true, w1) /\
    buscar tid (tarefas w1) = Some t1 /\
    Atualizada w "em_progresso" None None t t1 /\
    match ad_treinar ad (extra w) dados alg with
    | (Retorna metricas, m') =>
        exists r t2 wm w2,
          treinar_modelo ad tid dados alg w = (Retorna r, w2) /\
          r <> [] /\
          buscar tid (tarefas w2) = Some t2 /\
          Atualizada wm "concluida" (Some r) None t1 t2
    | (Levanta e, m') =>
        exists t2 wm w2,
          treinar_modelo ad tid dados alg w = (Levanta e, w2) /\
          buscar tid (tarefas w2) = Some t2 /\
          Atualizada wm "falha" None (Some (exc_str e)) t1 t2 /\
          In (EvErro "task_error" "treinar_modelo") (eventos w2)
    end.
Proof.
  intros H.
  destruct (atualizar_presente_buscar w tid "em_progresso" None None t H)
    as (t1 & w1 & E1 & B1 & A1 & M1).
  exists t1, w1. split; [exact E1|]. split; [exact B1|]. split; [exact A1|].
  remember (treinar_modelo ad tid dados alg w) as res eqn:Hres.
  unfold treinar_modelo in Hres. rewrite (bind_retorna _ _ _ _ _ E1) in Hres.
  unfold tentar, bind, time_time, utcnow, modelo_treinar, modelo_algoritmo in Hres.
  cbn -[atualizar_status_tarefa dic_set] in Hres.
  rewrite (mo_extra _ _ M1) in Hres.
  destruct (ad_treinar ad (extra w) dados alg) as [[metricas|e] m'] eqn:Ead;
    cbv beta iota.
  - match type of Hres with
    | context [atualizar_status_tarefa tid "concluida" (Some ?r) None ?wm] =>
        destruct (atualizar_presente_buscar wm tid "concluida" (Some r) None t1 B1)
          as (t2 & w2 & E2 & B2 & A2 & M2);
        exists r, t2, wm, w2
    end.
    rewrite E2 in Hres. cbn in Hres.
    split; [exact Hres|]. split; [apply dic_set_nao_vazio|].
    split; [exact B2|exact A2].
  - match type of Hres with
    | context [atualizar_status_tarefa tid "falha" None ?r ?wm] =>
        destruct (atualizar_presente_buscar wm tid "falha" None r t1 B1)
          as (t2 & w2 & E2 & B2 & A2 & M2);
        exists t2, wm, (registrar (EvErro "task_error" "treinar_modelo") w2)
    end.
    rewrite E2 in Hres. cbn in Hres.
    split; [exact Hres|]. split; [exact B2|]. split; [exact A2|]. na_lista.
Qed.

Lemma realizar_previsao_presente ad (w : Estado) tid dados t :
  buscar tid (tarefas w) = Some t ->
  exists t1 w1,
    atualizar_status_tarefa tid "em_progresso" None None w = (Retorna true, w1) /\
    buscar tid (tarefas w1) = Some t1 /\
    Atualizada w "em_progresso" None None t t1 /\
    match ad_prever ad (extra w) dados with
    | (Retorna par, m') =>
        exists r t2 wm w2,
          realizar_previsao ad tid dados w = (Retorna r, w2) /\
          r <> [] /\
          buscar tid (tarefas w2) = Some t2 /\
          Atualizada wm "concluida" (Some r) None t1 t2
    | (Levanta e, m') =>
        exists t2 wm w2,
          realizar_previsao ad tid dados w = (Levanta e, w2) /\
          buscar tid (tarefas w2) = Some t2 /\
          Atualizada wm "falha" None (Some (exc_str e)) t1 t2 /\
          In (EvErro "task_error" "realizar_previsao") (eventos w2)
    end.
Proof.
  intros H.
  destruct (atualizar_presente_buscar w tid "em_progresso" None None t H)
    as (t1 & w1 & E1 & B1 & A1 & M1).
  exists t1, w1. split; [exact E1|]. split; [exact B1|]. split; [exact A1|].
  remember (realizar_previsao ad tid dados w) as res eqn:Hres.
  unfold realizar_previsao in Hres. rewrite (bind_retorna _ _ _ _ _ E1) in Hres.
  unfold tentar, bind, time_time, utcnow, modelo_prever, modelo_algoritmo in Hres.
  cbn -[atualizar_status_tarefa] in Hres.
  rewrite (mo_extra _ _ M1) in Hres.
  destruct (ad_prever ad (extra w) dados) as [[par|e] m'] eqn:Ead;
    cbv beta iota.
  - match type of Hres with
    | context [atualizar_status_tarefa tid "concluida" (Some ?r) None ?wm] =>
        destruct (atualizar_presente_buscar wm tid "concluida" (Some r) None t1 B1)
          as (t2 & w2 & E2 & B2 & A2 & M2);
        exists r, t2, wm, w2
    end.
    rewrite E2 in Hres. cbn in Hres.
    split; [exact Hres|]. split; [discriminate|].
    split; [exact B2|exact A2].
  - match type of Hres with
    | context [atualizar_status_tarefa tid "falha" None ?r ?wm] =>
        destruct (atualizar_presente_buscar wm tid "falha" None r t1 B1)
          as (t2 & w2 & E2 & B2 & A2 & M2);
        exists t2, wm, (registrar (EvErro "task_error" "realizar_previsao") w2)
    end.
    rewrite E2 in Hres. cbn in Hres.
    split; [exact Hres|]. split; [exact B2|]. split; [exact A2|]. na_lista.
Qed.

(** The executor is invoked whatever the table holds. *)
Lemma treinar_modelo_invoca ad (w : Estado) tid dados alg :
  In (EvAdaptador "treinar") (eventos (snd (treinar_modelo ad tid dados alg w))).
Proof.
  destruct (atualizar_eventos w tid "em_progresso" None None)
    as (b & w1 & l1 & E1 & V1 & X1).
  unfold treinar_modelo. rewrite (bind_retorna _ _ _ _ _ E1).
  unfold tentar, bind, time_time, utcnow, modelo_treinar, modelo_algoritmo.
  cbn -[atualizar_status_tarefa dic_set].
  destruct (ad_treinar ad (extra w1) dados alg) as [[metricas|e] m'].
  - match goal with
    | |- context [atualizar_status_tarefa tid "concluida" ?r None ?wm] =>
        destruct (atualizar_eventos wm tid "concluida" r None)
          as (b2 & w2 & l2 & E2 & V2 & X2)
    end.
    rewrite E2. cbn. rewrite V2. na_lista.
  - match goal with
    | |- context [atualizar_status_tarefa tid "falha" None ?r ?wm] =>
        destruct (atualizar_eventos wm tid "falha" None r)
          as (b2 & w2 & l2 & E2 & V2 & X2)
    end.
    rewrite E2. cbn. rewrite V2. na_lista.
Qed.

Lemma realizar_previsao_invoca ad (w : Estado) tid dados :
  In (EvAdaptador "prever") (eventos (snd (realizar_previsao ad tid dados w))).
Proof.
  destruct (atualizar_eventos w tid "em_progresso" None None)
    as (b & w1 & l1 & E1 & V1 & X1).
  unfold realizar_previsao. rewrite (bind_retorna _ _ _ _ _ E1).
  unfold tentar, bind, time_time, utcnow, modelo_prever, modelo_algoritmo.
  cbn -[atualizar_status_tarefa].
  destruct (ad_prever ad (extra w1) dados) as [[par|e] m'].
  - match goal with
    | |- context [atualizar_status_tarefa tid "concluida" ?r None ?wm] =>
        destruct (atualizar_eventos wm tid "concluida" r None)
          as (b2 & w2 & l2 & E2 & V2 & X2)
    end.
    rewrite E2. cbn. rewrite V2. na_lista.
  - match goal with
    | |- context [atualizar_status_tarefa tid "falha" None ?r ?wm] =>
        destruct (atualizar_eventos wm tid "falha" None r)
          as (b2 & w2 & l2 & E2 & V2 & X2)
    end.
    rewrite E2. cbn. rewrite V2. na_lista.
Qed.

Lemma atualizada_atualizacao w st r e t t' :
  Atualizada w st r e t t' -> timestamp_atualizacao t' <> None.
Proof.
  intros A. pose proof (at_tempo _ _ _ _ _ _ A) as T.
  destruct (pertence st ["concluida"; "falha"]), (timestamp_inicio t);
    destruct T as [_ T]; rewrite T; discriminate.
Qed.

Lemma atualizada_duracao w st r e t t' :
  Atualizada w st r e t t' ->
  pertence st ["concluida"; "falha"] = true ->
  timestamp_inicio t <> None -> duracao t' <> None.
Proof.
  intros A P I. pose proof (at_tempo _ _ _ _ _ _ A) as T. rewrite P in T.
  destruct (timestamp_inicio t); [|contradiction].
  destruct T as [T _]; rewrite T; discriminate.
Qed.

Lemma verdade_str_cheia s : s <> "" -> verdade_str (Some s) = true.
Proof.
  intros H. unfold verdade_str.
  destruct (String.eqb s "") eqn:E; [|reflexivity].
  apply String.eqb_eq in E. contradiction.
Qed.

Lemma verdade_dic_cheio (d : Dic) : d <> [] -> verdade_dic (Some d) = true.
Proof. destruct d; [contradiction|reflexivity]. Qed.

(** *** Submission and status query of iteration 10 *)

(** With a fresh identifier the submission returns, and the table gains one
    row, stored before the message is sent. *)
Lemma prever_assincrono_roda (w : Estado) dados :
  buscar (uuids w (gerados w)) (tarefas w) = None ->
  exists t resp w1,
    com_get_db (prever_assincrono dados) w = (Retorna resp, w1) /\
    tarefas w1 = (tarefas w ++ [t])%list /\
    transacao w1 = None /\
    task_id t = uuids w (gerados w) /\
    st_task_id resp = uuids w (gerados w) /\
    status t = "pendente" /\
    timestamp_inicio t = Some (relogio w (lidas w)) /\
    timestamp_atualizacao t = Some (relogio w (S (lidas w))) /\
    resultado t = None /\ erro t = None /\ duracao t = None /\
    st_status resp = PENDENTE.
Proof.
  intros H.
  unfold com_get_db, finalmente, sessao, prever_assincrono, db_add_commit,
    bind, ret, SessionLocal, uuid4, utcnow, db_linhas, db_pendente, db_commit,
    apply_async, da_saida, db_close, visao.
  cbn -[buscar]. rewrite H. cbn -[buscar].
  eexists; eexists; eexists. split; [reflexivity|]. cbn.
  repeat split; reflexivity.
Qed.

Lemma verificar_presente (w : Estado) tid t s i a :
  buscar tid (tarefas w) = Some t ->
  StatusTarefaEnum_de (status t) = Some s ->
  timestamp_inicio t = Some i -> timestamp_atualizacao t = Some a ->
  com_get_db (verificar_status_tarefa tid) w
  = (Retorna {| st_task_id := task_id t; st_status := s;
                st_resultado := resultado t; st_erro := erro t;
                st_timestamp_inicio := i; st_timestamp_atualizacao := a |},
     registrar EvFechar (com_transacao None w)).
Proof.
  intros H Hs Hi Ha.
  unfold com_get_db, finalmente, sessao, verificar_status_tarefa, db_first,
    bind, ret, SessionLocal, db_linhas, db_close, visao.
  cbn -[buscar]. rewrite H. cbn -[buscar].
  unfold da_saida, novo_StatusTarefa. rewrite Hs, Hi, Ha. reflexivity.
Qed.

Lemma verificar_ausente (w : Estado) tid :
  buscar tid (tarefas w) = None ->
  com_get_db (verificar_status_tarefa tid) w
  = (Levanta (HTTPException 404 ("Tarefa não encontrada: " ++ tid)),
     registrar EvFechar (com_transacao None w)).
Proof.
  intros H.
  unfold com_get_db, finalmente, sessao, verificar_status_tarefa, db_first,
    bind, ret, SessionLocal, db_linhas, db_close, visao, abortar, levantar.
  cbn -[buscar append]. rewrite H. reflexivity.
Qed.

(** At every point of a submission of iteration 10, a message that the
    submission put in the queue has its row in the table. *)
Lemma prever_registra_antes (w : Estado) dados n m :
  In m (fila (avancar n (sessao (prever_assincrono dados)) w)) ->
  In m (fila w) \/
  buscar (msg_task_id m)
    (tarefas (avancar n (sessao (prever_assincrono dados)) w)) <> None.
Proof.
  unfold sessao, prever_assincrono.
  do 4 (destruct n as [|n]; [cbn; auto|]).
  cbn -[buscar db_add_commit].
  unfold db_add_commit, bind, ret, db_linhas, db_pendente, db_commit,
    levantar, visao.
  cbn -[buscar].
  destruct (buscar (uuids w (gerados w)) (tarefas w)) eqn:B;
    cbn -[buscar]; auto.
  assert (X : forall ts t, task_id t = uuids w (gerados w) ->
     buscar (uuids w (gerados w)) (ts ++ [t]) <> None).
  { intros ts t Ht. unfold buscar. induction ts as [|a ts IH]; cbn.
    - rewrite Ht, String.eqb_refl. discriminate.
    - destruct (String.eqb (task_id a) _); [discriminate|exact IH]. }
  destruct n as [|n]; [cbn; auto|]. cbn -[buscar].
  destruct n as [|n]; [|destruct n as [|n]]; cbn -[buscar];
    rewrite in_app_iff; cbn -[buscar];
    (intros [Hin|[Hm|[]]];
     [auto|subst m; right; cbn -[buscar]; apply X; reflexivity]).
Qed.

(** *** Iteration 9 *)

(** A response whose [tipo] is the text "desconhecido" cannot be built. *)
Lemma novo_resposta_desconhecido tid st c i f r e :
  App9.novo_StatusTarefaResponse tid st "desconhecido" c i f r e
  = Levanta (ValidationError "tipo").
Proof. reflexivity. Qed.

Lemma status_tarefa_ausente (w : App9.Estado) tid :
  App9.buscar tid (tarefas w) = None ->
  exists w',
    com_get_db (App9.status_tarefa tid) w
    = (Levanta (HTTPException 404
                  ("Tarefa com ID " ++ tid ++ " não encontrada")), w') /\
    tarefas w' = tarefas w /\ fila w' = fila w.
Proof.
  intros H.
  unfold com_get_db, finalmente, sessao, App9.status_tarefa,
    App9.registrar_requisicao, App9.db_query_first, App9.AsyncResult,
    bind, ret, tentar, SessionLocal, db_linhas, db_close, visao, utcnow,
    da_saida, levantar.
  cbn -[App9.buscar append String.eqb]. rewrite H.
  cbn -[App9.buscar append String.eqb].
  destruct (App9.backend (extra w) tid) as [res|ex].
  - destruct (String.eqb (App9.state res) "PENDING");
      [|destruct (String.eqb (App9.state res) "STARTED");
        [|destruct (String.eqb (App9.state res) "SUCCESS")]];
      cbn -[append]; eexists; split; try reflexivity; split; reflexivity.
  - cbn -[append]. eexists; split; [reflexivity|]. split; reflexivity.
Qed.

(** The updater of iteration 9 queries the enum [StatusTarefa] instead of
    the mapped class: every call ends in its [except] branch and writes
    nothing. *)
Lemma atualizar9_sem_efeito (w : App9.Estado) tid st r e :
  App9.atualizar_status_tarefa tid st r e w
  = (Retorna tt, registrar EvFechar (com_transacao None w)).
Proof. reflexivity. Qed.

Lemma StatusTarefa_de_valor s :
  App9.StatusTarefa_de (App9.StatusTarefa_valor s) = Some s.
Proof. destruct s; reflexivity. Qed.

Lemma TipoTarefa_de_valor t :
  App9.TipoTarefa_de (App9.TipoTarefa_valor t) = Some t.
Proof. destruct t; reflexivity. Qed.

(** *** The tasks of iteration 10, statement by statement *)

(** The step view of a task runs to the same result and world as the
    task. *)
Lemma treinar_modelo_passos_roda ad tid dados alg (w : Estado) :
  rodar (treinar_modelo_passos ad tid dados alg) w
  = treinar_modelo ad tid dados alg w.
Proof.
  unfold treinar_modelo_passos, treinar_modelo, bind. cbn [rodar].
  destruct (atualizar_status_tarefa tid "em_progresso" None None w)
    as [[b|e] w1]; [|reflexivity].
  match goal with
  | |- match ?c with _ => _ end = _ => destruct c as [[r|e] w2]
  end; reflexivity.
Qed.

Lemma realizar_previsao_passos_roda ad tid dados (w : Estado) :
  rodar (realizar_previsao_passos ad tid dados) w
  = realizar_previsao ad tid dados w.
Proof.
  unfold realizar_previsao_passos, realizar_previsao, bind. cbn [rodar].
  destruct (atualizar_status_tarefa tid "em_progresso" None None w)
    as [[b|e] w1]; [|reflexivity].
  match goal with
  | |- match ?c with _ => _ end = _ => destruct c as [[r|e] w2]
  end; reflexivity.
Qed.

(** From the world the first statement leaves, the next event of a task is
    the call of the executor. *)
Lemma treinar_modelo_depois ad (w w1 : Estado) tid dados alg b :
  atualizar_status_tarefa tid "em_progresso" None None w = (Retorna b, w1) ->
  exists l,
    eventos (snd (treinar_modelo ad tid dados alg w))
    = (eventos w1 ++ EvAdaptador "treinar" :: l)%list.
Proof.
  intros E1.
  unfold treinar_modelo. rewrite (bind_retorna _ _ _ _ _ E1).
  unfold tentar, bind, time_time, utcnow, modelo_treinar, modelo_algoritmo.
  cbn -[atualizar_status_tarefa dic_set].
  destruct (ad_treinar ad (extra w1) dados alg) as [[metricas|e] m'].
  - match goal with
    | |- context [atualizar_status_tarefa tid "concluida" ?r None ?wm] =>
        destruct (atualizar_eventos wm tid "concluida" r None)
          as (b2 & w2 & l2 & E2 & V2 & X2)
    end.
    rewrite E2. cbn. rewrite V2. cbn. rewrite <- app_assoc. cbn.
    eexists. reflexivity.
  - match goal with
    | |- context [atualizar_status_tarefa tid "falha" None ?r ?wm] =>
        destruct (atualizar_eventos wm tid "falha" None r)
          as (b2 & w2 & l2 & E2 & V2 & X2)
    end.
    rewrite E2. cbn. rewrite V2. cbn. rewrite <- !app_assoc. cbn.
    eexists. reflexivity.
Qed.

Lemma realizar_previsao_depois ad (w w1 : Estado) tid dados b :
  atualizar_status_tarefa tid "em_progresso" None None w = (Retorna b, w1) ->
  exists l,
    eventos (snd (realizar_previsao ad tid dados w))
    = (eventos w1 ++ EvAdaptador "prever" :: l)%list.
Proof.
  intros E1.
  unfold realizar_previsao. rewrite (bind_retorna _ _ _ _ _ E1).
  unfold tentar, bind, time_time, utcnow, modelo_prever, modelo_algoritmo.
  cbn -[atualizar_status_tarefa].
  destruct (ad_prever ad (extra w1) dados) as [[par|e] m'].
  - match goal with
    | |- context [atualizar_status_tarefa tid "concluida" ?r None ?wm] =>
        destruct (atualizar_eventos wm tid "concluida" r None)
          as (b2 & w2 & l2 & E2 & V2 & X2)
    end.
    rewrite E2. cbn. rewrite V2. cbn. rewrite <- app_assoc. cbn.
    eexists. reflexivity.
  - match goal with
    | |- context [atualizar_status_tarefa tid "falha" None ?r ?wm] =>
        destruct (atualizar_eventos wm tid "falha" None r)
          as (b2 & w2 & l2 & E2 & V2 & X2)
    end.
    rewrite E2. cbn. rewrite V2. cbn. rewrite <- !app_assoc. cbn.
    eexists. reflexivity.
Qed.

(** ** The claims *)

(** Claim C1, as stated, fails on the code: a record whose status is not
    "pendente" (here "concluida") is not left unchanged when a worker takes
    its message; the first statement of the task rewrites it to
    "em_progresso" and the task goes on to call the executor. *)
Lemma reivindicacao_guardada_contraexemplo :
  buscar "t1" (tarefas Exemplos.mundo_concluida)
  = Some Exemplos.tarefa_concluida /\
  status Exemplos.tarefa_concluida <> "pendente" /\
  buscar "t1"
    (tarefas (snd (atualizar_status_tarefa "t1" "em_progresso" None None
                     Exemplos.mundo_concluida)))
  = Some (com_timestamp_atualizacao (Some 1000)
            (com_status "em_progresso" Exemplos.tarefa_concluida)) /\
  In (EvAdaptador "treinar")
     (eventos (snd (treinar_modelo Exemplos.adaptador_ok "t1" [] None
                      Exemplos.mundo_concluida))) /\
  buscar "t1"
    (tarefas (avancar 1 (treinar_modelo_passos Exemplos.adaptador_ok "t1"
                           [] None) Exemplos.mundo_concluida))
  = Some (com_timestamp_atualizacao (Some 1000)
            (com_status "em_progresso" Exemplos.tarefa_concluida)) /\
  rodar (treinar_modelo_passos Exemplos.adaptador_ok "t1" [] None)
    Exemplos.mundo_concluida
  = treinar_modelo Exemplos.adaptador_ok "t1" [] None Exemplos.mundo_concluida.
Proof.
  split; [reflexivity|]. split; [discriminate|]. split; [reflexivity|].
  split; [vm_compute; tauto|]. split; [reflexivity|].
  apply treinar_modelo_passos_roda.
Qed.

(** Claim C1, amended: when a worker processes a message whose record
    exists, the transition to "em_progresso" is applied whatever the current
    status of the record (a lookup followed by an unconditional write).  The
    first statement of each task is that write: in the world it leaves
    ([w1], the world after the first step of the task), the status is
    "em_progresso" and [timestamp_atualizacao] is the clock reading, while
    task id, type, input, result, error, [timestamp_inicio] and duration are
    kept, and the write is committed.  The task then goes on from [w1], and
    its next event is the call of the executor, in every case: no message is
    abandoned on account of the record's status. *)
Theorem reivindicacao_incondicional ad (w : Estado) tid t :
  buscar tid (tarefas w) = Some t ->
  exists t1 w1,
    atualizar_status_tarefa tid "em_progresso" None None w
    = (Retorna true, w1) /\
    buscar tid (tarefas w1) = Some t1 /\
    status t1 = "em_progresso" /\
    timestamp_atualizacao t1 = Some (relogio w (lidas w)) /\
    task_id t1 = task_id t /\ tipo t1 = tipo t /\
    dados_entrada t1 = dados_entrada t /\
    resultado t1 = resultado t /\ erro t1 = erro t /\
    timestamp_inicio t1 = timestamp_inicio t /\ duracao t1 = duracao t /\
    eventos w1 = (eventos w ++ [EvCommit; EvFechar])%list /\
    (forall dados alg,
       avancar 1 (treinar_modelo_passos ad tid dados alg) w = w1 /\
       rodar (treinar_modelo_passos ad tid dados alg) w
       = treinar_modelo ad tid dados alg w /\
       exists l,
         eventos (snd (treinar_modelo ad tid dados alg w))
         = (eventos w1 ++ EvAdaptador "treinar" :: l)%list) /\
    (forall dados,
       avancar 1 (realizar_previsao_passos ad tid dados) w = w1 /\
       rodar (realizar_previsao_passos ad tid dados) w
       = realizar_previsao ad tid dados w /\
       exists l,
         eventos (snd (realizar_previsao ad tid dados w))
         = (eventos w1 ++ EvAdaptador "prever" :: l)%list).
Proof.
  intros H.
  destruct (atualizar_presente w tid "em_progresso" None None t H)
    as (t1' & w1 & E1 & T1 & V1 & A1' & _).
  destruct (atualizar_presente_buscar w tid "em_progresso" None None t H)
    as (t1 & w1' & E1' & B1 & A1 & _).
  rewrite E1 in E1'. injection E1' as <-.
  exists t1, w1. destruct A1 as [a1 a2 a3 a4 a5 a6 a7 a8 a9].
  cbn in a7, a8, a9. destruct a9 as [a9 a10].
  repeat (split; [assumption|]).
  split.
  - intros dados alg. split; [|split].
    + unfold treinar_modelo_passos. cbn [avancar]. rewrite E1. reflexivity.
    + apply treinar_modelo_passos_roda.
    + exact (treinar_modelo_depois ad w w1 tid dados alg true E1).
  - intros dados. split; [|split].
    + unfold realizar_previsao_passos. cbn [avancar]. rewrite E1. reflexivity.
    + apply realizar_previsao_passos_roda.
    + exact (realizar_previsao_depois ad w w1 tid dados true E1).
Qed.

Lemma reivindicacao_incondicional_witness :
  buscar "t1" (tarefas Exemplos.mundo_concluida)
  = Some Exemplos.tarefa_concluida /\
  exists t1 w1,
    avancar 1 (treinar_modelo_passos Exemplos.adaptador_ok "t1" [] None)
      Exemplos.mundo_concluida = w1 /\
    buscar "t1" (tarefas w1) = Some t1 /\
    status t1 = "em_progresso" /\
    resultado t1 = resultado Exemplos.tarefa_concluida /\
    timestamp_atualizacao t1 = Some 1000 /\
    exists l,
      eventos (snd (treinar_modelo Exemplos.adaptador_ok "t1" [] None
                      Exemplos.mundo_concluida))
      = (eventos w1 ++ EvAdaptador "treinar" :: l)%list.
Proof.
  split; [reflexivity|].
  destruct (reivindicacao_incondicional Exemplos.adaptador_ok
              Exemplos.mundo_concluida "t1" Exemplos.tarefa_concluida eq_refl)
    as (t1 & w1 & _ & B & S & Ta & _ & _ & _ & R & _ & _ & _ & _ & T & _).
  destruct (T [] None) as (P & _ & L).
  exists t1, w1. split; [exact P|]. split; [exact B|]. split; [exact S|].
  split; [exact R|]. split; [exact Ta|exact L].
Defined.

(** Claim C2, as stated, fails on the code: a record in the terminal status
    "concluida" is overwritten by a later transition; here a second delivery
    whose execution fails turns it into "falha". *)
Lemma terminal_protegido_contraexemplo :
  buscar "t1" (tarefas Exemplos.mundo_concluida)
  = Some Exemplos.tarefa_concluida /\
  status Exemplos.tarefa_concluida = "concluida" /\
  (exists t',
     buscar "t1"
       (tarefas (snd (atualizar_status_tarefa "t1" "falha" None (Some "boom")
                        Exemplos.mundo_concluida))) = Some t' /\
     status t' = "falha" /\ erro t' = Some "boom" /\
     t' <> Exemplos.tarefa_concluida) /\
  (exists t',
     buscar "t1"
       (tarefas (snd (treinar_modelo Exemplos.adaptador_falha "t1" [] None
                        Exemplos.mundo_concluida))) = Some t' /\
     status t' = "falha").
Proof.
  split; [reflexivity|]. split; [reflexivity|]. split.
  - eexists. split; [vm_compute; reflexivity|].
    split; [reflexivity|]. split; [reflexivity|discriminate].
  - eexists. split; [vm_compute; reflexivity|reflexivity].
Qed.

(** Claim C2, amended: for every existing task record, terminal or not, a
    further transition through the updater succeeds and overwrites the
    status with the requested one; a non-empty result or error argument
    replaces the stored one and an absent or empty argument leaves the
    stored one as it is; repeating the same call leaves status, result and
    error as they were after the first. *)
Theorem atualizacao_sobrescreve (w : Estado) tid st r e t :
  buscar tid (tarefas w) = Some t ->
  exists t1 w1,
    atualizar_status_tarefa tid st r e w = (Retorna true, w1) /\
    buscar tid (tarefas w1) = Some t1 /\
    status t1 = st /\
    resultado t1 = (if verdade_dic r then r else resultado t) /\
    erro t1 = (if verdade_str e then e else erro t) /\
    exists t2 w2,
      atualizar_status_tarefa tid st r e w1 = (Retorna true, w2) /\
      buscar tid (tarefas w2) = Some t2 /\
      status t2 = status t1 /\ resultado t2 = resultado t1 /\
      erro t2 = erro t1.
Proof.
  intros H.
  destruct (atualizar_presente_buscar w tid st r e t H)
    as (t1 & w1 & E1 & B1 & A1 & _).
  destruct (atualizar_presente_buscar w1 tid st r e t1 B1)
    as (t2 & w2 & E2 & B2 & A2 & _).
  exists t1, w1. split; [exact E1|]. split; [exact B1|].
  split; [apply A1|]. split; [apply A1|]. split; [apply A1|].
  exists t2, w2. split; [exact E2|]. split; [exact B2|].
  split; [rewrite (at_status _ _ _ _ _ _ A2); symmetry; apply A1|].
  split.
  - rewrite (at_resultado _ _ _ _ _ _ A2), (at_resultado _ _ _ _ _ _ A1).
    now destruct (verdade_dic r).
  - rewrite (at_erro _ _ _ _ _ _ A2), (at_erro _ _ _ _ _ _ A1).
    now destruct (verdade_str e).
Qed.

Lemma atualizacao_sobrescreve_witness :
  buscar "t1" (tarefas Exemplos.mundo_concluida)
  = Some Exemplos.tarefa_concluida /\
  exists t1 w1,
    atualizar_status_tarefa "t1" "falha" None (Some "boom")
      Exemplos.mundo_concluida = (Retorna true, w1) /\
    buscar "t1" (tarefas w1) = Some t1 /\
    status t1 = "falha" /\
    resultado t1 = resultado Exemplos.tarefa_concluida /\
    erro t1 = Some "boom".
Proof.
  split; [reflexivity|].
  destruct (atualizacao_sobrescreve Exemplos.mundo_concluida "t1" "falha"
              None (Some "boom") Exemplos.tarefa_concluida eq_refl)
    as (t1 & w1 & E & B & S & R & X & _).
  exists t1, w1. split; [exact E|]. split; [exact B|]. split; [exact S|].
  split; [exact R|exact X].
Defined.

(** Claim C3, as stated, fails on the code: the updater never clears a
    field, so when a completed task is delivered again its result stays
    while the status is "em_progresso", and if that execution fails the
    record ends in "falha" with both result and error set. *)
Lemma resultado_erro_exclusivos_contraexemplo :
  (exists t',
     buscar "t1"
       (tarefas (snd (atualizar_status_tarefa "t1" "em_progresso" None None
                        Exemplos.mundo_concluida))) = Some t' /\
     status t' = "em_progresso" /\ resultado t' <> None) /\
  (exists t',
     buscar "t1"
       (tarefas (snd (treinar_modelo Exemplos.adaptador_falha "t1" [] None
                        Exemplos.mundo_concluida))) = Some t' /\
     status t' = "falha" /\ resultado t' <> None /\ erro t' <> None).
Proof.
  split.
  - eexists. split; [vm_compute; reflexivity|].
    split; [reflexivity|discriminate].
  - eexists. split; [vm_compute; reflexivity|].
    split; [reflexivity|]. split; discriminate.
Qed.

(** Claim C3, amended: for a record that has no result and no error and has
    its [timestamp_inicio] set (as a submission creates it) and whose message
    is processed once by [treinar_modelo]: result and error are both null
    once the status is "em_progresso"; when the executor returns, the record
    is "concluida" with a non-empty result and a null error; when the
    executor raises with a non-empty message, the record is "falha" with that
    message as error and a null result; in both final cases
    [timestamp_atualizacao] and [duracao] are set. *)
Theorem resultado_erro_entrega_unica ad (w : Estado) tid dados alg t s m' :
  buscar tid (tarefas w) = Some t ->
  resultado t = None -> erro t = None -> timestamp_inicio t <> None ->
  ad_treinar ad (extra w) dados alg = (s, m') ->
  (forall e, s = Levanta e -> exc_str e <> "") ->
  (exists t1 w1,
     atualizar_status_tarefa tid "em_progresso" None None w
     = (Retorna true, w1) /\
     buscar tid (tarefas w1) = Some t1 /\
     status t1 = "em_progresso" /\ resultado t1 = None /\ erro t1 = None) /\
  match s with
  | Retorna _ =>
      exists r t2 w2,
        treinar_modelo ad tid dados alg w = (Retorna r, w2) /\
        buscar tid (tarefas w2) = Some t2 /\
        status t2 = "concluida" /\ resultado t2 = Some r /\ r <> [] /\
        erro t2 = None /\
        timestamp_atualizacao t2 <> None /\ duracao t2 <> None
  | Levanta e =>
      exists t2 w2,
        treinar_modelo ad tid dados alg w = (Levanta e, w2) /\
        buscar tid (tarefas w2) = Some t2 /\
        status t2 = "falha" /\ erro t2 = Some (exc_str e) /\
        resultado t2 = None /\
        timestamp_atualizacao t2 <> None /\ duracao t2 <> None
  end.
Proof.
  intros H Hr He Hi Ead Hmsg.
  destruct (treinar_modelo_presente ad w tid dados alg t H)
    as (t1 & w1 & E1 & B1 & A1 & K).
  assert (R1 : resultado t1 = None)
    by (rewrite (at_resultado _ _ _ _ _ _ A1); exact Hr).
  assert (X1 : erro t1 = None)
    by (rewrite (at_erro _ _ _ _ _ _ A1); exact He).
  assert (I1 : timestamp_inicio t1 <> None)
    by (rewrite (at_inicio _ _ _ _ _ _ A1); exact Hi).
  rewrite Ead in K. split.
  - exists t1, w1. split; [exact E1|]. split; [exact B1|].
    split; [apply A1|]. split; assumption.
  - destruct s as [metricas|e].
    + destruct K as (r & t2 & wm & w2 & E2 & N2 & B2 & A2).
      exists r, t2, w2. split; [exact E2|]. split; [exact B2|].
      split; [apply A2|].
      split; [rewrite (at_resultado _ _ _ _ _ _ A2), verdade_dic_cheio; auto|].
      split; [exact N2|].
      split; [rewrite (at_erro _ _ _ _ _ _ A2); exact X1|].
      split; [eapply atualizada_atualizacao; eauto|].
      eapply atualizada_duracao; eauto.
    + destruct K as (t2 & wm & w2 & E2 & B2 & A2 & _).
      exists t2, w2. split; [exact E2|]. split; [exact B2|].
      split; [apply A2|].
      split; [rewrite (at_erro _ _ _ _ _ _ A2), verdade_str_cheia; auto|].
      split; [rewrite (at_resultado _ _ _ _ _ _ A2); exact R1|].
      split; [eapply atualizada_atualizacao; eauto|].
      eapply atualizada_duracao; eauto.
Qed.

Lemma resultado_erro_entrega_unica_witness :
  buscar "t1" (tarefas Exemplos.mundo_pendente)
  = Some Exemplos.tarefa_pendente /\
  resultado Exemplos.tarefa_pendente = None /\
  erro Exemplos.tarefa_pendente = None /\
  timestamp_inicio Exemplos.tarefa_pendente <> None /\
  (exists r t2 w2,
     treinar_modelo Exemplos.adaptador_ok "t1" [] None Exemplos.mundo_pendente
     = (Retorna r, w2) /\
     buscar "t1" (tarefas w2) = Some t2 /\
     status t2 = "concluida" /\ resultado t2 = Some r /\ erro t2 = None) /\
  (exists t2 w2,
     treinar_modelo Exemplos.adaptador_falha "t1" [] None
       Exemplos.mundo_pendente = (Levanta Exemplos.nao_treinado, w2) /\
     buscar "t1" (tarefas w2) = Some t2 /\
     status t2 = "falha" /\ erro t2 = Some "model not trained" /\
     resultado t2 = None).
Proof.
  split; [reflexivity|]. split; [reflexivity|]. split; [reflexivity|].
  split; [discriminate|].
  assert (Hi : timestamp_inicio Exemplos.tarefa_pendente <> None)
    by discriminate.
  split.
  - assert (Hm : forall e, Retorna [("mae", JNum 12)] = Levanta e ->
                           exc_str e <> "") by (intros e H; discriminate H).
    destruct (resultado_erro_entrega_unica Exemplos.adaptador_ok
                Exemplos.mundo_pendente "t1" [] None Exemplos.tarefa_pendente
                (Retorna [("mae", JNum 12)]) Exemplos.modelo_ex
                eq_refl eq_refl eq_refl Hi eq_refl Hm)
      as [_ (r & t2 & w2 & E & B & S & R & _ & X & _)].
    exists r, t2, w2. split; [exact E|]. split; [exact B|].
    split; [exact S|]. split; [exact R|exact X].
  - assert (Hm : forall e, Levanta (A := Dic) Exemplos.nao_treinado = Levanta e ->
                           exc_str e <> "")
      by (intros e H; injection H as <-; discriminate).
    destruct (resultado_erro_entrega_unica Exemplos.adaptador_falha
                Exemplos.mundo_pendente "t1" [] None Exemplos.tarefa_pendente
                (Levanta Exemplos.nao_treinado) Exemplos.modelo_ex
                eq_refl eq_refl eq_refl Hi eq_refl Hm)
      as [_ (t2 & w2 & E & B & S & X & R & _)].
    exists t2, w2. split; [exact E|]. split; [exact B|].
    split; [exact S|]. split; [exact X|exact R].
Defined.

(** Claim C4, as stated, fails on the code: right after a submission, with
    no worker involved, the record is "pendente" and its [timestamp_inicio]
    is already set (to the clock reading of the submission), not null. *)
Lemma inicio_nulo_contraexemplo :
  exists resp w1 t,
    com_get_db (prever_assincrono [("area", JNum 80)]) Exemplos.mundo_vazio
    = (Retorna resp, w1) /\
    st_task_id resp = "c-0" /\
    buscar "c-0" (tarefas w1) = Some t /\
    status t = "pendente" /\
    timestamp_inicio t = Some 1000 /\ timestamp_inicio t <> None /\
    fst (com_get_db (verificar_status_tarefa "c-0") w1)
    = Retorna {| st_task_id := "c-0"; st_status := PENDENTE;
                 st_resultado := None; st_erro := None;
                 st_timestamp_inicio := 1000;
                 st_timestamp_atualizacao := 1001 |}.
Proof.
  eexists; eexists; eexists. split; [vm_compute; reflexivity|].
  split; [reflexivity|]. split; [vm_compute; reflexivity|].
  split; [reflexivity|]. split; [reflexivity|]. split; [discriminate|].
  reflexivity.
Qed.

(** Claim C4, amended: for every submission with a fresh identifier, the
    status query made right after it, before any worker has taken the task,
    returns status PENDENTE with null result and error, with
    [timestamp_inicio] already set to the clock reading of the submission and
    [timestamp_atualizacao] to the reading of the insertion, and does not
    change the table; and every later update of a record by the worker keeps
    its [timestamp_inicio], which is therefore set in every status. *)
Theorem submissao_pendente_com_inicio (w : Estado) dados
    (w' : Estado) tid st r e t :
  buscar (uuids w (gerados w)) (tarefas w) = None ->
  buscar tid (tarefas w') = Some t ->
  (exists resp w1 resp' w2,
     com_get_db (prever_assincrono dados) w = (Retorna resp, w1) /\
     com_get_db (verificar_status_tarefa (st_task_id resp)) w1
     = (Retorna resp', w2) /\
     st_status resp' = PENDENTE /\
     st_resultado resp' = None /\ st_erro resp' = None /\
     st_timestamp_inicio resp' = relogio w (lidas w) /\
     st_timestamp_atualizacao resp' = relogio w (S (lidas w)) /\
     tarefas w2 = tarefas w1) /\
  (exists t1 w1,
     atualizar_status_tarefa tid st r e w' = (Retorna true, w1) /\
     buscar tid (tarefas w1) = Some t1 /\
     timestamp_inicio t1 = timestamp_inicio t).
Proof.
  intros H H'. split.
  - destruct (prever_assincrono_roda w dados H)
      as (t0 & resp & w1 & E & T & Tr & Hid & Hresp & Hs & Hi & Ha & Hr & He
          & Hd & _).
    assert (B : buscar (st_task_id resp) (tarefas w1) = Some t0).
    { rewrite T, Hresp. now apply buscar_no_fim. }
    assert (S : StatusTarefaEnum_de (status t0) = Some PENDENTE)
      by now rewrite Hs.
    pose proof (verificar_presente w1 _ t0 PENDENTE _ _ B S Hi Ha) as V.
    exists resp, w1. eexists. eexists. split; [exact E|]. split; [exact V|].
    cbn. repeat split; auto.
  - destruct (atualizar_presente_buscar w' tid st r e t H')
      as (t1 & w1 & E1 & B1 & A1 & _).
    exists t1, w1. split; [exact E1|]. split; [exact B1|apply A1].
Qed.

Lemma submissao_pendente_com_inicio_witness :
  buscar (uuids Exemplos.mundo_vazio (gerados Exemplos.mundo_vazio))
    (tarefas Exemplos.mundo_vazio) = None /\
  buscar "t1" (tarefas Exemplos.mundo_pendente)
  = Some Exemplos.tarefa_pendente /\
  (exists resp w1 resp' w2,
     com_get_db (prever_assincrono [("area", JNum 80)]) Exemplos.mundo_vazio
     = (Retorna resp, w1) /\
     com_get_db (verificar_status_tarefa (st_task_id resp)) w1
     = (Retorna resp', w2) /\
     st_status resp' = PENDENTE /\
     st_timestamp_inicio resp' = 1000) /\
  (exists t1 w1,
     atualizar_status_tarefa "t1" "concluida" (Some [("mae", JNum 12)]) None
       Exemplos.mundo_pendente = (Retorna true, w1) /\
     buscar "t1" (tarefas w1) = Some t1 /\
     timestamp_inicio t1 = Some 900).
Proof.
  split; [reflexivity|]. split; [reflexivity|].
  destruct (submissao_pendente_com_inicio Exemplos.mundo_vazio
              [("area", JNum 80)] Exemplos.mundo_pendente "t1" "concluida"
              (Some [("mae", JNum 12)]) None Exemplos.tarefa_pendente
              eq_refl eq_refl)
    as [(resp & w1 & resp' & w2 & E & V & S & _ & _ & I & _)
        (t1 & w1' & E' & B' & I')].
  split.
  - exists resp, w1, resp', w2. split; [exact E|]. split; [exact V|].
    split; [exact S|exact I].
  - exists t1, w1'. split; [exact E'|]. split; [exact B'|exact I'].
Defined.

(** Claim C5: for every task id under which the table has no row, the
    status query ends in an HTTP 404 error, which is not a response carrying
    any status, and leaves the table as it was.  In iteration 10 the query
    raises it directly; in iteration 9 the fallback on the Celery result
    backend always ends in its [except] branch (the response it tries to
    build has a type outside the enum), whatever the backend answers. *)
Theorem consulta_sem_registro (w : Estado) (w9 : App9.Estado) tid :
  buscar tid (tarefas w) = None ->
  App9.buscar tid (tarefas w9) = None ->
  (exists w',
     com_get_db (verificar_status_tarefa tid) w
     = (Levanta (HTTPException 404 ("Tarefa não encontrada: " ++ tid)), w') /\
     tarefas w' = tarefas w) /\
  (exists w',
     com_get_db (App9.status_tarefa tid) w9
     = (Levanta (HTTPException 404
                   ("Tarefa com ID " ++ tid ++ " não encontrada")), w') /\
     tarefas w' = tarefas w9).
Proof.
  intros H H9. split.
  - eexists. split; [now apply verificar_ausente|reflexivity].
  - destruct (status_tarefa_ausente w9 tid H9) as (w' & E & T & _).
    exists w'. split; assumption.
Qed.

Lemma consulta_sem_registro_witness :
  buscar "zzz" (tarefas Exemplos.mundo_pendente) = None /\
  App9.buscar "zzz" (tarefas Exemplos.mundo9_vazio) = None /\
  (exists w',
     com_get_db (verificar_status_tarefa "zzz") Exemplos.mundo_pendente
     = (Levanta (HTTPException 404 "Tarefa não encontrada: zzz"), w') /\
     tarefas w' = tarefas Exemplos.mundo_pendente) /\
  (exists w',
     com_get_db (App9.status_tarefa "zzz") Exemplos.mundo9_vazio
     = (Levanta (HTTPException 404 "Tarefa com ID zzz não encontrada"), w') /\
     tarefas w' = tarefas Exemplos.mundo9_vazio).
Proof.
  split; [reflexivity|]. split; [reflexivity|].
  exact (consulta_sem_registro Exemplos.mundo_pendente Exemplos.mundo9_vazio
           "zzz" eq_refl eq_refl).
Defined.

(** Claim C6 on the code.  For every execution in which the executor raises
    and the task's record exists, the task writes status "falha", keeps the
    stored result, sets [timestamp_atualizacao], counts the error and then
    raises the same exception again to the Celery runtime that called it.
    The error field becomes the text [str(e)], character for character,
    when that text is not empty; when it is empty the updater's test
    [if erro:] skips the write and the field stays what it was, so the
    failure is recorded without its cause. *)
Theorem falha_registrada_e_relancada ad (w : Estado) tid t e
    dados alg dadosp m1 m2 :
  buscar tid (tarefas w) = Some t ->
  ad_treinar ad (extra w) dados alg = (Levanta e, m1) ->
  ad_prever ad (extra w) dadosp = (Levanta e, m2) ->
  (exists t2 w2,
     treinar_modelo ad tid dados alg w = (Levanta e, w2) /\
     buscar tid (tarefas w2) = Some t2 /\
     status t2 = "falha" /\
     erro t2 = (if String.eqb (exc_str e) "" then erro t
                else Some (exc_str e)) /\
     resultado t2 = resultado t /\ timestamp_atualizacao t2 <> None /\
     In (EvErro "task_error" "treinar_modelo") (eventos w2)) /\
  (exists t2 w2,
     realizar_previsao ad tid dadosp w = (Levanta e, w2) /\
     buscar tid (tarefas w2) = Some t2 /\
     status t2 = "falha" /\
     erro t2 = (if String.eqb (exc_str e) "" then erro t
                else Some (exc_str e)) /\
     resultado t2 = resultado t /\ timestamp_atualizacao t2 <> None /\
     In (EvErro "task_error" "realizar_previsao") (eventos w2)).
Proof.
  intros H Et Ep. split.
  - destruct (treinar_modelo_presente ad w tid dados alg t H)
      as (t1 & w1 & E1 & B1 & A1 & K).
    rewrite Et in K. destruct K as (t2 & wm & w2 & E2 & B2 & A2 & V2).
    exists t2, w2. split; [exact E2|]. split; [exact B2|].
    split; [apply A2|].
    split.
    { rewrite (at_erro _ _ _ _ _ _ A2). cbn [verdade_str].
      destruct (String.eqb (exc_str e) ""); cbn [negb]; [apply A1|reflexivity]. }
    split; [rewrite (at_resultado _ _ _ _ _ _ A2); apply A1|].
    split; [eapply atualizada_atualizacao; eauto|exact V2].
  - destruct (realizar_previsao_presente ad w tid dadosp t H)
      as (t1 & w1 & E1 & B1 & A1 & K).
    rewrite Ep in K. destruct K as (t2 & wm & w2 & E2 & B2 & A2 & V2).
    exists t2, w2. split; [exact E2|]. split; [exact B2|].
    split; [apply A2|].
    split.
    { rewrite (at_erro _ _ _ _ _ _ A2). cbn [verdade_str].
      destruct (String.eqb (exc_str e) ""); cbn [negb]; [apply A1|reflexivity]. }
    split; [rewrite (at_resultado _ _ _ _ _ _ A2); apply A1|].
    split; [eapply atualizada_atualizacao; eauto|exact V2].
Qed.

(** At an executor that raises an exception without text the record ends
    "falha" with a null error; at one that raises with a text, with that
    text. *)
Lemma falha_registrada_e_relancada_witness :
  buscar "t1" (tarefas Exemplos.mundo_pendente)
  = Some Exemplos.tarefa_pendente /\
  exc_str Exemplos.sem_mensagem = "" /\
  (exists t2 w2,
     treinar_modelo Exemplos.adaptador_mudo "t1" [] None
       Exemplos.mundo_pendente = (Levanta Exemplos.sem_mensagem, w2) /\
     buscar "t1" (tarefas w2) = Some t2 /\
     status t2 = "falha" /\ erro t2 = None) /\
  (exists t2 w2,
     realizar_previsao Exemplos.adaptador_mudo "t1" []
       Exemplos.mundo_pendente = (Levanta Exemplos.sem_mensagem, w2) /\
     buscar "t1" (tarefas w2) = Some t2 /\
     status t2 = "falha" /\ erro t2 = None) /\
  (exists t2 w2,
     treinar_modelo Exemplos.adaptador_falha "t1" [] None
       Exemplos.mundo_pendente = (Levanta Exemplos.nao_treinado, w2) /\
     buscar "t1" (tarefas w2) = Some t2 /\
     status t2 = "falha" /\ erro t2 = Some "model not trained").
Proof.
  split; [reflexivity|]. split; [reflexivity|].
  destruct (falha_registrada_e_relancada Exemplos.adaptador_mudo
              Exemplos.mundo_pendente "t1" Exemplos.tarefa_pendente
              Exemplos.sem_mensagem [] None [] Exemplos.modelo_ex
              Exemplos.modelo_ex eq_refl eq_refl eq_refl)
    as [(t2 & w2 & E & B & S & X & _) (t3 & w3 & E' & B' & S' & X' & _)].
  destruct (falha_registrada_e_relancada Exemplos.adaptador_falha
              Exemplos.mundo_pendente "t1" Exemplos.tarefa_pendente
              Exemplos.nao_treinado [] None [] Exemplos.modelo_ex
              Exemplos.modelo_ex eq_refl eq_refl eq_refl)
    as [(t4 & w4 & E4 & B4 & S4 & X4 & _) _].
  split; [|split].
  - exists t2, w2. split; [exact E|]. split; [exact B|]. split; [exact S|exact X].
  - exists t3, w3. split; [exact E'|]. split; [exact B'|].
    split; [exact S'|exact X'].
  - exists t4, w4. split; [exact E4|]. split; [exact B4|].
    split; [exact S4|exact X4].
Defined.

(** Claim C7 on the code of iteration 9: the handlers that store the task
    before starting it ([treinar], [prever_lote]) write the record under the
    placeholder id "pending", let Celery draw the task id while enqueueing,
    and rewrite the id afterwards.  After the enqueue and before the second
    commit the queue holds the message of task "c-1" while the table has no
    row for "c-1": the updater called for it at that point writes nothing.
    Only the last step gives the row its id. *)
Lemma treinar_registro_provisorio :
  let p := sessao (App9.treinar_assincrono Exemplos.imoveis_ex "ridge" JNull) in
  let q := sessao (App9.prever_lote Exemplos.imoveis_ex) in
  let w := avancar 6 p Exemplos.mundo9_vazio in
  let v := avancar 6 q Exemplos.mundo9_vazio in
  map msg_task_id (fila w) = ["c-1"] /\
  App9.buscar "c-1" (tarefas w) = None /\
  map App9.task_id (tarefas w) = ["pending"] /\
  tarefas (snd (App9.atualizar_status_tarefa "c-1" "EM_PROGRESSO" None None w))
  = tarefas w /\
  map App9.task_id (tarefas (avancar 7 p Exemplos.mundo9_vazio)) = ["c-1"] /\
  map msg_task_id (fila v) = ["c-1"] /\
  App9.buscar "c-1" (tarefas v) = None /\
  map App9.task_id (tarefas v) = ["pending"].
Proof. vm_compute. repeat split. Qed.



(** Claim C9: for every argument [dias], [limpar_tarefas_antigas] raises
    [AttributeError] (the name [datetime] of the worker is the class, which
    has no attribute [timedelta]) after one reading of the clock and before
    any deletion; the session is rolled back and closed, nothing is
    committed, and the table is left as it was. *)
Theorem limpeza_sempre_falha (dias : Z) (w : Estado) :
  limpar_tarefas_antigas dias w
  = (Levanta (AttributeError "datetime.datetime" "timedelta"),
     {| tarefas := tarefas w; transacao := None; fila := fila w;
        relogio := relogio w; lidas := S (lidas w); uuids := uuids w;
        gerados := gerados w;
        eventos := (eventos w ++
          [EvRollback; EvErro "task_error" "limpar_tarefas_antigas";
           EvFechar;
           EvErro "database_connection" "limpar_tarefas_antigas"])%list;
        extra := extra w |}) /\
  tarefas (snd (limpar_tarefas_antigas dias w)) = tarefas w /\
  tem_atributo datetime_do_worker "timedelta" = false.
Proof.
  assert (E : limpar_tarefas_antigas dias w
    = (Levanta (AttributeError "datetime.datetime" "timedelta"),
     {| tarefas := tarefas w; transacao := None; fila := fila w;
        relogio := relogio w; lidas := S (lidas w); uuids := uuids w;
        gerados := gerados w;
        eventos := (eventos w ++
          [EvRollback; EvErro "task_error" "limpar_tarefas_antigas";
           EvFechar;
           EvErro "database_connection" "limpar_tarefas_antigas"])%list;
        extra := extra w |})).
  { unfold limpar_tarefas_antigas, tentar, finalmente, bind, SessionLocal,
      utcnow, datetime_timedelta, db_rollback, erro_counter, levantar,
      db_close.
    cbn. rewrite <- !app_assoc. reflexivity. }
  split; [exact E|]. split; [rewrite E; reflexivity|reflexivity].
Qed.

(** Claim C10: for every status, result and error argument, the updater
    called with a task id under which the table has no row returns [False]
    and leaves the table as it was, so no record is created; the updater of
    iteration 9, which returns nothing, leaves the table as it was too. *)
Theorem atualizacao_sem_registro (w : Estado) (w9 : App9.Estado)
    tid st r e st9 r9 e9 :
  buscar tid (tarefas w) = None ->
  App9.buscar tid (tarefas w9) = None ->
  fst (atualizar_status_tarefa tid st r e w) = Retorna false /\
  tarefas (snd (atualizar_status_tarefa tid st r e w)) = tarefas w /\
  buscar tid (tarefas (snd (atualizar_status_tarefa tid st r e w))) = None /\
  tarefas (snd (App9.atualizar_status_tarefa tid st9 r9 e9 w9)) = tarefas w9.
Proof.
  intros H H9. rewrite (atualizar_ausente w tid st r e H). cbn -[buscar].
  repeat split; auto.
Qed.

Lemma atualizacao_sem_registro_witness :
  buscar "zzz" (tarefas Exemplos.mundo_pendente) = None /\
  App9.buscar "zzz" (tarefas (Exemplos.mundo9_com [Exemplos.tarefa9])) = None /\
  fst (atualizar_status_tarefa "zzz" "concluida" (Some [("mae", JNum 12)])
         None Exemplos.mundo_pendente) = Retorna false /\
  tarefas (snd (atualizar_status_tarefa "zzz" "concluida"
                  (Some [("mae", JNum 12)]) None Exemplos.mundo_pendente))
  = tarefas Exemplos.mundo_pendente /\
  tarefas (snd (App9.atualizar_status_tarefa "zzz" "FALHA" None (Some "x")
                  (Exemplos.mundo9_com [Exemplos.tarefa9])))
  = tarefas (Exemplos.mundo9_com [Exemplos.tarefa9]).
Proof.
  split; [reflexivity|]. split; [reflexivity|].
  destruct (atualizacao_sem_registro Exemplos.mundo_pendente
              (Exemplos.mundo9_com [Exemplos.tarefa9]) "zzz" "concluida"
              (Some [("mae", JNum 12)]) None "FALHA" None (Some "x")
              eq_refl eq_refl) as (A & B & _ & C).
  split; [exact A|]. split; [exact B|exact C].
Defined.

(** ** Further properties of iteration 10 *)

(** *** Rows and keys under the updater *)

Lemma gravar_map_id t' ts : map id (gravar t' ts) = map id ts.
Proof.
  unfold gravar. induction ts as [|r ts IH]; simpl; [reflexivity|].
  rewrite IH. destruct (Nat.eqb (id r) (id t')) eqn:E; [|reflexivity].
  apply Nat.eqb_eq in E. now rewrite E.
Qed.

Lemma gravar_outra t' x ts :
  In x ts -> id x <> id t' -> In x (gravar t' ts).
Proof.
  intros Hin Hne. unfold gravar. apply in_map_iff. exists x. split; [|exact Hin].
  destruct (Nat.eqb (id x) (id t')) eqn:E; [|reflexivity].
  apply Nat.eqb_eq in E. contradiction.
Qed.

(** With unique keys, writing back a row of the table under its own key
    and task id renames nothing. *)
Lemma gravar_map_task_id t t' ts :
  NoDup (map id ts) -> In t ts -> id t' = id t -> task_id t' = task_id t ->
  map task_id (gravar t' ts) = map task_id ts.
Proof.
  intros N Hin Hid Htid. unfold gravar. rewrite map_map.
  apply map_ext_in. intros r Hr.
  destruct (Nat.eqb (id r) (id t')) eqn:E; [|reflexivity].
  apply Nat.eqb_eq in E. rewrite Hid in E. rewrite Htid. f_equal.
  clear -N Hin Hr E. induction ts as [|a ts IH]; [contradiction|].
  cbn in N. inversion N as [|? ? Na Nt]; subst.
  destruct Hin as [->|Hin], Hr as [->|Hr]; auto.
  - exfalso. apply Na. rewrite <- E. now apply in_map.
  - exfalso. apply Na. rewrite E. now apply in_map.
Qed.

(** Whatever the table holds, the updater returns, and it neither adds nor
    removes a row, nor touches the queue or the model. *)
Lemma atualizar_identificadores (w : Estado) tid st r e :
  exists b w',
    atualizar_status_tarefa tid st r e w = (Retorna b, w') /\
    map id (tarefas w') = map id (tarefas w) /\
    (NoDup (map id (tarefas w)) ->
     map task_id (tarefas w') = map task_id (tarefas w)) /\
    fila w' = fila w /\ extra w' = extra w.
Proof.
  destruct (buscar tid (tarefas w)) as [t|] eqn:H.
  - destruct (atualizar_presente w tid st r e t H) as (t' & w' & E & T & _ & A & F).
    exists true, w'. split; [exact E|]. rewrite T.
    split; [apply gravar_map_id|].
    split; [|split; apply F].
    intros N. apply (gravar_map_task_id t); auto.
    + unfold buscar in H. now apply find_some in H.
    + apply A.
    + apply A.
  - exists false, (registrar EvFechar (com_transacao None w)).
    split; [now apply atualizar_ausente|]. repeat split; reflexivity.
Qed.

(** The clock readings an update of a stored row consumes: one for
    [timestamp_atualizacao], and one more for the duration when the status
    is terminal and the row has a start. *)
Lemma atualizar_presente_relogio (w : Estado) tid st r e t :
  buscar tid (tarefas w) = Some t ->
  exists w',
    atualizar_status_tarefa tid st r e w = (Retorna true, w') /\
    relogio w' = relogio w /\ extra w' = extra w /\ fila w' = fila w /\
    lidas w' =
      match pertence st ["concluida"; "falha"], timestamp_inicio t with
      | true, Some _ => S (S (lidas w))
      | _, _ => S (lidas w)
      end.
Proof.
  intros H. unfold atualizar_status_tarefa.
  remember (pertence st ["concluida"; "falha"]) as p eqn:Ep.
  unfold tentar, finalmente, bind, SessionLocal, db_first, db_gravar,
    db_pendente, db_commit, db_linhas, visao, ret, db_close.
  cbn -[pertence buscar gravar]. rewrite H.
  destruct (verdade_dic r) eqn:Er, (verdade_str e) eqn:Ee;
    cbn [timestamp_inicio com_erro com_resultado com_status];
    destruct p, (timestamp_inicio t) eqn:Et; cbn -[pertence gravar].
  all: eexists; split; [reflexivity|]; cbn; repeat split; reflexivity.
Qed.

Lemma dic_get_set_igual k v d : dic_get k (dic_set k v d) = Some v.
Proof.
  induction d as [|[k' v'] d IH]; simpl.
  - now rewrite String.eqb_refl.
  - destruct (String.eqb k' k) eqn:E; simpl; rewrite E; auto.
Qed.

Lemma dic_get_set_outra k k' v d :
  k' <> k -> dic_get k' (dic_set k v d) = dic_get k' d.
Proof.
  intros Hne. induction d as [|[k0 v0] d IH]; simpl.
  - destruct (String.eqb k k') eqn:E; [|reflexivity].
    apply String.eqb_eq in E. congruence.
  - destruct (String.eqb k0 k) eqn:E; simpl.
    + apply String.eqb_eq in E. subst k0.
      destruct (String.eqb k k') eqn:E'; [|reflexivity].
      apply String.eqb_eq in E'. congruence.
    + now rewrite IH.
Qed.

(** Property X1: an update of a stored row keeps the number of rows and
    their primary keys, and every row stored under another key stays in the
    table as it was. *)
Theorem atualizar_preserva_chaves (w : Estado) tid st r e t x :
  buscar tid (tarefas w) = Some t ->
  In x (tarefas w) -> id x <> id t ->
  map id (tarefas (snd (atualizar_status_tarefa tid st r e w)))
  = map id (tarefas w) /\
  List.length (tarefas (snd (atualizar_status_tarefa tid st r e w)))
  = List.length (tarefas w) /\
  In x (tarefas (snd (atualizar_status_tarefa tid st r e w))).
Proof.
  intros H Hin Hne.
  destruct (atualizar_presente w tid st r e t H) as (t' & w' & E & T & _ & A & _).
  rewrite E. cbn [snd]. rewrite T. split; [apply gravar_map_id|].
  split.
  - unfold gravar. apply length_map.
  - apply gravar_outra; [exact Hin|]. now rewrite (at_id _ _ _ _ _ _ A).
Qed.

Lemma atualizar_preserva_chaves_witness :
  buscar "t1" (tarefas Exemplos.mundo_dois) = Some Exemplos.tarefa_pendente /\
  In Exemplos.outra_tarefa (tarefas Exemplos.mundo_dois) /\
  id Exemplos.outra_tarefa <> id Exemplos.tarefa_pendente /\
  In Exemplos.outra_tarefa
    (tarefas (snd (atualizar_status_tarefa "t1" "concluida" None None
                     Exemplos.mundo_dois))).
Proof.
  assert (H1 : buscar "t1" (tarefas Exemplos.mundo_dois)
               = Some Exemplos.tarefa_pendente) by reflexivity.
  assert (H2 : In Exemplos.outra_tarefa (tarefas Exemplos.mundo_dois))
    by (right; left; reflexivity).
  assert (H3 : id Exemplos.outra_tarefa <> id Exemplos.tarefa_pendente)
    by discriminate.
  split; [exact H1|]. split; [exact H2|]. split; [exact H3|].
  exact (proj2 (proj2 (atualizar_preserva_chaves Exemplos.mundo_dois "t1"
                         "concluida" None None Exemplos.tarefa_pendente
                         Exemplos.outra_tarefa H1 H2 H3))).
Defined.

(** Property X2: when the updater writes a terminal status ("concluida" or
    "falha") on a row that has a start, the stored duration is the first
    clock reading minus the start and [timestamp_atualizacao] is the second
    reading; with a clock that does not go back, the duration is at most the
    difference of the two stored timestamps. *)
Theorem duracao_gravada (w : Estado) tid st r e t i :
  buscar tid (tarefas w) = Some t ->
  timestamp_inicio t = Some i ->
  pertence st ["concluida"; "falha"] = true ->
  relogio w (lidas w) <= relogio w (S (lidas w)) ->
  exists t1 w1 d a,
    atualizar_status_tarefa tid st r e w = (Retorna true, w1) /\
    buscar tid (tarefas w1) = Some t1 /\
    duracao t1 = Some d /\ timestamp_atualizacao t1 = Some a /\
    d = relogio w (lidas w) - i /\ a = relogio w (S (lidas w)) /\
    d <= a - i.
Proof.
  intros H Hi Hp Hm.
  destruct (atualizar_presente_buscar w tid st r e t H) as (t1 & w1 & E & B & A & _).
  pose proof (at_tempo _ _ _ _ _ _ A) as T. rewrite Hp, Hi in T.
  destruct T as [Td Ta].
  exists t1, w1, (relogio w (lidas w) - i), (relogio w (S (lidas w))).
  repeat (split; [assumption || reflexivity|]). lia.
Qed.

Lemma duracao_gravada_witness :
  buscar "t1" (tarefas Exemplos.mundo_pendente) = Some Exemplos.tarefa_pendente /\
  timestamp_inicio Exemplos.tarefa_pendente = Some 900 /\
  exists t1 w1,
    atualizar_status_tarefa "t1" "falha" None (Some "x") Exemplos.mundo_pendente
    = (Retorna true, w1) /\
    buscar "t1" (tarefas w1) = Some t1 /\
    duracao t1 = Some 100 /\ timestamp_atualizacao t1 = Some 1001.
Proof.
  assert (H1 : buscar "t1" (tarefas Exemplos.mundo_pendente)
               = Some Exemplos.tarefa_pendente) by reflexivity.
  assert (H2 : timestamp_inicio Exemplos.tarefa_pendente = Some 900)
    by reflexivity.
  assert (H3 : pertence "falha" ["concluida"; "falha"] = true) by reflexivity.
  assert (H4 : relogio Exemplos.mundo_pendente (lidas Exemplos.mundo_pendente)
               <= relogio Exemplos.mundo_pendente
                    (S (lidas Exemplos.mundo_pendente)))
    by (vm_compute; discriminate).
  split; [exact H1|]. split; [exact H2|].
  destruct (duracao_gravada Exemplos.mundo_pendente "t1" "falha" None
              (Some "x") Exemplos.tarefa_pendente 900 H1 H2 H3 H4)
    as (t1 & w1 & d & a & E & B & D & Ta & -> & -> & _).
  exists t1, w1. split; [exact E|]. split; [exact B|].
  split; [exact D|exact Ta].
Defined.

(** *** The Celery tasks *)

(** Property X3: a task started under an id that has no row still runs the
    executor to its end and writes nothing: the table is as before, a result
    of the executor is returned, and an exception of the executor is raised
    again. *)
Theorem tarefa_sem_registro ad (w : Estado) tid dados alg dadosp s m1 sp m2 :
  buscar tid (tarefas w) = None ->
  ad_treinar ad (extra w) dados alg = (s, m1) ->
  ad_prever ad (extra w) dadosp = (sp, m2) ->
  tarefas (snd (treinar_modelo ad tid dados alg w)) = tarefas w /\
  tarefas (snd (realizar_previsao ad tid dadosp w)) = tarefas w /\
  match s with
  | Retorna _ => levantou (fst (treinar_modelo ad tid dados alg w)) = false
  | Levanta e => fst (treinar_modelo ad tid dados alg w) = Levanta e
  end /\
  match sp with
  | Retorna _ => levantou (fst (realizar_previsao ad tid dadosp w)) = false
  | Levanta e => fst (realizar_previsao ad tid dadosp w) = Levanta e
  end.
Proof.
  intros H Et Ep.
  assert (A : forall (w0 : Estado) st r e, tarefas w0 = tarefas w ->
            atualizar_status_tarefa tid st r e w0
            = (Retorna false, registrar EvFechar (com_transacao None w0))).
  { intros w0 st r e Hw. apply atualizar_ausente. now rewrite Hw. }
  unfold treinar_modelo, realizar_previsao.
  rewrite !(bind_retorna _ _ _ _ _ (A w _ _ _ eq_refl)).
  unfold tentar, bind, time_time, utcnow, modelo_treinar, modelo_prever,
    modelo_algoritmo.
  cbn -[atualizar_status_tarefa dic_set]. rewrite Et, Ep.
  destruct s as [metricas|e], sp as [par|ep];
    cbn -[atualizar_status_tarefa dic_set];
    rewrite ?A by reflexivity; cbn; repeat split; reflexivity.
Qed.

Lemma tarefa_sem_registro_witness :
  buscar "zzz" (tarefas Exemplos.mundo_pendente) = None /\
  tarefas (snd (treinar_modelo Exemplos.adaptador_falha "zzz" [] None
                  Exemplos.mundo_pendente))
  = tarefas Exemplos.mundo_pendente /\
  fst (treinar_modelo Exemplos.adaptador_falha "zzz" [] None
         Exemplos.mundo_pendente) = Levanta Exemplos.nao_treinado /\
  fst (realizar_previsao Exemplos.adaptador_falha "zzz" []
         Exemplos.mundo_pendente) = Levanta Exemplos.nao_treinado.
Proof.
  assert (H1 : buscar "zzz" (tarefas Exemplos.mundo_pendente) = None)
    by reflexivity.
  split; [exact H1|].
  destruct (tarefa_sem_registro Exemplos.adaptador_falha
              Exemplos.mundo_pendente "zzz" [] None []
              (Levanta Exemplos.nao_treinado) Exemplos.modelo_ex
              (Levanta Exemplos.nao_treinado) Exemplos.modelo_ex
              H1 eq_refl eq_refl) as (A & _ & B & C).
  split; [exact A|]. split; [exact B|exact C].
Defined.

(** Property X4: the result of a successful training task is the metrics of
    the executor with three keys set over them: "algoritmo" (the requested
    algorithm, or the model's when none was requested), "tempo_treinamento"
    (the difference of the two clock readings around the training) and
    "timestamp"; every other key keeps the value the executor gave it. *)
Theorem resultado_do_treinamento ad (w : Estado) tid dados alg t metricas m' k :
  buscar tid (tarefas w) = Some t ->
  ad_treinar ad (extra w) dados alg = (Retorna metricas, m') ->
  k <> "algoritmo" -> k <> "tempo_treinamento" -> k <> "timestamp" ->
  exists r w2,
    treinar_modelo ad tid dados alg w = (Retorna r, w2) /\
    dic_get "algoritmo" r = Some (JStr (ou_str alg (algoritmo m'))) /\
    dic_get "tempo_treinamento" r
    = Some (JNum (relogio w (S (S (lidas w))) - relogio w (S (lidas w)))) /\
    dic_get "timestamp" r = Some (JData (relogio w (S (S (S (lidas w)))))) /\
    dic_get k r = dic_get k metricas /\
    extra w2 = m'.
Proof.
  intros H Ead K1 K2 K3.
  destruct (atualizar_presente_relogio w tid "em_progresso" None None t H)
    as (w1 & E1 & R1 & X1 & _ & L1).
  destruct (atualizar_presente_buscar w tid "em_progresso" None None t H)
    as (t1 & w1' & E1' & B1 & _ & _).
  rewrite E1 in E1'. injection E1' as <-.
  cbn in L1.
  remember (treinar_modelo ad tid dados alg w) as res eqn:Hres.
  unfold treinar_modelo in Hres. rewrite (bind_retorna _ _ _ _ _ E1) in Hres.
  unfold tentar, bind, time_time, utcnow, modelo_treinar, modelo_algoritmo in Hres.
  cbn -[atualizar_status_tarefa dic_set] in Hres.
  rewrite X1, Ead, R1, L1 in Hres.
  match type of Hres with
  | context [atualizar_status_tarefa tid "concluida" (Some ?r) None ?wm] =>
      destruct (atualizar_presente_relogio wm tid "concluida" (Some r) None t1 B1)
        as (w2 & E2 & _ & X2 & _);
      exists r, w2
  end.
  rewrite E2 in Hres. cbn in Hres.
  split; [exact Hres|].
  split.
  { rewrite !dic_get_set_outra by discriminate. apply dic_get_set_igual. }
  split.
  { rewrite dic_get_set_outra by discriminate. apply dic_get_set_igual. }
  split; [apply dic_get_set_igual|].
  split; [now rewrite !dic_get_set_outra by assumption|exact X2].
Qed.

Lemma resultado_do_treinamento_witness :
  buscar "t1" (tarefas Exemplos.mundo_pendente) = Some Exemplos.tarefa_pendente /\
  exists r w2,
    treinar_modelo Exemplos.adaptador_ok "t1" [] None Exemplos.mundo_pendente
    = (Retorna r, w2) /\
    dic_get "algoritmo" r = Some (JStr "linear_regression") /\
    dic_get "tempo_treinamento" r = Some (JNum 1) /\
    dic_get "mae" r = Some (JNum 12).
Proof.
  assert (H1 : buscar "t1" (tarefas Exemplos.mundo_pendente)
               = Some Exemplos.tarefa_pendente) by reflexivity.
  assert (K1 : "mae" <> "algoritmo") by discriminate.
  assert (K2 : "mae" <> "tempo_treinamento") by discriminate.
  assert (K3 : "mae" <> "timestamp") by discriminate.
  split; [exact H1|].
  destruct (resultado_do_treinamento Exemplos.adaptador_ok
              Exemplos.mundo_pendente "t1" [] None Exemplos.tarefa_pendente
              [("mae", JNum 12)] Exemplos.modelo_ex "mae" H1 eq_refl K1 K2 K3)
    as (r & w2 & E & A & T & _ & M & _).
  exists r, w2. split; [exact E|]. split; [exact A|].
  split; [exact T|exact M].
Defined.

(** Property X5: a prediction task whose executor returns stores and returns
    the same five-key result (price, confidence, algorithm of the model,
    elapsed time, timestamp); the row ends "concluida" with that result, and
    keeps its error field and its start. *)
Theorem previsao_concluida ad (w : Estado) tid dados t preco conf m' :
  buscar tid (tarefas w) = Some t ->
  ad_prever ad (extra w) dados = (Retorna (preco, conf), m') ->
  exists r t2 w2,
    realizar_previsao ad tid dados w = (Retorna r, w2) /\
    r = [("preco_previsto", preco); ("confianca", conf);
         ("modelo_usado", JStr (algoritmo m'));
         ("tempo_predicao",
          JNum (relogio w (S (S (lidas w))) - relogio w (S (lidas w))));
         ("timestamp", JData (relogio w (S (S (S (lidas w))))))] /\
    buscar tid (tarefas w2) = Some t2 /\
    status t2 = "concluida" /\ resultado t2 = Some r /\
    erro t2 = erro t /\ timestamp_inicio t2 = timestamp_inicio t.
Proof.
  intros H Ead.
  destruct (atualizar_presente_relogio w tid "em_progresso" None None t H)
    as (w1 & E1 & R1 & X1 & _ & L1).
  destruct (atualizar_presente_buscar w tid "em_progresso" None None t H)
    as (t1 & w1' & E1' & B1 & A1 & _).
  rewrite E1 in E1'. injection E1' as <-.
  cbn in L1.
  remember (realizar_previsao ad tid dados w) as res eqn:Hres.
  unfold realizar_previsao in Hres. rewrite (bind_retorna _ _ _ _ _ E1) in Hres.
  unfold tentar, bind, time_time, utcnow, modelo_prever, modelo_algoritmo in Hres.
  cbn -[atualizar_status_tarefa] in Hres.
  rewrite X1, Ead, R1, L1 in Hres. cbn -[atualizar_status_tarefa] in Hres.
  match type of Hres with
  | context [atualizar_status_tarefa tid "concluida" (Some ?r) None ?wm] =>
      destruct (atualizar_presente_buscar wm tid "concluida" (Some r) None t1 B1)
        as (t2 & w2 & E2 & B2 & A2 & _);
      exists r, t2, w2
  end.
  rewrite E2 in Hres. cbn in Hres.
  split; [exact Hres|]. split; [reflexivity|]. split; [exact B2|].
  split; [apply A2|].
  split; [rewrite (at_resultado _ _ _ _ _ _ A2); reflexivity|].
  split.
  - rewrite (at_erro _ _ _ _ _ _ A2), (at_erro _ _ _ _ _ _ A1). reflexivity.
  - rewrite (at_inicio _ _ _ _ _ _ A2). apply A1.
Qed.

Lemma previsao_concluida_witness :
  buscar "t1" (tarefas Exemplos.mundo_pendente) = Some Exemplos.tarefa_pendente /\
  exists r t2 w2,
    realizar_previsao Exemplos.adaptador_ok "t1" [] Exemplos.mundo_pendente
    = (Retorna r, w2) /\
    buscar "t1" (tarefas w2) = Some t2 /\
    status t2 = "concluida" /\ resultado t2 = Some r.
Proof.
  assert (H1 : buscar "t1" (tarefas Exemplos.mundo_pendente)
               = Some Exemplos.tarefa_pendente) by reflexivity.
  split; [exact H1|].
  destruct (previsao_concluida Exemplos.adaptador_ok Exemplos.mundo_pendente
              "t1" [] Exemplos.tarefa_pendente (JNum 250000) (JNum 1)
              Exemplos.modelo_ex H1 eq_refl)
    as (r & t2 & w2 & E & _ & B & S & R & _).
  exists r, t2, w2. split; [exact E|]. split; [exact B|].
  split; [exact S|exact R].
Defined.

(** Property X6: when the executor raises an exception whose text is empty,
    the task marks the row "falha" and raises the exception again, but the
    row's error field and result stay what they were: the failure is stored
    without a message. *)
Theorem falha_sem_mensagem ad (w : Estado) tid t e dados alg dadosp m1 m2 :
  buscar tid (tarefas w) = Some t -> exc_str e = "" ->
  ad_treinar ad (extra w) dados alg = (Levanta e, m1) ->
  ad_prever ad (extra w) dadosp = (Levanta e, m2) ->
  (exists t2 w2,
     treinar_modelo ad tid dados alg w = (Levanta e, w2) /\
     buscar tid (tarefas w2) = Some t2 /\
     status t2 = "falha" /\ erro t2 = erro t /\ resultado t2 = resultado t) /\
  (exists t2 w2,
     realizar_previsao ad tid dadosp w = (Levanta e, w2) /\
     buscar tid (tarefas w2) = Some t2 /\
     status t2 = "falha" /\ erro t2 = erro t /\ resultado t2 = resultado t).
Proof.
  intros H Hm Et Ep. split.
  - destruct (treinar_modelo_presente ad w tid dados alg t H)
      as (t1 & w1 & E1 & B1 & A1 & K).
    rewrite Et in K. destruct K as (t2 & wm & w2 & E2 & B2 & A2 & _).
    exists t2, w2. split; [exact E2|]. split; [exact B2|].
    split; [apply A2|].
    split.
    + rewrite (at_erro _ _ _ _ _ _ A2), Hm. cbn. apply A1.
    + rewrite (at_resultado _ _ _ _ _ _ A2). apply A1.
  - destruct (realizar_previsao_presente ad w tid dadosp t H)
      as (t1 & w1 & E1 & B1 & A1 & K).
    rewrite Ep in K. destruct K as (t2 & wm & w2 & E2 & B2 & A2 & _).
    exists t2, w2. split; [exact E2|]. split; [exact B2|].
    split; [apply A2|].
    split.
    + rewrite (at_erro _ _ _ _ _ _ A2), Hm. cbn. apply A1.
    + rewrite (at_resultado _ _ _ _ _ _ A2). apply A1.
Qed.

Lemma falha_sem_mensagem_witness :
  buscar "t1" (tarefas Exemplos.mundo_pendente) = Some Exemplos.tarefa_pendente /\
  exc_str Exemplos.sem_mensagem = "" /\
  exists t2 w2,
    treinar_modelo Exemplos.adaptador_mudo "t1" [] None Exemplos.mundo_pendente
    = (Levanta Exemplos.sem_mensagem, w2) /\
    buscar "t1" (tarefas w2) = Some t2 /\
    status t2 = "falha" /\ erro t2 = None.
Proof.
  assert (H1 : buscar "t1" (tarefas Exemplos.mundo_pendente)
               = Some Exemplos.tarefa_pendente) by reflexivity.
  assert (H2 : exc_str Exemplos.sem_mensagem = "") by reflexivity.
  split; [exact H1|]. split; [exact H2|].
  destruct (falha_sem_mensagem Exemplos.adaptador_mudo Exemplos.mundo_pendente
              "t1" Exemplos.tarefa_pendente Exemplos.sem_mensagem [] None []
              Exemplos.modelo_ex Exemplos.modelo_ex H1 H2 eq_refl eq_refl)
    as ((t2 & w2 & E & B & S & Er & _) & _).
  exists t2, w2. split; [exact E|]. split; [exact B|].
  split; [exact S|exact Er].
Defined.

(** Property X7: with unique primary keys in the table, a training or
    prediction task, whatever its id and whatever the executor does, leaves
    the keys and the task ids of the table, in their order, and the queue as
    they were: it creates, deletes and renames no row and enqueues
    nothing. *)
Theorem tarefas_mantem_identificadores ad (w : Estado) tid dados alg dadosp :
  NoDup (map id (tarefas w)) ->
  (map id (tarefas (snd (treinar_modelo ad tid dados alg w)))
   = map id (tarefas w) /\
   map task_id (tarefas (snd (treinar_modelo ad tid dados alg w)))
   = map task_id (tarefas w) /\
   fila (snd (treinar_modelo ad tid dados alg w)) = fila w) /\
  (map id (tarefas (snd (realizar_previsao ad tid dadosp w)))
   = map id (tarefas w) /\
   map task_id (tarefas (snd (realizar_previsao ad tid dadosp w)))
   = map task_id (tarefas w) /\
   fila (snd (realizar_previsao ad tid dadosp w)) = fila w).
Proof.
  intros N.
  destruct (atualizar_identificadores w tid "em_progresso" None None)
    as (b & w1 & E1 & I1 & T1 & F1 & X1).
  specialize (T1 N).
  assert (N1 : NoDup (map id (tarefas w1))) by now rewrite I1.
  split.
  - unfold treinar_modelo. rewrite (bind_retorna _ _ _ _ _ E1).
    unfold tentar, bind, time_time, utcnow, modelo_treinar, modelo_algoritmo.
    cbn -[atualizar_status_tarefa dic_set].
    destruct (ad_treinar ad (extra w1) dados alg) as [[metricas|e] m'].
    + match goal with
      | |- context [atualizar_status_tarefa tid "concluida" ?r None ?wm] =>
          destruct (atualizar_identificadores wm tid "concluida" r None)
            as (b2 & w2 & E2 & I2 & T2 & F2 & _)
      end.
      rewrite E2. cbn in *. rewrite I2, (T2 N1), F2, I1, T1, F1.
      repeat split; reflexivity.
    + match goal with
      | |- context [atualizar_status_tarefa tid "falha" None ?r ?wm] =>
          destruct (atualizar_identificadores wm tid "falha" None r)
            as (b2 & w2 & E2 & I2 & T2 & F2 & _)
      end.
      rewrite E2. cbn in *. rewrite I2, (T2 N1), F2, I1, T1, F1.
      repeat split; reflexivity.
  - unfold realizar_previsao. rewrite (bind_retorna _ _ _ _ _ E1).
    unfold tentar, bind, time_time, utcnow, modelo_prever, modelo_algoritmo.
    cbn -[atualizar_status_tarefa].
    destruct (ad_prever ad (extra w1) dadosp) as [[par|e] m'].
    + match goal with
      | |- context [atualizar_status_tarefa tid "concluida" ?r None ?wm] =>
          destruct (atualizar_identificadores wm tid "concluida" r None)
            as (b2 & w2 & E2 & I2 & T2 & F2 & _)
      end.
      rewrite E2. cbn in *. rewrite I2, (T2 N1), F2, I1, T1, F1.
      repeat split; reflexivity.
    + match goal with
      | |- context [atualizar_status_tarefa tid "falha" None ?r ?wm] =>
          destruct (atualizar_identificadores wm tid "falha" None r)
            as (b2 & w2 & E2 & I2 & T2 & F2 & _)
      end.
      rewrite E2. cbn in *. rewrite I2, (T2 N1), F2, I1, T1, F1.
      repeat split; reflexivity.
Qed.

Lemma tarefas_mantem_identificadores_witness :
  NoDup (map id (tarefas Exemplos.mundo_dois)) /\
  map task_id
    (tarefas (snd (treinar_modelo Exemplos.adaptador_ok "t2" [] None
                     Exemplos.mundo_dois))) = ["t1"; "t2"] /\
  map task_id
    (tarefas (snd (realizar_previsao Exemplos.adaptador_falha "t1" []
                     Exemplos.mundo_dois))) = ["t1"; "t2"].
Proof.
  assert (N : NoDup (map id (tarefas Exemplos.mundo_dois))).
  { cbn. constructor; [intros [H|[]]; discriminate|].
    constructor; [intros []|constructor]. }
  split; [exact N|]. split.
  - exact (proj1 (proj2 (proj1 (tarefas_mantem_identificadores
             Exemplos.adaptador_ok Exemplos.mundo_dois "t2" [] None [] N)))).
  - exact (proj1 (proj2 (proj2 (tarefas_mantem_identificadores
             Exemplos.adaptador_falha Exemplos.mundo_dois "t1" [] None [] N)))).
Defined.

(** *** Submission, status query and the API key *)

(** Property X8: a training request with fewer than ten records is refused
    with status 400 before anything is drawn, stored or enqueued; only the
    session is closed. *)
Theorem treinar_poucos_dados (w : Estado) dados alg :
  (List.length dados < 10)%nat ->
  com_get_db (treinar_assincrono dados alg) w
  = (Levanta (HTTPException 400
       "Quantidade insuficiente de dados para treinamento. Mínimo: 10 registros."),
     registrar EvFechar (com_transacao None w)).
Proof.
  intros H. apply Nat.ltb_lt in H.
  unfold com_get_db, finalmente, sessao, treinar_assincrono, SessionLocal,
    db_close, levantar.
  cbn -[Nat.ltb]. rewrite H. reflexivity.
Qed.

Lemma treinar_poucos_dados_witness :
  (List.length [JNull; JNull] < 10)%nat /\
  exc_status_code
    match fst (com_get_db (treinar_assincrono [JNull; JNull] "ridge")
                 Exemplos.mundo_pendente) with
    | Levanta e => e
    | Retorna _ => Exemplos.nao_treinado
    end = Some 400 /\
  tarefas (snd (com_get_db (treinar_assincrono [JNull; JNull] "ridge")
                  Exemplos.mundo_pendente))
  = tarefas Exemplos.mundo_pendente /\
  fila (snd (com_get_db (treinar_assincrono [JNull; JNull] "ridge")
               Exemplos.mundo_pendente)) = [].
Proof.
  assert (H : (List.length [JNull; JNull] < 10)%nat) by (cbn; lia).
  split; [exact H|].
  rewrite (treinar_poucos_dados Exemplos.mundo_pendente [JNull; JNull] "ridge" H).
  split; [reflexivity|]. split; reflexivity.
Defined.

(** Property X9: a training request with at least ten records and a fresh
    identifier appends one row (type "treinamento", status "pendente", the
    algorithm and the number of records as input, no result, error or
    duration), enqueues one message "treinar_modelo" under the same
    identifier with the records and the algorithm, and answers PENDENTE
    under that identifier. *)
Theorem treinar_submete (w : Estado) dados alg :
  (10 <= List.length dados)%nat ->
  buscar (uuids w (gerados w)) (tarefas w) = None ->
  exists t resp w1,
    com_get_db (treinar_assincrono dados alg) w = (Retorna resp, w1) /\
    tarefas w1 = (tarefas w ++ [t])%list /\
    fila w1 = (fila w ++ [{| msg_nome := "treinar_modelo";
                             msg_task_id := uuids w (gerados w);
                             msg_args := [JLista dados; JStr alg] |}])%list /\
    task_id t = uuids w (gerados w) /\
    tipo t = "treinamento" /\ status t = "pendente" /\
    dados_entrada t
    = Some (JDic [("algoritmo", JStr alg);
                  ("registros", JNum (Z.of_nat (List.length dados)))]) /\
    resultado t = None /\ erro t = None /\ duracao t = None /\
    st_task_id resp = uuids w (gerados w) /\ st_status resp = PENDENTE.
Proof.
  intros Hn H. apply Nat.ltb_ge in Hn.
  unfold com_get_db, finalmente, sessao, treinar_assincrono, db_add_commit,
    bind, ret, SessionLocal, uuid4, utcnow, db_linhas, db_pendente, db_commit,
    apply_async, da_saida, db_close, visao.
  cbn -[buscar Nat.ltb]. rewrite Hn. cbn -[buscar Nat.ltb]. rewrite H.
  cbn -[buscar Nat.ltb].
  eexists; eexists; eexists. split; [reflexivity|]. cbn.
  repeat split; reflexivity.
Qed.

Lemma treinar_submete_witness :
  (10 <= List.length Exemplos.imoveis_ex)%nat /\
  buscar "c-0" (tarefas Exemplos.mundo_pendente) = None /\
  exists t resp w1,
    com_get_db (treinar_assincrono Exemplos.imoveis_ex "ridge")
      Exemplos.mundo_pendente = (Retorna resp, w1) /\
    tarefas w1 = [Exemplos.tarefa_pendente; t] /\
    task_id t = "c-0" /\ st_task_id resp = "c-0" /\
    map msg_task_id (fila w1) = ["c-0"].
Proof.
  assert (H1 : (10 <= List.length Exemplos.imoveis_ex)%nat) by (cbn; lia).
  assert (H2 : buscar (uuids Exemplos.mundo_pendente
                         (gerados Exemplos.mundo_pendente))
                 (tarefas Exemplos.mundo_pendente) = None) by reflexivity.
  split; [exact H1|]. split; [exact H2|].
  destruct (treinar_submete Exemplos.mundo_pendente Exemplos.imoveis_ex
              "ridge" H1 H2)
    as (t & resp & w1 & E & T & F & I & _ & _ & _ & _ & _ & _ & R & _).
  exists t, resp, w1. split; [exact E|]. split; [exact T|].
  split; [exact I|]. split; [exact R|]. rewrite F. reflexivity.
Defined.

(** Property X10: when the identifier drawn for a prediction request is
    already the task id of a row, the unique index refuses the insert: the
    request ends in an integrity error, the table and the queue are as
    before and no message is sent. *)
Theorem submissao_id_repetido (w : Estado) dados t :
  buscar (uuids w (gerados w)) (tarefas w) = Some t ->
  exists w1,
    com_get_db (prever_assincrono dados) w
    = (Levanta (IntegrityError "tarefas.task_id"), w1) /\
    tarefas w1 = tarefas w /\ fila w1 = fila w /\
    eventos w1 = (eventos w ++ [EvFechar])%list.
Proof.
  intros H.
  unfold com_get_db, finalmente, sessao, prever_assincrono, db_add_commit,
    bind, ret, SessionLocal, uuid4, utcnow, db_linhas, db_pendente, db_commit,
    apply_async, da_saida, db_close, visao, levantar.
  cbn -[buscar]. rewrite H. cbn -[buscar].
  eexists. split; [reflexivity|]. cbn. repeat split; reflexivity.
Qed.

Lemma submissao_id_repetido_witness :
  buscar "c-0" (tarefas (Exemplos.mundo_com [Exemplos.tarefa_c0]))
  = Some Exemplos.tarefa_c0 /\
  exists w1,
    com_get_db (prever_assincrono []) (Exemplos.mundo_com [Exemplos.tarefa_c0])
    = (Levanta (IntegrityError "tarefas.task_id"), w1) /\
    tarefas w1 = [Exemplos.tarefa_c0] /\ fila w1 = [].
Proof.
  assert (H : buscar (uuids (Exemplos.mundo_com [Exemplos.tarefa_c0])
                        (gerados (Exemplos.mundo_com [Exemplos.tarefa_c0])))
                (tarefas (Exemplos.mundo_com [Exemplos.tarefa_c0]))
              = Some Exemplos.tarefa_c0) by reflexivity.
  split; [exact H|].
  destruct (submissao_id_repetido (Exemplos.mundo_com [Exemplos.tarefa_c0])
              [] Exemplos.tarefa_c0 H) as (w1 & E & T & F & _).
  exists w1. split; [exact E|]. split; [exact T|exact F].
Defined.

(** Property X11: the updater stores any status text it is given that fits
    the column (20 characters); once a row holds a status outside the four
    of the response schema, the status query of that task fails validation
    instead of answering, and changes nothing. *)
Theorem consulta_status_fora_do_enum (w : Estado) tid st r e t :
  buscar tid (tarefas w) = Some t ->
  (String.length st <= 20)%nat ->
  StatusTarefaEnum_de st = None ->
  exists w1 w2,
    atualizar_status_tarefa tid st r e w = (Retorna true, w1) /\
    com_get_db (verificar_status_tarefa tid) w1
    = (Levanta (ValidationError "status"), w2) /\
    tarefas w2 = tarefas w1.
Proof.
  intros H _ Hs.
  destruct (atualizar_presente_buscar w tid st r e t H)
    as (t1 & w1 & E & B & A & _).
  exists w1. eexists. split; [exact E|].
  unfold com_get_db, finalmente, sessao, verificar_status_tarefa, db_first,
    bind, ret, SessionLocal, db_linhas, db_close, visao.
  cbn -[buscar]. rewrite B. cbn -[buscar].
  unfold da_saida, novo_StatusTarefa. rewrite (at_status _ _ _ _ _ _ A), Hs.
  split; reflexivity.
Qed.

Lemma consulta_status_fora_do_enum_witness :
  buscar "t1" (tarefas Exemplos.mundo_pendente) = Some Exemplos.tarefa_pendente /\
  StatusTarefaEnum_de "cancelada" = None /\
  exists w1 w2,
    atualizar_status_tarefa "t1" "cancelada" None None Exemplos.mundo_pendente
    = (Retorna true, w1) /\
    com_get_db (verificar_status_tarefa "t1") w1
    = (Levanta (ValidationError "status"), w2).
Proof.
  assert (H1 : buscar "t1" (tarefas Exemplos.mundo_pendente)
               = Some Exemplos.tarefa_pendente) by reflexivity.
  assert (H2 : StatusTarefaEnum_de "cancelada" = None) by reflexivity.
  assert (H0 : (String.length "cancelada" <= 20)%nat) by (cbn; lia).
  split; [exact H1|]. split; [exact H2|].
  destruct (consulta_status_fora_do_enum Exemplos.mundo_pendente "t1"
              "cancelada" None None Exemplos.tarefa_pendente H1 H0 H2)
    as (w1 & w2 & E & V & _).
  exists w1, w2. split; [exact E|exact V].
Defined.

Lemma prever_assincrono_mundo (w : Estado) dados :
  buscar (uuids w (gerados w)) (tarefas w) = None ->
  exists t resp w1,
    com_get_db (prever_assincrono dados) w = (Retorna resp, w1) /\
    buscar (uuids w (gerados w)) (tarefas w1) = Some t /\
    st_task_id resp = uuids w (gerados w) /\
    timestamp_inicio t = Some (relogio w (lidas w)) /\
    resultado t = None /\ erro t = None /\
    extra w1 = extra w.
Proof.
  intros H.
  destruct (prever_assincrono_roda w dados H)
    as (t & resp & w1 & E & T & Tr & Hid & Hresp & Hs & Hi & Ha & Hr & He & Hd & _).
  exists t, resp, w1. split; [exact E|].
  split; [rewrite T; now apply buscar_no_fim|].
  split; [exact Hresp|]. split; [exact Hi|]. split; [exact Hr|]. split; [exact He|].
  revert E.
  unfold com_get_db, finalmente, sessao, prever_assincrono, db_add_commit,
    bind, ret, SessionLocal, uuid4, utcnow, db_linhas, db_pendente, db_commit,
    apply_async, da_saida, db_close, visao.
  cbn -[buscar]. rewrite H. cbn -[buscar].
  intros E. injection E as _ <-. reflexivity.
Qed.

(** Property X12: submission, execution and query compose.  After a
    prediction request with a fresh identifier, the run of the task under
    the identifier the request answered, and a status query under it, the
    query answers with the start the request stored and with the outcome of
    the executor: CONCLUIDA with the result the task returned and no error,
    or (for an exception with a non-empty text) FALHA with that text and no
    result. *)
Theorem submissao_execucao_consulta ad (w : Estado) dados s m' :
  buscar (uuids w (gerados w)) (tarefas w) = None ->
  ad_prever ad (extra w) dados = (s, m') ->
  (forall e, s = Levanta e -> exc_str e <> "") ->
  exists resp w1 w2 resp' w3,
    com_get_db (prever_assincrono dados) w = (Retorna resp, w1) /\
    snd (realizar_previsao ad (st_task_id resp) dados w1) = w2 /\
    com_get_db (verificar_status_tarefa (st_task_id resp)) w2
    = (Retorna resp', w3) /\
    st_task_id resp' = st_task_id resp /\
    st_timestamp_inicio resp' = relogio w (lidas w) /\
    match s with
    | Retorna _ =>
        st_status resp' = CONCLUIDA /\ st_erro resp' = None /\
        exists r,
          fst (realizar_previsao ad (st_task_id resp) dados w1) = Retorna r /\
          st_resultado resp' = Some r
    | Levanta e =>
        st_status resp' = FALHA /\ st_erro resp' = Some (exc_str e) /\
        st_resultado resp' = None /\
        fst (realizar_previsao ad (st_task_id resp) dados w1) = Levanta e
    end.
Proof.
  intros H Ead Hm.
  destruct (prever_assincrono_mundo w dados H)
    as (t & resp & w1 & E & B & Hresp & Hi & Hr & He & X).
  rewrite <- Hresp in B.
  destruct (realizar_previsao_presente ad w1 (st_task_id resp) dados t B)
    as (t1 & w1' & E1 & B1 & A1 & K).
  rewrite X, Ead in K.
  exists resp, w1.
  destruct s as [par|e].
  - destruct K as (r & t2 & wm & w2 & E2 & N2 & B2 & A2).
    pose proof (atualizada_atualizacao _ _ _ _ _ _ A2) as Ta.
    destruct (timestamp_atualizacao t2) as [a|] eqn:Ea; [|contradiction].
    assert (I2 : timestamp_inicio t2 = Some (relogio w (lidas w))).
    { rewrite (at_inicio _ _ _ _ _ _ A2), (at_inicio _ _ _ _ _ _ A1). exact Hi. }
    assert (S2 : StatusTarefaEnum_de (status t2) = Some CONCLUIDA)
      by (rewrite (at_status _ _ _ _ _ _ A2); reflexivity).
    pose proof (verificar_presente w2 _ t2 CONCLUIDA _ _ B2 S2 I2 Ea) as V.
    exists w2. eexists. eexists. split; [exact E|].
    split; [rewrite E2; reflexivity|]. split; [exact V|]. cbn.
    split; [now apply buscar_task_id with (tarefas w2)|].
    split; [reflexivity|]. split; [reflexivity|].
    split.
    + rewrite (at_erro _ _ _ _ _ _ A2), (at_erro _ _ _ _ _ _ A1). exact He.
    + exists r. split; [rewrite E2; reflexivity|].
      rewrite (at_resultado _ _ _ _ _ _ A2), verdade_dic_cheio; auto.
  - destruct K as (t2 & wm & w2 & E2 & B2 & A2 & _).
    pose proof (atualizada_atualizacao _ _ _ _ _ _ A2) as Ta.
    destruct (timestamp_atualizacao t2) as [a|] eqn:Ea; [|contradiction].
    assert (I2 : timestamp_inicio t2 = Some (relogio w (lidas w))).
    { rewrite (at_inicio _ _ _ _ _ _ A2), (at_inicio _ _ _ _ _ _ A1). exact Hi. }
    assert (S2 : StatusTarefaEnum_de (status t2) = Some FALHA)
      by (rewrite (at_status _ _ _ _ _ _ A2); reflexivity).
    pose proof (verificar_presente w2 _ t2 FALHA _ _ B2 S2 I2 Ea) as V.
    exists w2. eexists. eexists. split; [exact E|].
    split; [rewrite E2; reflexivity|]. split; [exact V|]. cbn.
    split; [now apply buscar_task_id with (tarefas w2)|].
    split; [reflexivity|]. split; [reflexivity|].
    split.
    + rewrite (at_erro _ _ _ _ _ _ A2), verdade_str_cheia; auto.
    + split; [|rewrite E2; reflexivity].
      rewrite (at_resultado _ _ _ _ _ _ A2), (at_resultado _ _ _ _ _ _ A1).
      exact Hr.
Qed.

Lemma submissao_execucao_consulta_witness :
  buscar "c-0" (tarefas Exemplos.mundo_vazio) = None /\
  exists resp w1 resp' w3,
    com_get_db (prever_assincrono []) Exemplos.mundo_vazio = (Retorna resp, w1) /\
    com_get_db (verificar_status_tarefa (st_task_id resp))
      (snd (realizar_previsao Exemplos.adaptador_falha (st_task_id resp) [] w1))
    = (Retorna resp', w3) /\
    st_status resp' = FALHA /\ st_erro resp' = Some "model not trained" /\
    st_timestamp_inicio resp' = 1000.
Proof.
  assert (H1 : buscar (uuids Exemplos.mundo_vazio (gerados Exemplos.mundo_vazio))
                 (tarefas Exemplos.mundo_vazio) = None) by reflexivity.
  assert (H3 : forall e, Levanta (A := Json * Json) Exemplos.nao_treinado
                         = Levanta e -> exc_str e <> "")
    by (intros e H; injection H as <-; discriminate).
  split; [exact H1|].
  destruct (submissao_execucao_consulta Exemplos.adaptador_falha
              Exemplos.mundo_vazio [] (Levanta Exemplos.nao_treinado)
              Exemplos.modelo_ex H1 eq_refl H3)
    as (resp & w1 & w2 & resp' & w3 & E & <- & V & _ & I & S & Er & _).
  exists resp, w1, resp', w3. split; [exact E|]. split; [exact V|].
  split; [exact S|]. split; [exact Er|exact I].
Defined.

(** Property X13: [verify_api_key] reads its two settings from the settings
    class, and a pydantic model class has no attribute for a field, so its
    first read raises [AttributeError].  On a route guarded by it every
    request, whatever the settings and the header, ends in that error before
    a session is opened: the handler does not run and nothing in the world
    changes. *)
Theorem chave_de_api {A} (cfg : Configuracao) (api_key : option string)
    (p : Prog Tarefa Modelo A) (w : Estado) :
  pertence "API_KEY_ENABLED" campos_de_Config = true /\
  verify_api_key cfg api_key w
  = (Levanta (AttributeError "Config" "API_KEY_ENABLED"), w) /\
  protegido cfg api_key p w
  = (Levanta (AttributeError "Config" "API_KEY_ENABLED"), w).
Proof.
  split; [reflexivity|].
  assert (V : verify_api_key cfg api_key w
              = (Levanta (AttributeError "Config" "API_KEY_ENABLED"), w)).
  { unfold verify_api_key, Config_attr, bind, levantar. reflexivity. }
  split; [exact V|].
  unfold protegido, bind. rewrite V. reflexivity.
Qed.

(** ** Further properties of iteration 9 *)

(** *** The status query on a stored row *)

(** The answer is the response built from the row; only the request counter
    and the trace change. *)
Lemma status_tarefa_encontrada (w : App9.Estado) tid t :
  App9.buscar tid (tarefas w) = Some t ->
  exists w',
    com_get_db (App9.status_tarefa tid) w = (App9.resposta_de t, w') /\
    tarefas w' = tarefas w /\ fila w' = fila w.
Proof.
  intros H.
  unfold com_get_db, finalmente, sessao, App9.status_tarefa,
    App9.registrar_requisicao, App9.db_query_first,
    bind, ret, SessionLocal, db_linhas, db_close, visao, da_saida.
  cbn -[App9.buscar App9.novo_StatusTarefaResponse]. rewrite H.
  cbn -[App9.buscar App9.novo_StatusTarefaResponse].
  fold (App9.resposta_de t).
  destruct (App9.resposta_de t); eexists; split; try reflexivity;
    split; reflexivity.
Qed.

Lemma resposta_de_sem_resultado t :
  App9.resultado t = None ->
  App9.resposta_de t
  = Retorna {| App9.r_task_id := App9.task_id t; App9.r_tipo := App9.tipo t;
               App9.r_status := App9.status t;
               App9.r_timestamp_criacao := App9.timestamp_criacao t;
               App9.r_timestamp_inicio := App9.timestamp_inicio t;
               App9.r_timestamp_fim := App9.timestamp_fim t;
               App9.r_resultado := None; App9.r_erro := App9.erro t;
               App9.r_duracao := None |}.
Proof.
  intros Hr. unfold App9.resposta_de, App9.novo_StatusTarefaResponse.
  now rewrite StatusTarefa_de_valor, TipoTarefa_de_valor, Hr.
Qed.

(** Property X14: the status query on a stored row without result answers
    with the row's task id, type, status, timestamps and error, leaves the
    table as it was, and always answers a null [duracao], also for a row
    that has both its start and its end. *)
Theorem status_tarefa_presente (w : App9.Estado) tid t :
  App9.buscar tid (tarefas w) = Some t ->
  App9.resultado t = None ->
  exists resp w',
    com_get_db (App9.status_tarefa tid) w = (Retorna resp, w') /\
    App9.r_task_id resp = tid /\
    App9.r_status resp = App9.status t /\
    App9.r_tipo resp = App9.tipo t /\
    App9.r_timestamp_criacao resp = App9.timestamp_criacao t /\
    App9.r_timestamp_inicio resp = App9.timestamp_inicio t /\
    App9.r_timestamp_fim resp = App9.timestamp_fim t /\
    App9.r_erro resp = App9.erro t /\
    App9.r_duracao resp = None /\
    tarefas w' = tarefas w.
Proof.
  intros H Hr.
  destruct (status_tarefa_encontrada w tid t H) as (w' & E & T & _).
  rewrite (resposta_de_sem_resultado t Hr) in E.
  eexists; exists w'. split; [exact E|]. cbn.
  split.
  { unfold App9.buscar in H. apply find_some in H. destruct H as [_ H].
    now apply String.eqb_eq in H. }
  repeat split; try reflexivity. exact T.
Qed.

Lemma status_tarefa_presente_witness :
  App9.buscar "t1" (tarefas (Exemplos.mundo9_com [Exemplos.tarefa9]))
  = Some Exemplos.tarefa9 /\
  App9.duracao Exemplos.tarefa9 = Some 60 /\
  exists resp w',
    com_get_db (App9.status_tarefa "t1") (Exemplos.mundo9_com [Exemplos.tarefa9])
    = (Retorna resp, w') /\
    App9.r_status resp = App9.CONCLUIDO /\
    App9.r_timestamp_fim resp = Some 190 /\
    App9.r_duracao resp = None.
Proof.
  assert (H1 : App9.buscar "t1" (tarefas (Exemplos.mundo9_com [Exemplos.tarefa9]))
               = Some Exemplos.tarefa9) by reflexivity.
  assert (H2 : App9.resultado Exemplos.tarefa9 = None) by reflexivity.
  split; [exact H1|]. split; [reflexivity|].
  destruct (status_tarefa_presente (Exemplos.mundo9_com [Exemplos.tarefa9])
              "t1" Exemplos.tarefa9 H1 H2)
    as (resp & w' & E & _ & S & _ & _ & _ & F & _ & D & _).
  exists resp, w'. split; [exact E|]. split; [exact S|].
  split; [exact F|exact D].
Defined.

(** Property X15: a stored result that is not an object goes through
    [dict(v)] in the response model.  When it is a number, a boolean or a
    string that is not empty, the status query ends in a validation error on
    [resultado]; when it is the empty string or the empty list, the query
    answers, with the empty object as the result.  The table is as before
    in both cases. *)
Theorem status_tarefa_resultado_invalido (w : App9.Estado) tid t j :
  App9.buscar tid (tarefas w) = Some t ->
  App9.resultado t = Some j ->
  ((exists z, j = JNum z) \/ (exists b, j = JBool b)
   \/ (exists s, j = JStr s /\ s <> "") ->
   exists w',
     com_get_db (App9.status_tarefa tid) w
     = (Levanta (ValidationError "resultado"), w') /\
     tarefas w' = tarefas w) /\
  (j = JStr "" \/ j = JLista [] ->
   exists resp w',
     com_get_db (App9.status_tarefa tid) w = (Retorna resp, w') /\
     App9.r_resultado resp = Some [] /\
     App9.r_status resp = App9.status t /\
     App9.r_tipo resp = App9.tipo t /\
     tarefas w' = tarefas w).
Proof.
  intros H Hr.
  destruct (status_tarefa_encontrada w tid t H) as (w' & E & T & _).
  unfold App9.resposta_de, App9.novo_StatusTarefaResponse in E.
  rewrite StatusTarefa_de_valor, TipoTarefa_de_valor, Hr in E.
  split.
  - intros [[z ->]|[[b ->]|[s [-> Hs]]]]; exists w'; (split; [|exact T]).
    + exact E.
    + exact E.
    + rewrite E. cbn. destruct (String.eqb s "") eqn:Es; [|reflexivity].
      apply String.eqb_eq in Es. contradiction.
  - intros [->| ->]; cbn in E; eexists; exists w';
      (split; [exact E|]); cbn; repeat split; exact T.
Qed.

Lemma status_tarefa_resultado_invalido_witness :
  App9.buscar "t5" (tarefas (Exemplos.mundo9_com [Exemplos.tarefa9_texto]))
  = Some Exemplos.tarefa9_texto /\
  App9.resultado Exemplos.tarefa9_texto = Some (JStr "ok") /\
  (exists w',
     com_get_db (App9.status_tarefa "t5")
       (Exemplos.mundo9_com [Exemplos.tarefa9_texto])
     = (Levanta (ValidationError "resultado"), w')) /\
  App9.resultado Exemplos.tarefa9_vazio = Some (JStr "") /\
  (exists resp w',
     com_get_db (App9.status_tarefa "t6")
       (Exemplos.mundo9_com [Exemplos.tarefa9_vazio]) = (Retorna resp, w') /\
     App9.r_resultado resp = Some []).
Proof.
  assert (H1 : App9.buscar "t5"
                 (tarefas (Exemplos.mundo9_com [Exemplos.tarefa9_texto]))
               = Some Exemplos.tarefa9_texto) by reflexivity.
  assert (H2 : App9.resultado Exemplos.tarefa9_texto = Some (JStr "ok"))
    by reflexivity.
  assert (H3 : (exists z, JStr "ok" = JNum z) \/ (exists b, JStr "ok" = JBool b)
               \/ (exists s, JStr "ok" = JStr s /\ s <> "")).
  { right. right. exists "ok". split; [reflexivity|discriminate]. }
  assert (H4 : App9.buscar "t6"
                 (tarefas (Exemplos.mundo9_com [Exemplos.tarefa9_vazio]))
               = Some Exemplos.tarefa9_vazio) by reflexivity.
  assert (H5 : App9.resultado Exemplos.tarefa9_vazio = Some (JStr ""))
    by reflexivity.
  split; [exact H1|]. split; [exact H2|].
  destruct (proj1 (status_tarefa_resultado_invalido
                     (Exemplos.mundo9_com [Exemplos.tarefa9_texto]) "t5"
                     Exemplos.tarefa9_texto (JStr "ok") H1 H2) H3)
    as (w' & E & _).
  destruct (proj2 (status_tarefa_resultado_invalido
                     (Exemplos.mundo9_com [Exemplos.tarefa9_vazio]) "t6"
                     Exemplos.tarefa9_vazio (JStr "") H4 H5)
              (or_introl eq_refl))
    as (resp & v' & E' & R & _).
  split; [exists w'; exact E|]. split; [exact H5|].
  exists resp, v'. split; [exact E'|exact R].
Defined.

(** *** The request counter *)

Lemma contador_get_incrementar k k' c :
  App9.contador_get k (App9.incrementar k' c)
  = option_map (fun v => v + (if String.eqb k k' then 1 else 0))
      (App9.contador_get k c).
Proof.
  destruct c as [a b c d e f g].
  unfold App9.contador_get, App9.incrementar.
  cbn [App9.total App9.previsoes_sincronas App9.previsoes_assincronas
       App9.treinamentos_sincronos App9.treinamentos_assincronos
       App9.consultas App9.erros].
  destruct (String.eqb k k') eqn:K.
  - apply String.eqb_eq in K. subst k'.
    destruct (String.eqb k "total") eqn:E1;
      [reflexivity|].
    destruct (String.eqb k "previsoes_sincronas") eqn:E2; [reflexivity|].
    destruct (String.eqb k "previsoes_assincronas") eqn:E3; [reflexivity|].
    destruct (String.eqb k "treinamentos_sincronos") eqn:E4; [reflexivity|].
    destruct (String.eqb k "treinamentos_assincronos") eqn:E5; [reflexivity|].
    destruct (String.eqb k "consultas") eqn:E6; [reflexivity|].
    destruct (String.eqb k "erros") eqn:E7; reflexivity.
  - assert (S : forall lit, String.eqb k lit = true -> String.eqb k' lit = false).
    { intros lit E. apply String.eqb_eq in E. subst lit.
      now rewrite String.eqb_sym. }
    destruct (String.eqb k "total") eqn:E1;
      [rewrite (S _ E1); cbn; f_equal; lia|].
    destruct (String.eqb k "previsoes_sincronas") eqn:E2;
      [rewrite (S _ E2); cbn; f_equal; lia|].
    destruct (String.eqb k "previsoes_assincronas") eqn:E3;
      [rewrite (S _ E3); cbn; f_equal; lia|].
    destruct (String.eqb k "treinamentos_sincronos") eqn:E4;
      [rewrite (S _ E4); cbn; f_equal; lia|].
    destruct (String.eqb k "treinamentos_assincronos") eqn:E5;
      [rewrite (S _ E5); cbn; f_equal; lia|].
    destruct (String.eqb k "consultas") eqn:E6;
      [rewrite (S _ E6); cbn; f_equal; lia|].
    destruct (String.eqb k "erros") eqn:E7;
      [rewrite (S _ E7); cbn; f_equal; lia|reflexivity].
Qed.

Lemma contador_get_chave k c v :
  App9.contador_get k c = Some v -> pertence k App9.chaves_contador = true.
Proof.
  unfold App9.contador_get, pertence, App9.chaves_contador. cbn [existsb].
  destruct (String.eqb k "total"); [reflexivity|].
  destruct (String.eqb k "previsoes_sincronas"); [reflexivity|].
  destruct (String.eqb k "previsoes_assincronas"); [reflexivity|].
  destruct (String.eqb k "treinamentos_sincronos"); [reflexivity|].
  destruct (String.eqb k "treinamentos_assincronos"); [reflexivity|].
  destruct (String.eqb k "consultas"); [reflexivity|].
  destruct (String.eqb k "erros"); [reflexivity|discriminate].
Qed.

(** Property X17: recording a request of some type adds one to the counter
    "total", one more to the counter named by the type when there is one
    (so a request of type "total" counts twice), creates no counter for an
    unknown type, and leaves every other counter, the table and the queue as
    they were. *)
Theorem registrar_requisicao_conta (w : App9.Estado) tipo_req chave :
  App9.contador_get chave
    (App9.contador_requisicoes
       (extra (snd (App9.registrar_requisicao tipo_req w))))
  = option_map
      (fun v => v + (if String.eqb chave "total" then 1 else 0)
                  + (if String.eqb chave tipo_req then 1 else 0))
      (App9.contador_get chave (App9.contador_requisicoes (extra w))) /\
  tarefas (snd (App9.registrar_requisicao tipo_req w)) = tarefas w /\
  fila (snd (App9.registrar_requisicao tipo_req w)) = fila w /\
  fst (App9.registrar_requisicao tipo_req w) = Retorna tt.
Proof.
  split; [|repeat split].
  unfold App9.registrar_requisicao.
  cbn [snd extra com_extra App9.contador_requisicoes].
  destruct (pertence tipo_req App9.chaves_contador) eqn:P.
  - rewrite !contador_get_incrementar.
    destruct (App9.contador_get chave _); reflexivity.
  - rewrite contador_get_incrementar.
    destruct (App9.contador_get chave (App9.contador_requisicoes (extra w)))
      as [v|] eqn:G; [|reflexivity].
    cbn. destruct (String.eqb chave tipo_req) eqn:E.
    + apply String.eqb_eq in E. subst tipo_req.
      apply contador_get_chave in G. congruence.
    + f_equal. lia.
Qed.

(** *** The listing *)

Lemma em_firstn {A : Type} n (l : list A) a : In a (firstn n l) -> In a l.
Proof.
  revert l. induction n as [|n IH]; intros [|x l]; cbn; try tauto.
  intros [H|H]; auto.
Qed.

Lemma em_skipn {A : Type} n (l : list A) a : In a (skipn n l) -> In a l.
Proof.
  revert l. induction n as [|n IH]; intros [|x l]; cbn; try tauto.
  intros H. right. auto.
Qed.

Section Ordem.
Context {A : Type} (chave : A -> Z).

Lemma inserir_desc_in x y l :
  In y (inserir_desc chave x l) <-> y = x \/ In y l.
Proof.
  induction l as [|z l IH]; cbn.
  - intuition.
  - destruct (chave z <=? chave x); cbn; [intuition|].
    rewrite IH. intuition.
Qed.

Lemma ordenar_desc_in y l : In y (ordenar_desc chave l) <-> In y l.
Proof.
  induction l as [|x l IH]; cbn; [reflexivity|].
  unfold ordenar_desc in *. cbn. rewrite inserir_desc_in, IH. intuition.
Qed.

Lemma ordenar_desc_length l :
  List.length (ordenar_desc chave l) = List.length l.
Proof.
  assert (I : forall x m, List.length (inserir_desc chave x m) = S (List.length m)).
  { intros x m. induction m as [|z m IH]; cbn; [reflexivity|].
    destruct (chave z <=? chave x); cbn; [reflexivity|now rewrite IH]. }
  induction l as [|x l IH]; cbn; [reflexivity|].
  unfold ordenar_desc in *. cbn. now rewrite I, IH.
Qed.

Lemma inserir_desc_decrescente x l :
  decrescente chave l -> decrescente chave (inserir_desc chave x l).
Proof.
  unfold decrescente. induction l as [|z l IH]; cbn; intros S.
  - repeat constructor.
  - inversion S as [|? ? Sl Fz]; subst.
    destruct (chave z <=? chave x) eqn:E.
    + apply Z.leb_le in E. constructor; [exact S|].
      constructor; [exact E|].
      eapply Forall_impl; [|exact Fz]. cbn. intros a Ha. lia.
    + apply Z.leb_gt in E. constructor; [auto|].
      apply Forall_forall. intros a Ha. apply inserir_desc_in in Ha.
      destruct Ha as [->|Ha]; [lia|].
      rewrite Forall_forall in Fz. now apply Fz.
Qed.

Lemma ordenar_desc_decrescente l : decrescente chave (ordenar_desc chave l).
Proof.
  induction l as [|x l IH]; [constructor|].
  unfold ordenar_desc in *. cbn. now apply inserir_desc_decrescente.
Qed.

Lemma decrescente_skipn n l :
  decrescente chave l -> decrescente chave (skipn n l).
Proof.
  unfold decrescente. revert l. induction n as [|n IH]; intros l S; [exact S|].
  destruct l as [|x l]; [constructor|]. cbn.
  inversion S; subst. auto.
Qed.

Lemma decrescente_firstn n l :
  decrescente chave l -> decrescente chave (firstn n l).
Proof.
  unfold decrescente. revert l. induction n as [|n IH]; intros l S; [constructor|].
  destruct l as [|x l]; [constructor|]. cbn.
  inversion S as [|? ? Sl Fx]; subst. constructor; [auto|].
  apply Forall_forall. intros a Ha. rewrite Forall_forall in Fx.
  apply Fx. eapply em_firstn; eauto.
Qed.

End Ordem.

Lemma status_igual_eq a b : App9.status_igual a b = true -> a = b.
Proof. destruct a, b; cbn; intros H; try reflexivity; discriminate. Qed.

Lemma tipo_igual_eq a b : App9.tipo_igual a b = true -> a = b.
Proof. destruct a, b; cbn; intros H; try reflexivity; discriminate. Qed.

Lemma filtrar_in sf tf l t :
  In t (App9.filtrar sf tf l) ->
  In t l /\
  match sf with Some s => App9.status t = s | None => True end /\
  match tf with Some tp => App9.tipo t = tp | None => True end.
Proof.
  unfold App9.filtrar. destruct sf as [s|], tf as [tp|]; intros H;
    repeat (apply filter_In in H; destruct H as [H ?]);
    repeat split; auto using status_igual_eq, tipo_igual_eq.
Qed.

Lemma resposta_de_campos t r :
  App9.resposta_de t = Retorna r ->
  App9.r_task_id r = App9.task_id t /\
  App9.r_status r = App9.status t /\ App9.r_tipo r = App9.tipo t /\
  App9.r_timestamp_criacao r = App9.timestamp_criacao t /\
  App9.r_duracao r = None.
Proof.
  unfold App9.resposta_de, App9.novo_StatusTarefaResponse.
  rewrite StatusTarefa_de_valor, TipoTarefa_de_valor.
  destruct (App9.resultado t) as [v|];
    [destruct v; try destruct (App9.dict_validator _)|];
    intros H; try discriminate;
    injection H as <-; cbn; repeat split; reflexivity.
Qed.

Lemma converter_retorna l :
  (forall t, In t l -> levantou (App9.resposta_de t) = false) ->
  exists rs, App9.converter l = Retorna rs /\
             Forall2 (fun t r => App9.resposta_de t = Retorna r) l rs.
Proof.
  induction l as [|t l IH]; intros H.
  - exists []. split; [reflexivity|constructor].
  - destruct IH as (rs & E & F); [intros; apply H; now right|].
    assert (Ht := H t (or_introl eq_refl)).
    cbn. destruct (App9.resposta_de t) as [r|e] eqn:R; [|discriminate].
    rewrite E. exists (r :: rs). split; [reflexivity|]. now constructor.
Qed.

Lemma contagem_por_status l :
  App9.contar App9.PENDENTE l + App9.contar App9.EM_PROGRESSO l
  + App9.contar App9.CONCLUIDO l + App9.contar App9.FALHA l
  + App9.contar App9.CANCELADO l = Z.of_nat (List.length l).
Proof.
  unfold App9.contar. induction l as [|t l IH]; [reflexivity|].
  cbn [filter List.length]. destruct (App9.status t); cbn -[Z.of_nat]; lia.
Qed.

(** Property X18: with [limit] between 1 and 100, [offset] not negative and
    every stored result an object or null, the listing answers; the page has
    at most [limit] responses and at most [total] (the number of rows that
    pass the filters); each response is built from a row of the table that
    passes the filters given; the page is in descending order of creation
    time; the table is untouched; and the four counters, which ignore the
    filters and leave out the cancelled rows, add up with the cancelled rows
    to the size of the table. *)
Theorem listagem_de_tarefas (w : App9.Estado) sf tf limit offset :
  1 <= limit <= 100 -> 0 <= offset ->
  (forall t, In t (tarefas w) -> levantou (App9.resposta_de t) = false) ->
  exists resp w',
    com_get_db (App9.listar_tarefas sf tf limit offset) w = (Retorna resp, w') /\
    tarefas w' = tarefas w /\
    Z.of_nat (List.length (App9.lt_tarefas resp)) <= limit /\
    Z.of_nat (List.length (App9.lt_tarefas resp)) <= App9.lt_total resp /\
    App9.lt_total resp
    = Z.of_nat (List.length (App9.filtrar sf tf (tarefas w))) /\
    decrescente App9.r_timestamp_criacao (App9.lt_tarefas resp) /\
    (forall r, In r (App9.lt_tarefas resp) ->
       exists t, In t (tarefas w) /\ App9.resposta_de t = Retorna r /\
         match sf with Some s => App9.status t = s | None => True end /\
         match tf with Some tp => App9.tipo t = tp | None => True end) /\
    App9.lt_pendentes resp + App9.lt_em_progresso resp
    + App9.lt_concluidas resp + App9.lt_falhas resp
    + App9.contar App9.CANCELADO (tarefas w)
    = Z.of_nat (List.length (tarefas w)).
Proof.
  intros [L1 L2] Ho Hc.
  assert (B1 : ((limit <? 1) || (100 <? limit))%bool = false).
  { apply orb_false_iff. split; apply Z.ltb_ge; lia. }
  assert (B2 : (offset <? 0) = false) by (apply Z.ltb_ge; lia).
  set (pagina := firstn (Z.to_nat limit)
         (skipn (Z.to_nat offset)
            (ordenar_desc App9.timestamp_criacao (App9.filtrar sf tf (tarefas w))))).
  assert (Pin : forall t, In t pagina -> In t (App9.filtrar sf tf (tarefas w))).
  { intros t Ht. unfold pagina in Ht. apply em_firstn in Ht.
    apply em_skipn in Ht. apply ordenar_desc_in in Ht. exact Ht. }
  destruct (converter_retorna pagina) as (rs & E & F).
  { intros t Ht. apply Hc. apply Pin in Ht. apply filtrar_in in Ht.
    exact (proj1 Ht). }
  unfold com_get_db, finalmente, sessao, App9.listar_tarefas,
    App9.registrar_requisicao, bind, ret, SessionLocal, db_linhas, db_close,
    visao, da_saida.
  cbn -[App9.filtrar App9.converter ordenar_desc firstn skipn Z.ltb App9.contar].
  rewrite B1, B2.
  cbn -[App9.filtrar App9.converter ordenar_desc firstn skipn Z.ltb App9.contar].
  fold pagina. rewrite E.
  eexists; eexists. split; [reflexivity|].
  cbn -[App9.filtrar App9.converter ordenar_desc firstn skipn Z.ltb App9.contar].
  assert (Len : List.length rs = List.length pagina)
    by (symmetry; eapply Forall2_length; eauto).
  split; [reflexivity|]. split.
  { rewrite Len. unfold pagina. rewrite length_firstn. lia. }
  split.
  { rewrite Len. unfold pagina. rewrite length_firstn, length_skipn,
      ordenar_desc_length. lia. }
  split; [reflexivity|].
  split.
  { assert (D : decrescente App9.timestamp_criacao pagina).
    { apply decrescente_firstn, decrescente_skipn, ordenar_desc_decrescente. }
    clear -D F. unfold decrescente in *.
    induction F as [|t r l rs' R F IH]; [constructor|].
    inversion D as [|? ? Dl Fa]; subst. constructor; [auto|].
    apply Forall_forall. intros r' Hr'.
    assert (X : exists t', In t' l /\ App9.resposta_de t' = Retorna r').
    { clear -F Hr'. induction F as [|t0 r0 l0 rs0 R0 F0 IH0]; [contradiction|].
      destruct Hr' as [->|Hr']; [exists t0; split; [now left|exact R0]|].
      destruct (IH0 Hr') as (u & Hu & Ru). exists u. split; [now right|exact Ru]. }
    destruct X as (t' & Ht' & Rt').
    rewrite Forall_forall in Fa. specialize (Fa t' Ht').
    apply resposta_de_campos in R. apply resposta_de_campos in Rt'.
    destruct R as (_ & _ & _ & -> & _). destruct Rt' as (_ & _ & _ & -> & _).
    exact Fa. }
  split; [|apply contagem_por_status].
  intros r Hr.
  assert (X : exists t, In t pagina /\ App9.resposta_de t = Retorna r).
  { clear -F Hr. induction F as [|t r' l rs' R F IH]; [contradiction|].
    destruct Hr as [->|Hr]; [exists t; split; [now left|exact R]|].
    destruct (IH Hr) as (u & Hu & Ru). exists u. split; [now right|exact Ru]. }
  destruct X as (t & Ht & Rt). exists t.
  apply Pin, filtrar_in in Ht. destruct Ht as (Hin & Hs & Htp).
  repeat split; assumption.
Qed.

Lemma listagem_de_tarefas_witness :
  (forall t, In t (tarefas Exemplos.mundo9_tres) ->
             levantou (App9.resposta_de t) = false) /\
  exists resp w',
    com_get_db (App9.listar_tarefas None (Some App9.TREINAMENTO) 1 0)
      Exemplos.mundo9_tres = (Retorna resp, w') /\
    map App9.r_task_id (App9.lt_tarefas resp) = ["t3"] /\
    App9.lt_total resp = 2 /\
    App9.lt_pendentes resp + App9.lt_em_progresso resp
    + App9.lt_concluidas resp + App9.lt_falhas resp = 2.
Proof.
  assert (H1 : 1 <= 1 <= 100) by lia.
  assert (H2 : 0 <= 0) by lia.
  assert (H3 : forall t, In t (tarefas Exemplos.mundo9_tres) ->
                         levantou (App9.resposta_de t) = false)
    by (intros t [<-|[<-|[<-|[]]]]; reflexivity).
  split; [exact H3|].
  destruct (listagem_de_tarefas Exemplos.mundo9_tres None
              (Some App9.TREINAMENTO) 1 0 H1 H2 H3)
    as (resp & w' & E & _).
  exists resp, w'. split; [exact E|].
  vm_compute in E. injection E as <- _.
  split; [reflexivity|]. split; reflexivity.
Defined.

(** Property X19: a listing request whose [limit] is outside 1..100 or
    whose [offset] is negative is refused with status 422 before the handler
    body runs: the request is not counted and the table is not read or
    changed. *)
Theorem listagem_rejeitada (w : App9.Estado) sf tf limit offset :
  limit < 1 \/ 100 < limit \/ offset < 0 ->
  exists e w',
    com_get_db (App9.listar_tarefas sf tf limit offset) w = (Levanta e, w') /\
    exc_status_code e = Some 422 /\
    tarefas w' = tarefas w /\ extra w' = extra w.
Proof.
  intros H.
  unfold com_get_db, finalmente, sessao, App9.listar_tarefas.
  cbn [rodar]. unfold SessionLocal, db_close, levantar, ret.
  cbn -[Z.ltb].
  destruct ((limit <? 1) || (100 <? limit))%bool eqn:B1.
  - eexists; eexists. split; [reflexivity|]. repeat split.
  - destruct (offset <? 0) eqn:B2.
    + eexists; eexists. split; [reflexivity|]. repeat split.
    + apply orb_false_iff in B1. destruct B1 as [B1 B1'].
      apply Z.ltb_ge in B1, B1', B2. lia.
Qed.

Lemma listagem_rejeitada_witness :
  exists e w',
    com_get_db (App9.listar_tarefas None None 0 0) Exemplos.mundo9_tres
    = (Levanta e, w') /\
    exc_status_code e = Some 422 /\
    extra w' = extra Exemplos.mundo9_tres.
Proof.
  assert (H : 0 < 1 \/ 100 < 0 \/ 0 < 0) by (left; lia).
  destruct (listagem_rejeitada Exemplos.mundo9_tres None None 0 0 H)
    as (e & w' & E & C & _ & X).
  exists e, w'. split; [exact E|]. split; [exact C|exact X].
Defined.

(** *** The handler that stores the task before starting it *)

Lemma proximo_id_maior ts r :
  In r ts -> (App9.id r < App9.proximo_id ts)%nat.
Proof.
  unfold App9.proximo_id. induction ts as [|x ts IH]; [contradiction|].
  cbn [map fold_right]. intros [->|H]; [lia|]. specialize (IH H). lia.
Qed.

(** Rewriting the row that was added last, under the key it was given,
    changes that row only. *)
Lemma gravar9_no_fim ts l l' :
  App9.id l = App9.proximo_id ts -> App9.id l' = App9.id l ->
  App9.gravar l' (ts ++ [l]) = (ts ++ [l'])%list.
Proof.
  intros Hl Hl'. unfold App9.gravar. rewrite map_app. f_equal.
  - rewrite <- (map_id ts) at 2. apply map_ext_in. intros r Hr.
    apply proximo_id_maior in Hr.
    destruct (Nat.eqb_spec (App9.id r) (App9.id l')); [lia|reflexivity].
  - cbn. now rewrite Hl', Nat.eqb_refl.
Qed.

Lemma buscar9_no_fim tid t ts :
  App9.buscar tid ts = None -> App9.task_id t = tid ->
  App9.buscar tid (ts ++ [t]) = Some t.
Proof.
  unfold App9.buscar. intros Hn Ht. induction ts as [|r ts IH]; simpl in *.
  - now rewrite Ht, String.eqb_refl.
  - destruct (String.eqb (App9.task_id r) tid); [discriminate|auto].
Qed.

Lemma buscar9_app_none tid t ts :
  App9.buscar tid ts = None ->
  App9.buscar tid (ts ++ [t])
  = if String.eqb (App9.task_id t) tid then Some t else None.
Proof.
  unfold App9.buscar. intros Hn. induction ts as [|r ts IH]; simpl in *.
  - reflexivity.
  - destruct (String.eqb (App9.task_id r) tid); [discriminate|auto].
Qed.

Ltac reduzir9 :=
  cbn -[App9.buscar App9.gravar App9.proximo_id String.eqb].

(** The batch-prediction request, run to its end: both commits and the
    enqueue are done when building the response raises. *)
Lemma prever_lote_roda (w : App9.Estado) imoveis :
  App9.modelo_treinado (extra w) = true ->
  App9.buscar "pending" (tarefas w) = None ->
  App9.buscar (uuids w (S (gerados w))) (tarefas w) = None ->
  exists linha w',
    com_get_db (App9.prever_lote imoveis) w
    = (Levanta (TypeError "datetime"), w') /\
    tarefas w' = (tarefas w ++ [linha])%list /\
    fila w' = (fila w ++ [{| msg_nome := "fazer_previsao";
                             msg_task_id := uuids w (S (gerados w));
                             msg_args := [JLista imoveis] |}])%list /\
    App9.buscar (uuids w (S (gerados w))) (tarefas w') = Some linha /\
    App9.task_id linha = uuids w (S (gerados w)) /\
    App9.tipo linha = App9.PREVISAO_LOTE /\
    App9.status linha = App9.PENDENTE /\
    App9.timestamp_criacao linha = relogio w (lidas w) /\
    App9.parametros linha
    = Some (JDic [("num_imoveis", JNum (Z.of_nat (List.length imoveis)))]) /\
    App9.timestamp_inicio linha = None /\
    App9.timestamp_fim linha = None /\
    App9.resultado linha = None /\ App9.erro linha = None.
Proof.
  intros Hm Hp Hu.
  unfold com_get_db, finalmente, sessao, App9.prever_lote.
  cbn [rodar].
  unfold SessionLocal, ret, uuid4, utcnow, App9.db_add_commit, delay,
    apply_async, App9.db_set_task_id, bind, db_linhas, db_pendente, db_commit,
    db_close, visao, levantar, da_saida.
  reduzir9. rewrite Hm. reduzir9. rewrite Hp. reduzir9.
  rewrite (buscar9_app_none _ _ _ Hu). reduzir9.
  lazymatch goal with
  | |- context [App9.gravar (App9.com_task_id ?n ?l) (tarefas w ++ [?l])] =>
      rewrite (gravar9_no_fim (tarefas w) l (App9.com_task_id n l)
                 eq_refl eq_refl);
      exists (App9.com_task_id n l)
  end.
  destruct (String.eqb "pending" (uuids w (S (gerados w))));
    reduzir9; rewrite ?Nat.eqb_refl;
    (eexists; split; [reflexivity|]); reduzir9;
    (split; [reflexivity|]); (split; [reflexivity|]);
    (split; [apply buscar9_no_fim; [exact Hu|reflexivity]|]);
    cbn; repeat split; reflexivity.
Qed.

(** Property X21: while a row is left under the placeholder id "pending"
    (as it is between the two commits of a batch-prediction request, and
    for good when the enqueue of one fails), every batch-prediction request
    with a trained model ends in an integrity error on the unique task id,
    with the table and the queue as before. *)
Theorem provisoria_bloqueia (w : App9.Estado) imoveis r :
  App9.modelo_treinado (extra w) = true ->
  App9.buscar "pending" (tarefas w) = Some r ->
  exists w',
    com_get_db (App9.prever_lote imoveis) w
    = (Levanta (IntegrityError "tarefas_assincronas.task_id"), w') /\
    tarefas w' = tarefas w /\ fila w' = fila w.
Proof.
  intros Hm Hp.
  unfold com_get_db, finalmente, sessao, App9.prever_lote.
  cbn [rodar].
  unfold SessionLocal, ret, uuid4, utcnow, App9.db_add_commit, bind,
    db_linhas, db_close, visao, levantar.
  cbn -[App9.buscar]. rewrite Hm. cbn -[App9.buscar]. rewrite Hp.
  cbn -[App9.buscar].
  eexists. split; [reflexivity|]. split; reflexivity.
Qed.

(** A second request that arrives while a first one is between its two
    commits. *)
Lemma provisoria_bloqueia_witness :
  let v := avancar 6 (sessao (App9.prever_lote Exemplos.imoveis_ex))
             Exemplos.mundo9_vazio in
  map App9.task_id (tarefas v) = ["pending"] /\
  App9.modelo_treinado (extra v) = true /\
  exists v',
    com_get_db (App9.prever_lote [JNull]) v
    = (Levanta (IntegrityError "tarefas_assincronas.task_id"), v') /\
    tarefas v' = tarefas v /\ fila v' = fila v.
Proof.
  intros v.
  assert (H1 : App9.modelo_treinado (extra v) = true) by reflexivity.
  assert (H2 : exists r, App9.buscar "pending" (tarefas v) = Some r)
    by (eexists; reflexivity).
  destruct H2 as [r H2].
  split; [reflexivity|]. split; [exact H1|].
  exact (provisoria_bloqueia v [JNull] r H1 H2).
Defined.

Lemma atualizacoes_tabela chamadas (w : App9.Estado) :
  tarefas (App9.atualizacoes chamadas w) = tarefas w /\
  fila (App9.atualizacoes chamadas w) = fila w.
Proof.
  unfold App9.atualizacoes. revert w.
  induction chamadas as [|[[[tid st] r] e] l IH]; intros w; [now split|].
  cbn [fold_left].
  destruct (IH (snd (App9.atualizar_status_tarefa tid st r e w))) as [A B].
  rewrite A, B. split; reflexivity.
Qed.

(** Property X22: the progress a worker reports never reaches the status
    query.  After a batch-prediction request (trained model, no row left
    under "pending", fresh task id), which ends in [TypeError] with the task
    stored and queued under the id Celery drew, and after any sequence of
    calls of the worker's updater (any ids, statuses, results and errors),
    the status query under that id still answers PENDENTE, with no start,
    no end, no result and no error. *)
Theorem tarefa9_fica_pendente (w : App9.Estado) imoveis chamadas :
  App9.modelo_treinado (extra w) = true ->
  App9.buscar "pending" (tarefas w) = None ->
  App9.buscar (uuids w (S (gerados w))) (tarefas w) = None ->
  exists w1 resp w3,
    com_get_db (App9.prever_lote imoveis) w
    = (Levanta (TypeError "datetime"), w1) /\
    map msg_task_id (fila w1)
    = (map msg_task_id (fila w) ++ [uuids w (S (gerados w))])%list /\
    com_get_db (App9.status_tarefa (uuids w (S (gerados w))))
      (App9.atualizacoes chamadas w1) = (Retorna resp, w3) /\
    App9.r_task_id resp = uuids w (S (gerados w)) /\
    App9.r_tipo resp = App9.PREVISAO_LOTE /\
    App9.r_status resp = App9.PENDENTE /\
    App9.r_timestamp_inicio resp = None /\
    App9.r_timestamp_fim resp = None /\
    App9.r_resultado resp = None /\
    App9.r_erro resp = None.
Proof.
  intros Hm Hp Hu.
  destruct (prever_lote_roda w imoveis Hm Hp Hu)
    as (linha & w1 & E & _ & F & B & Ht & Htp & Hs & _ & _ & Hi & Hf & Hr & He).
  destruct (atualizacoes_tabela chamadas w1) as [T _].
  rewrite <- T in B.
  destruct (status_tarefa_encontrada _ _ _ B) as (w3 & V & _).
  rewrite (resposta_de_sem_resultado linha Hr) in V.
  exists w1. eexists. exists w3.
  split; [exact E|].
  split; [rewrite F, map_app; reflexivity|].
  split; [exact V|]. cbn.
  split; [exact Ht|]. split; [exact Htp|]. split; [exact Hs|].
  split; [exact Hi|]. split; [exact Hf|]. split; [reflexivity|exact He].
Qed.

Lemma tarefa9_fica_pendente_witness :
  App9.buscar "c-1" (tarefas Exemplos.mundo9_vazio) = None /\
  exists w1 resp w3,
    com_get_db (App9.prever_lote Exemplos.imoveis_ex) Exemplos.mundo9_vazio
    = (Levanta (TypeError "datetime"), w1) /\
    map msg_task_id (fila w1) = ["c-1"] /\
    com_get_db (App9.status_tarefa "c-1")
      (App9.atualizacoes Exemplos.chamadas_ex w1) = (Retorna resp, w3) /\
    App9.r_status resp = App9.PENDENTE /\
    App9.r_resultado resp = None.
Proof.
  assert (H1 : App9.modelo_treinado (extra Exemplos.mundo9_vazio) = true)
    by reflexivity.
  assert (H2 : App9.buscar "pending" (tarefas Exemplos.mundo9_vazio) = None)
    by reflexivity.
  assert (H3 : App9.buscar
                 (uuids Exemplos.mundo9_vazio (S (gerados Exemplos.mundo9_vazio)))
                 (tarefas Exemplos.mundo9_vazio) = None) by reflexivity.
  split; [exact H3|].
  destruct (tarefa9_fica_pendente Exemplos.mundo9_vazio Exemplos.imoveis_ex
              Exemplos.chamadas_ex H1 H2 H3)
    as (w1 & resp & w3 & E & F & V & _ & _ & S & _ & _ & R & _).
  exists w1, resp, w3. split; [exact E|]. split; [exact F|].
  split; [exact V|]. split; [exact S|exact R].
Defined.

(** Property X23: a batch-prediction request is refused with status 400
    while no model is trained, before an identifier is drawn or anything is
    stored or enqueued.  With a trained model, no row left under "pending"
    and a fresh task id, the request stores one more row under the task id
    Celery drew (type PREVISAO_LOTE, status PENDENTE, the number of records
    as its parameters), enqueues one message "fazer_previsao" under that id,
    and then ends in [TypeError]: the response content holds the creation
    time as a [datetime], which [JSONResponse] cannot encode, so the task is
    registered and queued while the client gets no answer with its id. *)
Theorem prever_lote_submete (w : App9.Estado) imoveis :
  (App9.modelo_treinado (extra w) = false ->
   com_get_db (App9.prever_lote imoveis) w
   = (Levanta (HTTPException 400
                 "Modelo não treinado. Treine o modelo primeiro."),
      registrar EvFechar (com_transacao None w))) /\
  (App9.modelo_treinado (extra w) = true ->
   App9.buscar "pending" (tarefas w) = None ->
   App9.buscar (uuids w (S (gerados w))) (tarefas w) = None ->
   exists linha w',
     com_get_db (App9.prever_lote imoveis) w
     = (Levanta (TypeError "datetime"), w') /\
     tarefas w' = (tarefas w ++ [linha])%list /\
     fila w' = (fila w ++ [{| msg_nome := "fazer_previsao";
                              msg_task_id := uuids w (S (gerados w));
                              msg_args := [JLista imoveis] |}])%list /\
     App9.task_id linha = uuids w (S (gerados w)) /\
     App9.tipo linha = App9.PREVISAO_LOTE /\
     App9.status linha = App9.PENDENTE /\
     App9.parametros linha
     = Some (JDic [("num_imoveis", JNum (Z.of_nat (List.length imoveis)))]) /\
     App9.timestamp_inicio linha = None /\
     App9.resultado linha = None).
Proof.
  split.
  - intros Hm.
    unfold com_get_db, finalmente, sessao, App9.prever_lote.
    cbn [rodar]. unfold SessionLocal, db_close. cbn. rewrite Hm. reflexivity.
  - intros Hm Hp Hu.
    destruct (prever_lote_roda w imoveis Hm Hp Hu)
      as (linha & w' & E & T & F & _ & Ht & Htp & Hs & _ & Hpar & Hi & _ & Hr & _).
    exists linha, w'. split; [exact E|]. split; [exact T|]. split; [exact F|].
    split; [exact Ht|]. split; [exact Htp|]. split; [exact Hs|].
    split; [exact Hpar|]. split; [exact Hi|exact Hr].
Qed.

Lemma prever_lote_submete_witness :
  exc_status_code
    match fst (com_get_db (App9.prever_lote Exemplos.imoveis_ex)
                 Exemplos.mundo9_sem_modelo) with
    | Levanta e => e
    | Retorna _ => Exemplos.nao_treinado
    end = Some 400 /\
  exists linha w',
    com_get_db (App9.prever_lote Exemplos.imoveis_ex) Exemplos.mundo9_vazio
    = (Levanta (TypeError "datetime"), w') /\
    tarefas w' = [linha] /\ App9.task_id linha = "c-1" /\
    map msg_task_id (fila w') = ["c-1"].
Proof.
  split.
  - rewrite (proj1 (prever_lote_submete Exemplos.mundo9_sem_modelo
                      Exemplos.imoveis_ex) eq_refl).
    reflexivity.
  - destruct (proj2 (prever_lote_submete Exemplos.mundo9_vazio
                       Exemplos.imoveis_ex) eq_refl eq_refl eq_refl)
      as (linha & w' & E & T & F & I & _).
    exists linha, w'. split; [exact E|]. split; [exact T|].
    split; [exact I|]. rewrite F. reflexivity.
Defined.
